(** * EasyBuild easyblocks for Blender, MVAPICH2 and PETSc

    A shallow embedding of [easybuild/easyblocks/b/blender.py],
    [easybuild/easyblocks/m/mvapich2.py] and [easybuild/easyblocks/p/petsc.py],
    and the properties of their configure and sanity-check steps.

    Python strings are [string]; the process environment and the table of
    installed software are finite maps; a step of an easyblock is a
    computation in a state-and-exception monad whose state survives an
    exception, as the mutated [self.cfg] does in Python. *)

From Stdlib Require Import String Ascii List NArith ZArith Bool Lia.
From Stdlib Require Import Numbers.DecimalString.
From stdpp Require Import base gmap strings.

Import ListNotations.
Local Open Scope list_scope.
Local Open Scope string_scope.

(** ** Python built-ins used by the easyblocks *)

Module Py.

(** [s.startswith(p)] *)
Fixpoint startswith (p s : string) : bool :=
  match p, s with
  | EmptyString, _ => true
  | String a p', String b s' => if Ascii.eqb a b then startswith p' s' else false
  | String _ _, EmptyString => false
  end.

(** [sub in s] for two strings (also [re.search] of a literal pattern). *)
Fixpoint contains (sub s : string) : bool :=
  startswith sub s ||
  match s with
  | EmptyString => false
  | String _ s' => contains sub s'
  end.

(** Number of positions of [s] at which [sub] starts. *)
Fixpoint occurrences (sub s : string) : nat :=
  (if startswith sub s then 1 else 0) +
  match s with
  | EmptyString => 0
  | String _ s' => occurrences sub s'
  end.

(** [s.endswith("/")] *)
Fixpoint ends_with_slash (s : string) : bool :=
  match s with
  | EmptyString => false
  | String c EmptyString => Ascii.eqb c "/"
  | String _ s' => ends_with_slash s'
  end.

(** [posixpath.join(a, b)] for one further component. *)
Definition join2 (path b : string) : string :=
  if startswith "/" b then b
  else if String.eqb path EmptyString || ends_with_slash path then path ++ b
  else path ++ "/" ++ b.

(** [os.path.join(a, *p)] *)
Definition join (a : string) (p : list string) : string :=
  fold_left join2 p a.

Definition is_upper (c : ascii) : bool :=
  (65 <=? nat_of_ascii c)%nat && (nat_of_ascii c <=? 90)%nat.

Definition is_lower (c : ascii) : bool :=
  (97 <=? nat_of_ascii c)%nat && (nat_of_ascii c <=? 122)%nat.

Definition is_digit (c : ascii) : bool :=
  (48 <=? nat_of_ascii c)%nat && (nat_of_ascii c <=? 57)%nat.

(** [\s] of the [re] module on byte strings: space, \t, \n, \r, \f, \v. *)
Definition is_space (c : ascii) : bool :=
  let n := nat_of_ascii c in
  (n =? 32)%nat || ((9 <=? n)%nat && (n <=? 13)%nat).

Definition lower_char (c : ascii) : ascii :=
  if is_upper c then ascii_of_nat (nat_of_ascii c + 32) else c.

Definition upper_char (c : ascii) : ascii :=
  if is_lower c then ascii_of_nat (nat_of_ascii c - 32) else c.

Fixpoint map_chars (f : ascii -> ascii) (s : string) : string :=
  match s with
  | EmptyString => EmptyString
  | String c s' => String (f c) (map_chars f s')
  end.

(** [s.lower()] and [s.upper()] *)
Definition lower : string -> string := map_chars lower_char.
Definition upper : string -> string := map_chars upper_char.

(** [sep.join(l)] *)
Fixpoint str_join (sep : string) (l : list string) : string :=
  match l with
  | [] => EmptyString
  | [x] => x
  | x :: l' => x ++ sep ++ str_join sep l'
  end.

(** [s.split(sep)] for a one-character separator; [cur] is the piece
    being read. *)
Fixpoint split_on (sep : ascii) (cur s : string) : list string :=
  match s with
  | EmptyString => [cur]
  | String c s' =>
      if Ascii.eqb c sep then cur :: split_on sep EmptyString s'
      else split_on sep (cur ++ String c EmptyString) s'
  end.

Definition split (sep : ascii) (s : string) : list string := split_on sep EmptyString s.

(** ['%s' % n] and ['%d' % n] for a non-negative integer. *)
Definition str_of_N (n : N) : string :=
  NilZero.string_of_uint (N.to_uint n).

(** ['%d' % b] for a boolean. *)
Definition fmt_d_bool (b : bool) : string := if b then "1" else "0".

(** ['%s' % x] where [x] is a string or [None]. *)
Definition fmt_s (x : option string) : string :=
  match x with
  | Some s => s
  | None => "None"
  end.

(** ['%s' % x] where [x] is an integer or [None]. *)
Definition fmt_s_int (x : option N) : string :=
  match x with
  | Some n => str_of_N n
  | None => "None"
  end.

(** Truth value of a string-or-[None]: [None] and [''] are false. *)
Definition truthy (x : option string) : bool :=
  match x with
  | Some s => negb (String.eqb s EmptyString)
  | None => false
  end.

End Py.

(** ** [distutils.version.LooseVersion] *)

Module LooseVersion.

(** A component of a parsed version: an integer or a string. *)
Inductive component :=
| CInt (n : N)
| CStr (s : string).

(** The pieces [component_re = (\d+ | [a-z]+ | \.)] splits a version
    string into: runs of digits, runs of lower-case letters, single dots,
    and what lies between them. *)
Inductive cclass := Digits | Letters | Dot | Between.

Definition classify (c : ascii) : cclass :=
  if Py.is_digit c then Digits
  else if Py.is_lower c then Letters
  else if Ascii.eqb c "." then Dot
  else Between.

Definition same_run (k k' : cclass) : bool :=
  match k, k' with
  | Digits, Digits | Letters, Letters | Between, Between => true
  | _, _ => false
  end.

(** [component_re.split(vstring)], without the empty pieces; [cur] is the
    run being read. *)
Fixpoint runs (cur : option (cclass * string)) (s : string) : list (cclass * string) :=
  match s with
  | EmptyString =>
      match cur with
      | Some r => [r]
      | None => []
      end
  | String c s' =>
      let k := classify c in
      match cur with
      | Some (k', acc) =>
          if same_run k k' then runs (Some (k', acc ++ String c EmptyString)) s'
          else (k', acc) :: runs (Some (k, String c EmptyString)) s'
      | None => runs (Some (k, String c EmptyString)) s'
      end
  end.

(** [int(x)] of a run of decimal digits. *)
Definition int_of_digits (s : string) : N :=
  fold_left (fun acc c => (10 * acc + N.of_nat (nat_of_ascii c - 48))%N)
            (list_ascii_of_string s) 0%N.

(** [LooseVersion.parse]: drop the dots, turn the digit runs into
    integers, keep the other pieces as strings. *)
Definition parse (vstring : string) : list component :=
  flat_map (fun r : cclass * string =>
              match r with
              | (Dot, _) => []
              | (Digits, x) => [CInt (int_of_digits x)]
              | (_, x) => [CStr x]
              end)
           (runs None vstring).

(** Python 2 [cmp] of two components: integers by value, strings
    lexicographically, and any integer below any string. *)
Definition cmp_component (a b : component) : comparison :=
  match a, b with
  | CInt m, CInt n => N.compare m n
  | CStr s, CStr t => String.compare s t
  | CInt _, CStr _ => Lt
  | CStr _, CInt _ => Gt
  end.

(** Python 2 [cmp] of two lists: the first differing position decides,
    otherwise the shorter list is the smaller. *)
Fixpoint cmp_list (a b : list component) : comparison :=
  match a, b with
  | [], [] => Eq
  | [], _ :: _ => Lt
  | _ :: _, [] => Gt
  | x :: a', y :: b' =>
      match cmp_component x y with
      | Eq => cmp_list a' b'
      | c => c
      end
  end.

(** [LooseVersion(a).__cmp__(LooseVersion(b))] *)
Definition cmp (a b : string) : comparison := cmp_list (parse a) (parse b).

(** [LooseVersion(a) >= LooseVersion(b)] *)
Definition ge (a b : string) : bool :=
  match cmp a b with
  | Lt => false
  | _ => true
  end.

End LooseVersion.

(** ** The host framework: errors, the step monad, option strings *)

(** An argument of a [%]-format string. *)
Inductive fmt_arg :=
| AStr (s : string)
| AInt (n : nat)
| AList (l : list string).

(** Exceptions a step can raise: [EasyBuildError(msg, *args)] carries its
    format string and the arguments it is formatted with; [AttributeError]
    is what a method call on [None] raises. *)
Inductive exn :=
| EasyBuildError (msg : string) (args : list fmt_arg)
| AttributeError (what : string).

Inductive result (A : Type) :=
| Ok (a : A)
| Raise (e : exn).

Arguments Ok {A} a.
Arguments Raise {A} e.

(** A step over a state [S]: it returns the state it leaves behind together
    with a value or the exception raised; what was mutated before a raise
    stays mutated. *)
Definition M (S A : Type) : Type := S -> S * result A.

Definition ret {S A} (a : A) : M S A := fun s => (s, Ok a).

Definition bind {S A B} (m : M S A) (k : A -> M S B) : M S B :=
  fun s =>
    match m s with
    | (s', Ok a) => k a s'
    | (s', Raise e) => (s', Raise e)
    end.

Definition raise {S A} (e : exn) : M S A := fun s => (s, Raise e).

Definition gets {S A} (f : S -> A) : M S A := fun s => (s, Ok (f s)).

Definition modify {S} (f : S -> S) : M S unit := fun s => (f s, Ok tt).

Notation "x <- m ;; k" := (bind m (fun x => k))
  (at level 100, m at next level, right associativity).
Notation "m ;; k" := (bind m (fun _ => k))
  (at level 100, right associativity).

(** [if c: body] *)
Definition when {S} (c : bool) (body : M S unit) : M S unit :=
  if c then body else ret tt.

(** [for x in l: body(x)] *)
Fixpoint for_each {S A} (l : list A) (body : A -> M S unit) : M S unit :=
  match l with
  | [] => ret tt
  | x :: l' => body x ;; for_each l' body
  end.

(** Modelled from the spec: [EasyConfig.update] of the host framework is not
    among the sources; the adapter's flags are "appended to a
    configopts/buildopts string-valued option" and the option string is the
    "flags space-joined".  The new value of the option is the previous one,
    a space, the appended text and a space. *)
Definition cfg_update (prev value : string) : string :=
  prev ++ " " ++ value ++ " ".

(** Modelled from the spec: [run_cmd] of the host framework, the "generic
    run_external_command(cmd) -> (stdout, exit_code)"; with [log_all] a
    non-zero exit code is an error of the step ("external command reports
    non-zero exit").  [run] is the external world: what a command line
    prints and how it exits. *)
Definition run_cmd {S} (run : string -> string * Z) (cmd : string) : M S string :=
  let (out, ec) := run cmd in
  if (ec =? 0)%Z then ret out
  else raise (EasyBuildError "cmd %s exited with exitcode %s and output: %s"
                             [AStr cmd; AInt (Z.to_nat ec); AStr out]).

(** The [custom_paths] dictionary of a sanity check: the files and the
    directories expected under the install directory. *)
Record custom_paths := {
  files : list string;
  dirs : list string
}.

(** Modelled from the spec: the "absent" paths of the sanity verifier, the
    expected files that are no file and the expected directories that are no
    directory on disk. *)
Definition missing_paths (isfile isdir : string -> bool) (cp : custom_paths) : list string :=
  (List.filter (fun f => negb (isfile f)) (files cp) ++
   List.filter (fun d => negb (isdir d)) (dirs cp))%list.

(** Modelled from the spec: [sanity_check_step] of the host framework, which
    is not among the sources: "verify_installed(paths: {files, dirs}) ->
    void", which "fails with MissingArtifactError listing every absent path
    if any expected file or directory is not present post-install". *)
Definition verify_installed {S} (isfile isdir : string -> bool) (cp : custom_paths) : M S unit :=
  match missing_paths isfile isdir cp with
  | [] => ret tt
  | missing =>
      raise (EasyBuildError "Sanity check failed: no file or directory at %s" [AList missing])
  end.

(** ** [easybuild/easyblocks/b/blender.py] *)

Module Blender.

(** What the easyblock reads from outside: the file system through
    [glob.glob], the installed software ([get_software_root],
    [get_software_version]) and the system's shared-library extension. *)
Record World := {
  glob : string -> list string;
  software_root : gmap string string;
  software_version : gmap string string;
  shared_lib_ext : string
}.

Record Cfg := {
  configopts : string;
  separate_build_dir : bool
}.

Definition set_configopts (v : string) (c : Cfg) : Cfg :=
  {| configopts := v; separate_build_dir := separate_build_dir c |}.

Definition set_separate_build_dir (b : bool) (c : Cfg) : Cfg :=
  {| configopts := configopts c; separate_build_dir := b |}.

(** [self.cfg.update('configopts', value)] *)
Definition update_configopts (value : string) : M Cfg unit :=
  modify (fun c => set_configopts (cfg_update (configopts c) value) c).

Definition find_glob_pattern {S} (w : World) (glob_pattern : string) : M S string :=
  let res := glob w glob_pattern in
  match res with
  | [m] => ret m
  | _ => raise (EasyBuildError "Was expecting exactly one match for '%s', found %d: %s"
                               [AStr glob_pattern; AInt (length res); AList res])
  end.

(** The [default_config_opts] dictionary: a finite map, which has no order
    of its own. *)
Definition default_config_opts : gmap string string :=
  list_to_map
    [ ("WITH_INSTALL_PORTABLE", "OFF");
      ("WITH_BUILDINFO", "OFF");
      ("WITH_CPU_SSE", "OFF");
      ("CMAKE_C_FLAGS_RELEASE", "-DNDEBUG");
      ("CMAKE_CXX_FLAGS_RELEASE", "-DNDEBUG");
      ("WITH_GAMEENGINE", "OFF");
      ("WITH_SYSTEM_GLEW", "OFF") ].

(** One turn of the loop over the defaults: the flag is appended unless
    [-D<key>=] already occurs in [configopts]. *)
Definition apply_default (kv : string * string) : M Cfg unit :=
  let opt := "-D" ++ fst kv ++ "=" in
  c <- gets configopts ;;
  when (negb (Py.contains opt c)) (update_configopts (opt ++ snd kv)).

(** The loop [for key in ...: ...], for the items of a dictionary in the
    order in which the loop meets them. *)
Definition apply_defaults (defaults : list (string * string)) : M Cfg unit :=
  for_each defaults apply_default.

(** The flag of a default: [-D<key>=<value>], and its [-D<key>=] part. *)
Definition default_opt (kv : string * string) : string := "-D" ++ fst kv ++ "=".
Definition default_flag (kv : string * string) : string := default_opt kv ++ snd kv.

(** The items whose flag the loop over the defaults appends when it
    starts from the option string [opts], in the order it appends them. *)
Fixpoint applied_defaults (defaults : list (string * string)) (opts : string)
  : list (string * string) :=
  match defaults with
  | [] => []
  | kv :: defaults' =>
      if Py.contains (default_opt kv) opts
      then applied_defaults defaults' opts
      else kv :: applied_defaults defaults' (cfg_update opts (default_flag kv))
  end.

(** ['.'.join(version.split('.')[:2])] *)
Definition short_version (version : string) : string :=
  Py.str_join "." (firstn 2 (Py.split "." version)).

(** The [# Python paths] block. *)
Definition python_paths (w : World) : M Cfg unit :=
  let python_root := software_root w !! "Python" in
  if Py.truthy python_root then
    let python_root := Py.fmt_s python_root in
    let shlib_ext := shared_lib_ext w in
    match software_version w !! "Python" with
    | None => raise (AttributeError "'NoneType' object has no attribute 'split'")
    | Some pyver =>
        let pyshortver := short_version pyver in
        let site_packages :=
          Py.join python_root ["lib"; "python" ++ pyshortver; "site-packages"] in
        numpy_root <- find_glob_pattern w
          (Py.join site_packages ["numpy-*-py" ++ pyshortver ++ "-linux-x86_64.egg"]) ;;
        requests_root <- find_glob_pattern w
          (Py.join site_packages ["requests-*-py" ++ pyshortver ++ ".egg"]) ;;
        python_lib <- find_glob_pattern w
          (Py.join python_root ["lib"; "libpython" ++ pyshortver ++ "*." ++ shlib_ext]) ;;
        python_include_dir <- find_glob_pattern w
          (Py.join python_root ["include"; "python" ++ pyshortver ++ "*"]) ;;
        update_configopts ("-DPYTHON_VERSION=" ++ pyshortver) ;;
        update_configopts ("-DPYTHON_LIBRARY=" ++ python_lib) ;;
        update_configopts ("-DPYTHON_INCLUDE_DIR=" ++ python_include_dir) ;;
        update_configopts ("-DPYTHON_NUMPY_PATH=" ++ numpy_root) ;;
        update_configopts ("-DPYTHON_REQUESTS_PATH=" ++ requests_root)
    end
  else ret tt.

Section ConfigureStep.

(** [CMakeMake.configure_step] of the parent class, which is not among
    the sources. *)
Variable super_configure_step : M Cfg unit.

(** [for key in d]: the items of the dictionary [d] in the order in which
    the interpreter yields its keys.  For a Python 2 dictionary that is the
    order of its hash table, which is neither the order of the source text
    nor fixed by the language. *)
Variable iterate : gmap string string -> list (string * string).

Definition configure_step (w : World) : M Cfg unit :=
  modify (set_separate_build_dir true) ;;
  apply_defaults (iterate default_config_opts) ;;
  python_paths w ;;
  (let openexr_root := software_root w !! "OpenEXR" in
   when (Py.truthy openexr_root)
        (update_configopts
           ("-DOPENEXR_INCLUDE_DIR=" ++ Py.join (Py.fmt_s openexr_root) ["include"]))) ;;
  when (Py.truthy (software_root w !! "OpenColorIO"))
       (update_configopts "-DWITH_OPENCOLORIO=ON") ;;
  when (Py.truthy (software_root w !! "CUDA"))
       (update_configopts "-DWITH_CYCLES_CUDA_BINARIES=ON") ;;
  super_configure_step.

End ConfigureStep.

(** The [custom_paths] of [sanity_check_step]. *)
Definition sanity_check_paths : custom_paths :=
  {| files := ["bin/blender"]; dirs := [] |}.

Definition sanity_check_step {S} (isfile isdir : string -> bool) : M S unit :=
  verify_installed isfile isdir sanity_check_paths.

(** The flags of the optional dependencies other than Python, in the order
    in which [configure_step] looks them up. *)
Definition optional_flags (w : World) : list string :=
  List.concat
    [ (if Py.truthy (software_root w !! "OpenEXR")
       then ["-DOPENEXR_INCLUDE_DIR="
             ++ Py.join (Py.fmt_s (software_root w !! "OpenEXR")) ["include"]]
       else []);
      (if Py.truthy (software_root w !! "OpenColorIO") then ["-DWITH_OPENCOLORIO=ON"] else []);
      (if Py.truthy (software_root w !! "CUDA") then ["-DWITH_CYCLES_CUDA_BINARIES=ON"] else []) ].

End Blender.

(** ** [easybuild/easyblocks/m/mvapich2.py] *)

Module MVAPICH2.

Record Cfg := {
  configopts : string;
  withchkpt : bool;
  withmpe : bool;
  withhwloc : bool;
  withlimic2 : bool;
  debug : bool;
  rdma_type : string;
  blcr_path : option string;
  blcr_inc_path : option string;
  blcr_lib_path : option string
}.

(** The defaults of [extra_options]. *)
Definition default_cfg (opts : string) : Cfg :=
  {| configopts := opts;
     withchkpt := false; withmpe := false; withhwloc := false;
     withlimic2 := false; debug := false;
     rdma_type := "gen2";
     blcr_path := None; blcr_inc_path := None; blcr_lib_path := None |}.

Definition set_configopts (v : string) (c : Cfg) : Cfg :=
  {| configopts := v;
     withchkpt := withchkpt c; withmpe := withmpe c; withhwloc := withhwloc c;
     withlimic2 := withlimic2 c; debug := debug c;
     rdma_type := rdma_type c;
     blcr_path := blcr_path c; blcr_inc_path := blcr_inc_path c;
     blcr_lib_path := blcr_lib_path c |}.

Definition update_configopts (value : string) : M Cfg unit :=
  modify (fun c => set_configopts (cfg_update (configopts c) value) c).

(** [self.use_new_libnames], set by the constructor. *)
Definition use_new_libnames (version : string) : bool :=
  LooseVersion.ge version "2.1".

(** The list [add_configopts] as it stands when it is joined: the pieces
    appended and extended, in the order of the source. *)
Definition add_configopts (c : Cfg) : list string :=
  List.concat
    [ ["--with-rdma=" ++ rdma_type c];
      ["--with-thread-package=pthreads"];
      (if debug c then ["--enable-fast=none"] else ["--enable-fast"]);
      ["--enable-shared"; "--enable-sharedlibs=gcc"];
      ["--enable-f77"; "--enable-fc"; "--enable-cxx"];
      (if withmpe c then ["--enable-mpe"] else []);
      (if withlimic2 c then ["--enable-limic2"] else []);
      (if withchkpt c
       then ["--enable-checkpointing"; "--with-hydra-ckpointlib=blcr"] else []);
      (if withhwloc c then ["--with-hwloc"] else []);
      (if Py.truthy (blcr_path c)
       then ["--with-blcr=" ++ Py.fmt_s (blcr_path c)] else []);
      (if Py.truthy (blcr_inc_path c)
       then ["--with-blcr-include=" ++ Py.fmt_s (blcr_inc_path c)] else []);
      (if Py.truthy (blcr_lib_path c)
       then ["--with-blcr-libpath=" ++ Py.fmt_s (blcr_lib_path c)] else []) ].

(** The part of [configure_step] written in this easyblock: the options
    are assembled and appended in one [update]. *)
Definition configure_opts : M Cfg unit :=
  c <- gets (fun c => c) ;;
  update_configopts (Py.str_join " " (add_configopts c)).

(** Modelled from the spec: [EB_MPICH.configure_step], the parent class's
    step, is not among the sources.  It runs the external configure tool on
    the composed command line; the step fails when the command "reports
    non-zero exit" or its "output contains an error marker", and is
    successful otherwise. *)
Definition super_configure_step (run : string -> string * Z) : M Cfg unit :=
  opts <- gets configopts ;;
  out <- run_cmd run ("./configure " ++ opts) ;;
  if Py.contains "ERROR" out
  then raise (EasyBuildError "Error(s) detected in configure output!" [])
  else ret tt.

Definition configure_step (run : string -> string * Z) : M Cfg unit :=
  configure_opts ;;
  super_configure_step run.

End MVAPICH2.

(** ** The logger of the host framework *)

Inductive level := INFO | ERROR.

(** Modelled from the spec: the logger of the host framework is not among
    the sources.  Its [error] records the message and then raises
    [EasyBuildError], unless raising has been switched off on the logger;
    its [info] only records the message.  The spec reads [self.log.error]
    both ways, as fatal ("a missing required environment value is fatal and
    aborts configuration with a descriptive error", "if found, the step is
    fatal") and as warn-and-continue (the open question on the PAPI check),
    and asks for "a configurable policy choice (fail-fast vs.
    warn-and-continue)": the logger carries that policy in [raiseError],
    which is set unless it has been switched off. *)
Record Logger := {
  raiseError : bool;
  records : list (level * string)
}.

Definition record_msg (l : level) (msg : string) (lg : Logger) : Logger :=
  {| raiseError := raiseError lg; records := (records lg ++ [(l, msg)])%list |}.

(** The double quote character, for the quoted values of the flags. *)
Definition dq : string := String "034"%char EmptyString.

(** ** [easybuild/easyblocks/p/petsc.py] *)

Module PETSc.

(** An entry of [self.cfg.dependencies()] or [builddependencies()]. *)
Record dependency := {
  dep_name : string;
  dep_version : string
}.

Record Cfg := {
  configopts : string;
  buildopts : string;
  preconfigopts : string;
  parallel : option N;
  sourceinstall : bool;
  shared_libs : bool;
  with_papi : bool;
  papi_inc : string;
  papi_lib : string;
  start_dir : string;
  builddependencies : list dependency;
  dependencies : list dependency
}.

(** What the easyblock reads from outside and does not change: its name,
    version and install directory, the toolchain, the installed software,
    the files that exist, and what an external command prints and returns. *)
Record World := {
  name : string;
  version : string;
  installdir : string;
  comp_family : string;
  usempi : option bool;
  tc_debug : bool;
  tc_pic : bool;
  software_root : gmap string string;
  isfile : string -> bool;
  isdir : string -> bool;
  run : string -> string * Z;
  shared_lib_ext : string
}.

(** The easyblock object and the process environment. *)
Record St := {
  cfg : Cfg;
  env : gmap string string;
  log : Logger;
  petsc_arch : string;
  petsc_subdir : string;
  build_in_installdir : bool
}.

Definition set_configopts (v : string) (c : Cfg) : Cfg :=
  {| configopts := v; buildopts := buildopts c; preconfigopts := preconfigopts c;
     parallel := parallel c; sourceinstall := sourceinstall c;
     shared_libs := shared_libs c; with_papi := with_papi c;
     papi_inc := papi_inc c; papi_lib := papi_lib c; start_dir := start_dir c;
     builddependencies := builddependencies c; dependencies := dependencies c |}.

Definition set_buildopts (v : string) (c : Cfg) : Cfg :=
  {| configopts := configopts c; buildopts := v; preconfigopts := preconfigopts c;
     parallel := parallel c; sourceinstall := sourceinstall c;
     shared_libs := shared_libs c; with_papi := with_papi c;
     papi_inc := papi_inc c; papi_lib := papi_lib c; start_dir := start_dir c;
     builddependencies := builddependencies c; dependencies := dependencies c |}.

Definition set_parallel (v : option N) (c : Cfg) : Cfg :=
  {| configopts := configopts c; buildopts := buildopts c;
     preconfigopts := preconfigopts c;
     parallel := v; sourceinstall := sourceinstall c;
     shared_libs := shared_libs c; with_papi := with_papi c;
     papi_inc := papi_inc c; papi_lib := papi_lib c; start_dir := start_dir c;
     builddependencies := builddependencies c; dependencies := dependencies c |}.

Definition with_cfg (f : Cfg -> Cfg) (s : St) : St :=
  {| cfg := f (cfg s); env := env s; log := log s; petsc_arch := petsc_arch s;
     petsc_subdir := petsc_subdir s; build_in_installdir := build_in_installdir s |}.

Definition with_env (f : gmap string string -> gmap string string) (s : St) : St :=
  {| cfg := cfg s; env := f (env s); log := log s; petsc_arch := petsc_arch s;
     petsc_subdir := petsc_subdir s; build_in_installdir := build_in_installdir s |}.

Definition with_log (f : Logger -> Logger) (s : St) : St :=
  {| cfg := cfg s; env := env s; log := f (log s); petsc_arch := petsc_arch s;
     petsc_subdir := petsc_subdir s; build_in_installdir := build_in_installdir s |}.

Definition set_petsc_arch (v : string) (s : St) : St :=
  {| cfg := cfg s; env := env s; log := log s; petsc_arch := v;
     petsc_subdir := petsc_subdir s; build_in_installdir := build_in_installdir s |}.

Definition set_petsc_subdir (v : string) (s : St) : St :=
  {| cfg := cfg s; env := env s; log := log s; petsc_arch := petsc_arch s;
     petsc_subdir := v; build_in_installdir := build_in_installdir s |}.

Definition set_build_in_installdir (v : bool) (s : St) : St :=
  {| cfg := cfg s; env := env s; log := log s; petsc_arch := petsc_arch s;
     petsc_subdir := petsc_subdir s; build_in_installdir := v |}.

(** [self.cfg.update('configopts', value)] *)
Definition update_configopts (value : string) : M St unit :=
  modify (with_cfg (fun c => set_configopts (cfg_update (configopts c) value) c)).

(** [self.cfg.update('buildopts', value)] *)
Definition update_buildopts (value : string) : M St unit :=
  modify (with_cfg (fun c => set_buildopts (cfg_update (buildopts c) value) c)).

(** [os.getenv(key)] *)
Definition getenv (key : string) : M St (option string) :=
  gets (fun s => env s !! key).

(** [env.setvar(key, value)] *)
Definition setvar (key value : string) : M St unit :=
  modify (with_env (fun e => <[key := value]> e)).

(** [self.log.info(msg)] *)
Definition log_info (msg : string) : M St unit :=
  modify (with_log (record_msg INFO msg)).

(** [self.log.error(msg)] *)
Definition log_error (msg : string) : M St unit :=
  modify (with_log (record_msg ERROR msg)) ;;
  policy <- gets (fun s => raiseError (log s)) ;;
  if policy then raise (EasyBuildError msg []) else ret tt.

(** [get_software_root(name)] *)
Definition get_software_root (w : World) (name : string) : option string :=
  software_root w !! name.

(** [toolchain.GCC], the name of the GCC compiler family. *)
Definition toolchain_GCC : string := "GCC".

Definition ge_3 (w : World) : bool := LooseVersion.ge (version w) "3".
Definition ge_3_5 (w : World) : bool := LooseVersion.ge (version w) "3.5".

(** The state after the flags [fl] have been appended to [configopts],
    one [update] each. *)
Definition append_flags (fl : list string) (s : St) : St :=
  with_cfg (fun c => set_configopts (fold_left cfg_update fl (configopts c)) c) s.

(** [name="value"], the value formatted with [%s]. *)
Definition quoted_flag (name : string) (value : option string) : string :=
  name ++ "=" ++ dq ++ Py.fmt_s value ++ dq.

(** The [# compilers] lines. *)
Definition compilers : M St unit :=
  cc <- getenv "CC" ;;
  update_configopts ("--with-cc=" ++ dq ++ Py.fmt_s cc ++ dq) ;;
  cxx <- getenv "CXX" ;;
  update_configopts ("--with-cxx=" ++ dq ++ Py.fmt_s cxx ++ dq ++ " --with-c++-support") ;;
  f90 <- getenv "F90" ;;
  update_configopts ("--with-fc=" ++ dq ++ Py.fmt_s f90 ++ dq).

(** The [# compiler flags] lines. *)
Definition compiler_flags (w : World) : M St unit :=
  if ge_3_5 w then
    cflags <- getenv "CFLAGS" ;;
    update_configopts ("--CFLAGS=" ++ dq ++ Py.fmt_s cflags ++ dq) ;;
    cxxflags <- getenv "CXXFLAGS" ;;
    update_configopts ("--CXXFLAGS=" ++ dq ++ Py.fmt_s cxxflags ++ dq) ;;
    f90flags <- getenv "F90FLAGS" ;;
    update_configopts ("--FFLAGS=" ++ dq ++ Py.fmt_s f90flags ++ dq)
  else
    cflags <- getenv "CFLAGS" ;;
    update_configopts ("--with-cflags=" ++ dq ++ Py.fmt_s cflags ++ dq) ;;
    cxxflags <- getenv "CXXFLAGS" ;;
    update_configopts ("--with-cxxflags=" ++ dq ++ Py.fmt_s cxxflags ++ dq) ;;
    f90flags <- getenv "F90FLAGS" ;;
    update_configopts ("--with-fcflags=" ++ dq ++ Py.fmt_s f90flags ++ dq).

Definition gnu_compilers (w : World) : M St unit :=
  when (negb (String.eqb (comp_family w) toolchain_GCC))
       (update_configopts "--with-gnu-compilers=0").

(** The [# MPI] lines; [options.get('usempi', None)] is true only for
    [True]. *)
Definition mpi (w : World) : M St unit :=
  when (match usempi w with Some b => b | None => false end)
       (update_configopts "--with-mpi=1").

(** The [# build options] lines. *)
Definition build_options (w : World) : M St unit :=
  c <- gets cfg ;;
  update_configopts ("--with-build-step-np=" ++ Py.fmt_s_int (parallel c)) ;;
  c <- gets cfg ;;
  update_configopts ("--with-shared-libraries=" ++ Py.fmt_d_bool (shared_libs c)) ;;
  update_configopts ("--with-debugging=" ++ Py.fmt_d_bool (tc_debug w)) ;;
  update_configopts ("--with-pic=" ++ Py.fmt_d_bool (tc_pic w)) ;;
  update_configopts "--with-x=0 --with-windows-graphics=0".

Definition papi_error_msg (papi_inc_file papi_lib : string) : string :=
  "PAPI header (" ++ papi_inc_file ++ ") and/or lib (" ++ papi_lib ++ ") not found, "
  ++ "can not enable PAPI support?".

(** The [# PAPI support] block. *)
Definition papi_support (w : World) : M St unit :=
  c <- gets cfg ;;
  when (with_papi c)
    (let papi_inc := papi_inc c in
     let papi_inc_file := Py.join papi_inc ["papi.h"] in
     let papi_lib := papi_lib c in
     if isfile w papi_inc_file && isfile w papi_lib then
       update_configopts "--with-papi=1" ;;
       update_configopts ("--with-papi-include=" ++ papi_inc) ;;
       update_configopts ("--with-papi-lib=" ++ papi_lib)
     else
       log_error (papi_error_msg papi_inc_file papi_lib)).

(** The [# Python extensions_step] block. *)
Definition python_extensions (w : World) : M St unit :=
  when (Py.truthy (get_software_root w "Python"))
    (update_configopts "--with-numpy=1" ;;
     c <- gets cfg ;;
     when (shared_libs c) (update_configopts "--with-mpi4py=1")).

(** The three flags of a dependency found through its environment
    triple. *)
Definition triple_flags (with_arg inc libdir libs : string) : list string :=
  [ with_arg ++ "=1";
    with_arg ++ "-include=" ++ inc;
    with_arg ++ "-lib=[" ++ libdir ++ "/" ++ libs ++ "]" ].

(** One dependency of the [# BLACS, FFTW, ScaLAPACK] block: the triple
    [<var>_INC_DIR], [<var>_LIB_DIR], [<var>_STATIC_LIBS] is read from the
    environment; if all three are set and non-empty the three flags are
    appended, otherwise a message is logged at level info. *)
Definition env_dependency (var with_arg dep : string) : M St unit :=
  inc <- getenv (var ++ "_INC_DIR") ;;
  libdir <- getenv (var ++ "_LIB_DIR") ;;
  libs <- getenv (var ++ "_STATIC_LIBS") ;;
  if Py.truthy inc && Py.truthy libdir && Py.truthy libs then
    update_configopts (with_arg ++ "=1") ;;
    update_configopts (with_arg ++ "-include=" ++ Py.fmt_s inc) ;;
    update_configopts (with_arg ++ "-lib=[" ++ Py.fmt_s libdir ++ "/" ++ Py.fmt_s libs ++ "]")
  else
    log_info ("Missing inc/lib info, so not enabling " ++ dep ++ " support.").

(** The [# BLACS, FFTW, ScaLAPACK] block. *)
Definition blacs_fftw_scalapack (w : World) : M St unit :=
  if ge_3_5 w then
    env_dependency "FFTW" "--with-fftw" "FFTW" ;;
    env_dependency "SCALAPACK" "--with-scalapack" "ScaLAPACK"
  else
    for_each ["BLACS"; "FFTW"; "ScaLAPACK"]
             (fun dep => env_dependency (Py.upper dep) ("--with-" ++ Py.lower dep) dep).

Definition blas_lapack_error_msg : string :=
  "One or more environment variables for BLAS/LAPACK not defined?".

(** The [# BLAS, LAPACK libraries] block. *)
Definition blas_lapack : M St unit :=
  bl_libdir <- getenv "BLAS_LAPACK_LIB_DIR" ;;
  bl_libs <- getenv "BLAS_LAPACK_STATIC_LIBS" ;;
  if Py.truthy bl_libdir && Py.truthy bl_libs then
    update_configopts
      ("--with-blas-lapack-lib=[" ++ Py.fmt_s bl_libdir ++ "/" ++ Py.fmt_s bl_libs ++ "]")
  else
    log_error blas_lapack_error_msg.

(** [depfilter]: the build dependencies (dictionaries) followed by the
    names of the dependencies handled separately. *)
Definition depfilter (c : Cfg) : list (dependency + string) :=
  (map inl (builddependencies c) ++
   map inr ["BLACS"; "BLAS"; "FFTW"; "LAPACK"; "numpy"; "CMake";
            "mpi4py"; "papi"; "ScaLAPACK"; "SuiteSparse"])%list.

(** [name in depfilter]: a string equals no dictionary. *)
Definition in_depfilter (nm : string) (df : list (dependency + string)) : bool :=
  existsb (fun x => match x with
                    | inl _ => false
                    | inr s => String.eqb nm s
                    end) df.

(** The flag prefix of an additional dependency: [--with-ptscotch] for
    SCOTCH from 3.5 on, [--with-<name>] otherwise. *)
Definition withdep_of (post_3_5 : bool) (dep1 : string) : string :=
  if post_3_5 && String.eqb dep1 "SCOTCH" then "--with-pt" ++ Py.lower dep1
  else "--with-" ++ Py.lower dep1.

(** The body of the loop over the additional dependencies; every [dep] is
    a string and becomes the pair [(dep, dep)]. *)
Definition additional_dependency (w : World) (dep : string) : M St unit :=
  let dep := (dep, dep) in
  let deproot := get_software_root w (fst dep) in
  when (Py.truthy deproot)
    (let withdep := withdep_of (ge_3_5 w) (snd dep) in
     update_configopts (withdep ++ "=1 " ++ withdep ++ "-dir=" ++ Py.fmt_s deproot)).

(** The [# additional dependencies] block. *)
Definition additional_dependencies (w : World) : M St unit :=
  c <- gets cfg ;;
  let depfilter := depfilter c in
  let deps := map dep_name
                  (List.filter (fun dep => negb (in_depfilter (dep_name dep) depfilter))
                          (dependencies c)) in
  for_each deps (additional_dependency w).

(** The [# SuiteSparse options changed in PETSc 3.5] block. *)
Definition suitesparse_options (w : World) : M St unit :=
  let suitesparse := get_software_root w "SuiteSparse" in
  when (Py.truthy suitesparse)
    (let suitesparse := Py.fmt_s suitesparse in
     if ge_3_5 w then
       let withdep := "--with-suitesparse" in
       let ss_libs := ["UMFPACK"; "KLU"; "CHOLMOD"; "BTF"; "CCOLAMD"; "COLAMD"; "CAMD"; "AMD"] in
       let suitesparse_libs :=
         List.app
           (map (fun l => Py.join suitesparse [l; "Lib"; "lib" ++ Py.lower l ++ ".a"]) ss_libs)
           [Py.join suitesparse ["SuiteSparse_config"; "libsuitesparseconfig.a"]] in
       let suitesparse_inc :=
         List.app
           (map (fun l => Py.join suitesparse [l; "Include"]) ss_libs)
           [Py.join suitesparse ["SuiteSparse_config"]] in
       update_configopts
         (Py.str_join " "
            (map (fun x => withdep ++ x)
                 [ "=1";
                   "-include=[" ++ Py.str_join "," suitesparse_inc ++ "]";
                   "-lib=[" ++ Py.str_join "," suitesparse_libs ++ "]" ]))
     else
       let withdep := "--with-umfpack" in
       let umfpack_libs :=
         map (fun l => Py.join suitesparse [l; "Lib"; "lib" ++ Py.lower l ++ ".a"])
             ["UMFPACK"; "CHOLMOD"; "COLAMD"; "AMD"] in
       update_configopts
         (Py.str_join " "
            (map (fun x => withdep ++ x)
                 [ "=1";
                   "-include=" ++ Py.join suitesparse ["UMFPACK"; "Include"];
                   "-lib=[" ++ Py.str_join "," umfpack_libs ++ "]" ]))).

(** [# set PETSC_DIR for configure (env) and build_step] *)
Definition set_petsc_dir : M St unit :=
  c <- gets cfg ;;
  setvar "PETSC_DIR" (start_dir c) ;;
  update_buildopts ("PETSC_DIR=" ++ start_dir c).

(** Everything the configure step of a version from 3 on does before the
    external configure tool is run. *)
Definition prepare_configure (w : World) : M St unit :=
  compilers ;;
  compiler_flags w ;;
  gnu_compilers w ;;
  mpi w ;;
  build_options w ;;
  papi_support w ;;
  python_extensions w ;;
  blacs_fftw_scalapack w ;;
  blas_lapack ;;
  additional_dependencies w ;;
  suitesparse_options w ;;
  set_petsc_dir.

(** The blocks of [prepare_configure] before the PAPI block and after it. *)
Definition before_papi (w : World) : M St unit :=
  compilers ;;
  compiler_flags w ;;
  gnu_compilers w ;;
  mpi w ;;
  build_options w.

Definition after_papi (w : World) : M St unit :=
  python_extensions w ;;
  blacs_fftw_scalapack w ;;
  blas_lapack ;;
  additional_dependencies w ;;
  suitesparse_options w ;;
  set_petsc_dir.

(** The blocks of [prepare_configure] before the BLAS/LAPACK block and
    after it. *)
Definition before_blas_lapack (w : World) : M St unit :=
  before_papi w ;;
  papi_support w ;;
  python_extensions w ;;
  blacs_fftw_scalapack w.

Definition after_blas_lapack (w : World) : M St unit :=
  additional_dependencies w ;;
  suitesparse_options w ;;
  set_petsc_dir.

(** What the blocks before the external configure run read and none of
    them changes: the environment, the logger's policy and every option
    but [configopts]. *)
Definition inputs (s : St) : gmap string string * bool * Cfg :=
  (env s, raiseError (log s), set_configopts EmptyString (cfg s)).

(** The command line of the source installation, without [--prefix]. *)
Definition sourceinstall_cmd (c : Cfg) : string :=
  preconfigopts c ++ " ./configure " ++ configopts c.

(** Modelled from the spec: [ConfigureMake.configure_step], the parent
    class's step, is not among the sources.  It hands "a single composed
    command-line string (flags space-joined)" to the command runner, here
    with the [--prefix] that the source installation leaves out, and
    returns the output of the command. *)
Definition super_configure_cmd (w : World) (c : Cfg) : string :=
  preconfigopts c ++ " ./configure --prefix=" ++ installdir w ++ " " ++ configopts c.

Definition configure_cmd (w : World) (c : Cfg) : string :=
  if sourceinstall c then sourceinstall_cmd c else super_configure_cmd w c.

(** The external configure tool is run; [out] is what it printed. *)
Definition run_configure (w : World) : M St string :=
  c <- gets cfg ;;
  if sourceinstall c then run_cmd (run w) (sourceinstall_cmd c)
  else run_cmd (run w) (super_configure_cmd w c).

Definition configure_error_msg : string := "Error(s) detected in configure output!".

(** [# check for errors in configure]: [re.compile("ERROR").search(out)] *)
Definition check_configure_errors (out : string) : M St unit :=
  when (Py.contains "ERROR" out) (log_error configure_error_msg).

(** *** The search for [^\s*PETSC_ARCH:\s*(\S+)$] with [re.M] *)

Fixpoint skip_space (s : string) : string :=
  match s with
  | EmptyString => EmptyString
  | String c s' => if Py.is_space c then skip_space s' else s
  end.

(** The longest prefix without white space, and what follows it. *)
Fixpoint take_nonspace (s : string) : string * string :=
  match s with
  | EmptyString => (EmptyString, EmptyString)
  | String c s' =>
      if Py.is_space c then (EmptyString, s)
      else let (run, rest) := take_nonspace s' in (String c run, rest)
  end.

Fixpoint strip_prefix (p s : string) : option string :=
  match p, s with
  | EmptyString, _ => Some s
  | String a p', String b s' => if Ascii.eqb a b then strip_prefix p' s' else None
  | String _ _, EmptyString => None
  end.

(** A match that starts at the beginning of the line [s] begins at:
    white space, the literal, white space, a run of other characters that
    ends the string or stands before a newline.  The greedy repetitions
    leave no other way to match. *)
Definition match_arch_at (s : string) : option string :=
  match strip_prefix "PETSC_ARCH:" (skip_space s) with
  | None => None
  | Some rest =>
      let (group, rest') := take_nonspace (skip_space rest) in
      if String.eqb group EmptyString then None
      else match rest' with
           | EmptyString => Some group
           | String c _ => if Ascii.eqb c "010" then Some group else None
           end
  end.

(** [search]: the first beginning of a line with a match;
    [at_line_start] tells whether [s] begins a line. *)
Fixpoint search_arch_from (at_line_start : bool) (s : string) : option string :=
  match (if at_line_start then match_arch_at s else None) with
  | Some group => Some group
  | None =>
      match s with
      | EmptyString => None
      | String c s' => search_arch_from (Ascii.eqb c "010") s'
      end
  end.

(** [petsc_arch_regex.search(out)], as [res.group(1)] *)
Definition search_petsc_arch (out : string) : option string :=
  search_arch_from true out.

Definition petsc_arch_error_msg : string := "Failed to determine PETSC_ARCH setting.".

(** [# figure out PETSC_ARCH setting] *)
Definition figure_out_petsc_arch (out : string) : M St unit :=
  c <- gets cfg ;;
  when (sourceinstall c)
    (match search_petsc_arch out with
     | Some arch =>
         modify (set_petsc_arch arch) ;;
         update_buildopts ("PETSC_ARCH=" ++ arch)
     | None => log_error petsc_arch_error_msg
     end).

(** The branch of [configure_step] for the versions from 3 on. *)
Definition configure_new (w : World) : M St unit :=
  prepare_configure w ;;
  out <- run_configure w ;;
  check_configure_errors out ;;
  figure_out_petsc_arch out ;;
  modify (set_petsc_subdir (Py.lower (name w) ++ "-" ++ version w)).

(** The branch of [configure_step] for the old versions (< 3.x). *)
Definition configure_old (w : World) : M St unit :=
  update_configopts ("--prefix=" ++ installdir w) ;;
  update_configopts "--with-shared=1" ;;
  for_each ["SCOTCH"]
    (fun dep =>
       let deproot := get_software_root w dep in
       when (Py.truthy deproot)
         (let withdep := "--with-" ++ Py.lower dep in
          update_configopts (withdep ++ "=1 " ++ withdep ++ "-dir=" ++ Py.fmt_s deproot))) ;;
  c <- gets cfg ;;
  _ <- run_cmd (run w) ("./config/configure.py " ++ configopts c) ;;
  ret tt.

Definition configure_step (w : World) : M St unit :=
  (if ge_3 w then configure_new w else configure_old w) ;;
  when (ge_3_5 w) (modify (with_cfg (set_parallel None))).

(** The [custom_paths] of [sanity_check_step]. *)
Definition sanity_check_paths (w : World) (s : St) : custom_paths :=
  let prefix1 := if sourceinstall (cfg s) then petsc_subdir s else EmptyString in
  let prefix2 := if sourceinstall (cfg s)
                 then Py.join (petsc_subdir s) [petsc_arch s] else EmptyString in
  let libext := if shared_libs (cfg s) then shared_lib_ext w else "a" in
  {| files := [Py.join prefix2 ["lib"; "libpetsc." ++ libext]];
     dirs := [Py.join prefix1 ["bin"]; Py.join prefix2 ["conf"];
              Py.join prefix1 ["include"]; Py.join prefix2 ["include"]] |}.

Definition sanity_check_step (w : World) : M St unit :=
  s <- gets (fun s => s) ;;
  verify_installed (isfile w) (isdir w) (sanity_check_paths w s).

(** [str(err)] of a caught exception. *)
Definition str_exn (e : exn) : string :=
  match e with
  | EasyBuildError msg _ => msg
  | AttributeError what => what
  end.

Section ParentSteps.

(** The steps of the parent classes and [os.symlink], which are not
    among the sources. *)
Variable super_make_builddir : M St unit.
Variable super_install_step : M St unit.
Variable symlink : string -> string -> M St unit.

Definition make_builddir : M St unit :=
  c <- gets cfg ;;
  when (sourceinstall c) (modify (set_build_in_installdir true)) ;;
  super_make_builddir.

(** The loop inside [try: ... except Exception, err:]: the first link
    that fails ends the loop and is reported through [self.log.error]. *)
Fixpoint symlink_headers (w : World) (fs : list string) : M St unit :=
  match fs with
  | [] => ret tt
  | f :: fs' =>
      let includedir := Py.join (installdir w) ["include"] in
      let bmakedir := Py.join (installdir w) ["bmake"; "linux-gnu-c-opt"] in
      fun s =>
        match symlink (Py.join bmakedir [f]) (Py.join includedir [f]) s with
        | (s', Ok _) => symlink_headers w fs' s'
        | (s', Raise err) =>
            log_error ("Something went wrong during symlink creation of file "
                       ++ f ++ ": " ++ str_exn err) s'
        end
  end.

Definition install_step (w : World) : M St unit :=
  if ge_3 w then
    c <- gets cfg ;;
    when (negb (sourceinstall c)) super_install_step
  else
    symlink_headers w
      ["petscconf.h"; "petscconfiginfo.h"; "petscfix.h"; "petscmachineinfo.h"].

End ParentSteps.

Section ModuleSteps.

(** The guesses and the module text of the parent class and
    [self.moduleGenerator.set_environment], which are not among the
    sources. *)
Variable super_guesses : gmap string (list string).
Variable super_module_extra : string.
Variable set_environment : string -> string -> string.

(** [make_module_req_guess]: the parent's dictionary, updated with the
    three PETSc entries. *)
Definition make_module_req_guess (s : St) : gmap string (list string) :=
  let guesses := super_guesses in
  let prefix1 := if sourceinstall (cfg s) then petsc_subdir s else EmptyString in
  let prefix2 := if sourceinstall (cfg s)
                 then Py.join (petsc_subdir s) [petsc_arch s] else EmptyString in
  <["LD_LIBRARY_PATH" := [Py.join prefix2 ["lib"]]]>
    (<["CPATH" := [Py.join prefix2 ["include"]; Py.join prefix1 ["include"]]]>
       (<["PATH" := [Py.join prefix1 ["bin"]]]> guesses)).

(** [make_module_extra] *)
Definition make_module_extra (s : St) : string :=
  let txt := super_module_extra in
  if sourceinstall (cfg s) then
    (txt ++ set_environment "PETSC_DIR" ("$root/" ++ petsc_subdir s))
    ++ set_environment "PETSC_ARCH" (petsc_arch s)
  else
    txt ++ set_environment "PETSC_DIR" "$root".

End ModuleSteps.

(** The blocks of [prepare_configure] before [PETSC_DIR] is set. *)
Definition before_petsc_dir (w : World) : M St unit :=
  before_blas_lapack w ;;
  blas_lapack ;;
  additional_dependencies w ;;
  suitesparse_options w.

(** The names [additional_dependencies] passes on to its loop: those of
    the dependencies that [depfilter] does not hold as strings. *)
Definition additional_names (c : Cfg) : list string :=
  map dep_name
      (List.filter (fun dep => negb (in_depfilter (dep_name dep) (depfilter c)))
                   (dependencies c)).

(** The text appended for an additional dependency found under [root]. *)
Definition additional_flag (w : World) (dep : string) : string :=
  withdep_of (ge_3_5 w) dep ++ "=1 " ++ withdep_of (ge_3_5 w) dep ++ "-dir="
  ++ Py.fmt_s (get_software_root w dep).

(** The flags and the log message of one environment triple: the three
    flags if the triple is complete, the message otherwise. *)
Definition triple_complete (e : gmap string string) (var : string) : bool :=
  Py.truthy (e !! (var ++ "_INC_DIR"))
  && Py.truthy (e !! (var ++ "_LIB_DIR"))
  && Py.truthy (e !! (var ++ "_STATIC_LIBS")).

Definition triple_appends (e : gmap string string) (var with_arg : string) : list string :=
  if triple_complete e var
  then triple_flags with_arg (Py.fmt_s (e !! (var ++ "_INC_DIR")))
                    (Py.fmt_s (e !! (var ++ "_LIB_DIR")))
                    (Py.fmt_s (e !! (var ++ "_STATIC_LIBS")))
  else [].

Definition triple_logs (e : gmap string string) (var dep : string) : list (level * string) :=
  if triple_complete e var then []
  else [(INFO, "Missing inc/lib info, so not enabling " ++ dep ++ " support.")].

(** The state after the messages [msgs] have been logged. *)
Definition append_records (msgs : list (level * string)) (s : St) : St :=
  with_log (fun lg => fold_left (fun l m => record_msg (fst m) (snd m) l) msgs lg) s.

End PETSc.

(** ** What the properties speak of *)

(** Repeating a step duplicates no flag: no text occurs more often in the
    option string after the second run than after the first. *)
Definition no_duplicates_on_repeat {C} (opts : C -> string) (step : M C unit) : Prop :=
  forall (c : C) (flag : string),
    let c1 := fst (step c) in
    let c2 := fst (step c1) in
    Py.occurrences flag (opts c2) <= Py.occurrences flag (opts c1).

(** The flags of an option text: its pieces between the spaces. *)
Definition flags_of (text : string) : list string :=
  List.filter (fun x => negb (String.eqb x EmptyString)) (Py.split " " text).

(** A step only appends to the option string [f]: whatever the step does,
    the old value is a prefix of the new one. *)
Definition grows {S B} (f : S -> string) (m : M S B) : Prop :=
  forall s, Py.startswith (f s) (f (fst (m s))) = true.

(** A string without white space. *)
Fixpoint no_space (s : string) : bool :=
  match s with
  | EmptyString => true
  | String c s' => negb (Py.is_space c) && no_space s'
  end.

(** The four patterns the Python block of Blender globs for, for Python
    under [python_root] with short version [pyshortver]: numpy, requests,
    the Python library and the include directory. *)
Definition python_patterns (python_root pyshortver shlib_ext : string) : list string :=
  let site_packages :=
    Py.join python_root ["lib"; "python" ++ pyshortver; "site-packages"] in
  [ Py.join site_packages ["numpy-*-py" ++ pyshortver ++ "-linux-x86_64.egg"];
    Py.join site_packages ["requests-*-py" ++ pyshortver ++ ".egg"];
    Py.join python_root ["lib"; "libpython" ++ pyshortver ++ "*." ++ shlib_ext];
    Py.join python_root ["include"; "python" ++ pyshortver ++ "*"] ].

(** The five flags of the Python block, for what the four patterns matched. *)
Definition python_flags (pyshortver : string) (matched : list string) : list string :=
  match matched with
  | [numpy_root; requests_root; python_lib; python_include_dir] =>
      [ "-DPYTHON_VERSION=" ++ pyshortver;
        "-DPYTHON_LIBRARY=" ++ python_lib;
        "-DPYTHON_INCLUDE_DIR=" ++ python_include_dir;
        "-DPYTHON_NUMPY_PATH=" ++ numpy_root;
        "-DPYTHON_REQUESTS_PATH=" ++ requests_root ]
  | _ => []
  end.

(** A Blender world with Python 2.7.11 under [/sw/Python] in which every
    pattern has the matches [ms]. *)
Definition python_world (ms : list string) : Blender.World :=
  {| Blender.glob := fun _ => ms;
     Blender.software_root := <["Python" := "/sw/Python"]> ∅;
     Blender.software_version := <["Python" := "2.7.11"]> ∅;
     Blender.shared_lib_ext := "so" |}.

(** The names [depfilter] lists as handled separately. *)
Definition handled_separately : list string :=
  ["BLACS"; "BLAS"; "FFTW"; "LAPACK"; "numpy"; "CMake";
   "mpi4py"; "papi"; "ScaLAPACK"; "SuiteSparse"].

(** A string of white space only. *)
Fixpoint all_space (s : string) : bool :=
  match s with
  | EmptyString => true
  | String c s' => Py.is_space c && all_space s'
  end.

(** The line on which the configure tool of PETSc prints its architecture:
    indentation, the label, a separation and the name. *)
Definition arch_line (indent sep arch : string) : string :=
  indent ++ "PETSC_ARCH:" ++ sep ++ arch.

(** The headers [install_step] links for the old versions. *)
Definition old_headers : list string :=
  ["petscconf.h"; "petscconfiginfo.h"; "petscfix.h"; "petscmachineinfo.h"].

(** The two ends of the link of the header [f]: the file under
    [bmake/linux-gnu-c-opt] and its name under [include]. *)
Definition header_source (w : PETSc.World) (f : string) : string :=
  Py.join (Py.join (PETSc.installdir w) ["bmake"; "linux-gnu-c-opt"]) [f].

Definition header_link (w : PETSc.World) (f : string) : string :=
  Py.join (Py.join (PETSc.installdir w) ["include"]) [f].

(** The state after the headers [fs] have been linked one after the other,
    if every one of the links succeeds. *)
Fixpoint linked (symlink : string -> string -> M PETSc.St unit) (w : PETSc.World)
    (fs : list string) (s : PETSc.St) : option PETSc.St :=
  match fs with
  | [] => Some s
  | f :: fs' =>
      match symlink (header_source w f) (header_link w f) s with
      | (s', Ok _) => linked symlink w fs' s'
      | (_, Raise _) => None
      end
  end.

(** [iterate] yields, for the dictionary [d], the items of [d], each once:
    it is an iteration over [d], in whatever order. *)
Definition iterates (iterate : gmap string string -> list (string * string))
    (d : gmap string string) : Prop :=
  iterate d ≡ₚ map_to_list d.

(** ** Concrete inputs *)

(** The items of Blender's defaults in the order in which CPython 2.7 (64
    bit, hash randomisation off) yields the keys of the dictionary. *)
Definition cpython27_order : list (string * string) :=
  [ ("WITH_SYSTEM_GLEW", "OFF");
    ("WITH_INSTALL_PORTABLE", "OFF");
    ("CMAKE_CXX_FLAGS_RELEASE", "-DNDEBUG");
    ("WITH_BUILDINFO", "OFF");
    ("CMAKE_C_FLAGS_RELEASE", "-DNDEBUG");
    ("WITH_CPU_SSE", "OFF");
    ("WITH_GAMEENGINE", "OFF") ].

(** An iteration that yields those items of [cpython27_order] that [d]
    holds, in that order. *)
Definition cpython27_iterate (d : gmap string string) : list (string * string) :=
  List.filter (fun kv => bool_decide (d !! fst kv = Some (snd kv))) cpython27_order.

(** A Blender world with Python 2.7.11 under [/sw/Python] in which the
    pattern for numpy has the one match [m] and every other pattern has the
    matches [ms]. *)
Definition numpy_world (m : string) (ms : list string) : Blender.World :=
  {| Blender.glob := fun p =>
       if String.eqb p "/sw/Python/lib/python2.7/site-packages/numpy-*-py2.7-linux-x86_64.egg"
       then [m] else ms;
     Blender.software_root := <["Python" := "/sw/Python"]> ∅;
     Blender.software_version := <["Python" := "2.7.11"]> ∅;
     Blender.shared_lib_ext := "so" |}.

(** A Blender world with Python under [/sw/Python] whose version is not
    known. *)
Definition unversioned_python_world : Blender.World :=
  {| Blender.glob := fun _ => [];
     Blender.software_root := <["Python" := "/sw/Python"]> ∅;
     Blender.software_version := ∅;
     Blender.shared_lib_ext := "so" |}.

(** A Blender world in which every pattern has the matches [ms]. *)
Definition glob_world (ms : list string) : Blender.World :=
  {| Blender.glob := fun _ => ms;
     Blender.software_root := ∅;
     Blender.software_version := ∅;
     Blender.shared_lib_ext := "so" |}.

(** An external tool that prints [out] and exits with [ec], whatever the
    command. *)
Definition tool (out : string) (ec : Z) : string -> string * Z := fun _ => (out, ec).

(** The fixed baseline of the MVAPICH2 options. *)
Definition mvapich2_baseline : list string :=
  [ "--with-rdma=gen2"; "--with-thread-package=pthreads"; "--enable-fast";
    "--enable-shared"; "--enable-sharedlibs=gcc";
    "--enable-f77"; "--enable-fc"; "--enable-cxx" ].

(** The flags a PETSc step appends, read off the option string it leaves
    when it is run on an empty one. *)
Definition emitted_by (m : M PETSc.St unit) (s : PETSc.St) : list string :=
  flags_of (PETSc.configopts
              (PETSc.cfg (fst (m (PETSc.with_cfg (PETSc.set_configopts EmptyString) s))))).

(** A PETSc configuration with the defaults of [extra_options] but for
    [with_papi] and [sourceinstall], with four parallel jobs and the
    dependencies named in [deps]. *)
Definition petsc_cfg (papi srcinst : bool) (deps : list string) : PETSc.Cfg :=
  {| PETSc.configopts := EmptyString;
     PETSc.buildopts := EmptyString;
     PETSc.preconfigopts := EmptyString;
     PETSc.parallel := Some 4%N;
     PETSc.sourceinstall := srcinst;
     PETSc.shared_libs := false;
     PETSc.with_papi := papi;
     PETSc.papi_inc := "/usr/include";
     PETSc.papi_lib := "/usr/lib64/libpapi.so";
     PETSc.start_dir := "/build/petsc";
     PETSc.builddependencies := [];
     PETSc.dependencies :=
       map (fun n => {| PETSc.dep_name := n; PETSc.dep_version := "1.0" |}) deps |}.

(** A PETSc world of version [ver] on a GCC toolchain with MPI, with the
    installed software [roots], no file on disk, and a configure tool that
    prints [out] and exits with [ec]. *)
Definition petsc_world (ver : string) (roots : gmap string string) (out : string) (ec : Z)
  : PETSc.World :=
  {| PETSc.name := "PETSc";
     PETSc.version := ver;
     PETSc.installdir := "/sw/PETSc";
     PETSc.comp_family := "GCC";
     PETSc.usempi := Some true;
     PETSc.tc_debug := false;
     PETSc.tc_pic := true;
     PETSc.software_root := roots;
     PETSc.isfile := fun _ => false;
     PETSc.isdir := fun _ => false;
     PETSc.run := tool out ec;
     PETSc.shared_lib_ext := "so" |}.

(** A file system in which exactly the paths of [present] exist. *)
Definition on_disk (present : list string) : string -> bool :=
  fun p => existsb (String.eqb p) present.

(** A PETSc world of version 3.5 in which exactly the paths of [present]
    are on disk, as files and as directories. *)
Definition installed_petsc_world (present : list string) : PETSc.World :=
  {| PETSc.name := "PETSc";
     PETSc.version := "3.5";
     PETSc.installdir := "/sw/PETSc";
     PETSc.comp_family := "GCC";
     PETSc.usempi := Some true;
     PETSc.tc_debug := false;
     PETSc.tc_pic := true;
     PETSc.software_root := ∅;
     PETSc.isfile := on_disk present;
     PETSc.isdir := on_disk present;
     PETSc.run := tool EmptyString 0;
     PETSc.shared_lib_ext := "so" |}.

(** The easyblock as it is before the configure step, with the environment
    [e] and the logger's policy [policy]. *)
Definition petsc_state (c : PETSc.Cfg) (e : gmap string string) (policy : bool) : PETSc.St :=
  {| PETSc.cfg := c;
     PETSc.env := e;
     PETSc.log := {| raiseError := policy; records := [] |};
     PETSc.petsc_arch := EmptyString;
     PETSc.petsc_subdir := EmptyString;
     PETSc.build_in_installdir := false |}.

(** An environment with the BLAS/LAPACK values and the FFTW triple. *)
Definition blas_fftw_env : gmap string string :=
  <["BLAS_LAPACK_LIB_DIR" := "/sw/OpenBLAS/lib"]>
  (<["BLAS_LAPACK_STATIC_LIBS" := "libopenblas.a"]>
  (<["FFTW_INC_DIR" := "/sw/FFTW/include"]>
  (<["FFTW_LIB_DIR" := "/sw/FFTW/lib"]>
  (<["FFTW_STATIC_LIBS" := "libfftw3.a"]> ∅)))).

(** Installed software: SCOTCH alone, Python alone, and SuiteSparse alone. *)
Definition scotch_roots : gmap string string := <["SCOTCH" := "/sw/SCOTCH"]> ∅.

Definition python_roots : gmap string string := <["Python" := "/sw/Python"]> ∅.

Definition suitesparse_roots : gmap string string :=
  <["SuiteSparse" := "/sw/SuiteSparse"]> ∅.

(** A Blender world with OpenEXR and CUDA installed and no Python, and a
    configuration in which the user has set two of the defaults. *)
Definition exr_cuda_world : Blender.World :=
  {| Blender.glob := fun _ => [];
     Blender.software_root := <["OpenEXR" := "/sw/OpenEXR"]> (<["CUDA" := "/sw/CUDA"]> ∅);
     Blender.software_version := ∅;
     Blender.shared_lib_ext := "so" |}.

Definition user_cfg : Blender.Cfg :=
  {| Blender.configopts := "-DWITH_CPU_SSE=ON -DWITH_BUILDINFO=ON";
     Blender.separate_build_dir := false |}.

(** An [os.symlink] that fails with [File exists] for the source [bad] and
    succeeds for every other. *)
Definition failing_symlink (bad : string) : string -> string -> M PETSc.St unit :=
  fun src _ => if String.eqb src bad then raise (EasyBuildError "File exists" []) else ret tt.

(** The newline character. *)
Definition nl : string := String "010"%char EmptyString.

(** * Properties *)

(** ** The embedding on concrete inputs *)

Example join_relative : Py.join EmptyString ["bin"] = "bin".
Proof. reflexivity. Qed.

Example join_nested :
  Py.join "petsc-3.5" ["arch"; "lib"; "libpetsc.a"] = "petsc-3.5/arch/lib/libpetsc.a".
Proof. reflexivity. Qed.

Example join_absolute : Py.join "petsc-3.5" ["/opt/arch"; "lib"] = "/opt/arch/lib".
Proof. reflexivity. Qed.

Example join_empty_component : Py.join "petsc-3.5" [EmptyString] = "petsc-3.5/".
Proof. reflexivity. Qed.

Example str_of_N_values : Py.str_of_N 0 = "0" /\ Py.str_of_N 16 = "16".
Proof. split; reflexivity. Qed.

Example lower_upper :
  Py.lower "ScaLAPACK" = "scalapack" /\ Py.upper "ScaLAPACK" = "SCALAPACK".
Proof. split; reflexivity. Qed.

Example short_version_python : Blender.short_version "2.7.11" = "2.7".
Proof. reflexivity. Qed.

Example parse_patch_level :
  LooseVersion.parse "2.3.3-p15" =
  [ LooseVersion.CInt 2; LooseVersion.CInt 3; LooseVersion.CInt 3;
    LooseVersion.CStr "-"; LooseVersion.CStr "p"; LooseVersion.CInt 15 ].
Proof. reflexivity. Qed.

Example loose_version_order :
  LooseVersion.ge "3.4" "3.5" = false
  /\ LooseVersion.ge "3.5" "3.5" = true
  /\ LooseVersion.ge "3.5.1" "3.5" = true
  /\ LooseVersion.ge "3.10" "3.5" = true
  /\ LooseVersion.ge "3" "3.5" = false
  /\ LooseVersion.ge "2.3.3-p15" "3" = false
  /\ LooseVersion.ge "3.5rc1" "3.5" = true.
Proof. repeat split; reflexivity. Qed.

Example search_petsc_arch_found :
  PETSc.search_petsc_arch
    ("Compilers:" ++ nl ++ "  PETSC_ARCH: arch-linux2-c-opt" ++ nl ++ "done")
  = Some "arch-linux2-c-opt".
Proof. reflexivity. Qed.

Example search_petsc_arch_second_line :
  PETSc.search_petsc_arch ("PETSC_ARCH: a b" ++ nl ++ "PETSC_ARCH:" ++ nl ++ nl ++ "  x86")
  = Some "x86".
Proof. reflexivity. Qed.

Example search_petsc_arch_not_at_line_start :
  PETSc.search_petsc_arch "xPETSC_ARCH: a" = None.
Proof. reflexivity. Qed.

(** A source installation of PETSc 3.5 with SCOTCH and SuiteSparse
    installed, FFTW in the environment and no ScaLAPACK. *)
Example petsc_3_5_configure :
  let r := PETSc.configure_step
             (petsc_world "3.5" (<["SuiteSparse" := "/sw/SS"]> scotch_roots)
                          ("Configure stage complete." ++ nl ++ "PETSC_ARCH: arch-x") 0)
             (petsc_state (petsc_cfg false true ["SCOTCH"; "FFTW"]) blas_fftw_env true) in
  snd r = Ok tt
  /\ flags_of (PETSc.configopts (PETSc.cfg (fst r))) =
     [ "--with-cc=" ++ dq ++ "None" ++ dq; "--with-cxx=" ++ dq ++ "None" ++ dq;
       "--with-c++-support"; "--with-fc=" ++ dq ++ "None" ++ dq;
       "--CFLAGS=" ++ dq ++ "None" ++ dq; "--CXXFLAGS=" ++ dq ++ "None" ++ dq;
       "--FFLAGS=" ++ dq ++ "None" ++ dq;
       "--with-mpi=1"; "--with-build-step-np=4"; "--with-shared-libraries=0";
       "--with-debugging=0"; "--with-pic=1"; "--with-x=0"; "--with-windows-graphics=0";
       "--with-fftw=1"; "--with-fftw-include=/sw/FFTW/include";
       "--with-fftw-lib=[/sw/FFTW/lib/libfftw3.a]";
       "--with-blas-lapack-lib=[/sw/OpenBLAS/lib/libopenblas.a]";
       "--with-ptscotch=1"; "--with-ptscotch-dir=/sw/SCOTCH";
       "--with-suitesparse=1";
       "--with-suitesparse-include=[/sw/SS/UMFPACK/Include,/sw/SS/KLU/Include,"
       ++ "/sw/SS/CHOLMOD/Include,/sw/SS/BTF/Include,/sw/SS/CCOLAMD/Include,"
       ++ "/sw/SS/COLAMD/Include,/sw/SS/CAMD/Include,/sw/SS/AMD/Include,"
       ++ "/sw/SS/SuiteSparse_config]";
       "--with-suitesparse-lib=[/sw/SS/UMFPACK/Lib/libumfpack.a,/sw/SS/KLU/Lib/libklu.a,"
       ++ "/sw/SS/CHOLMOD/Lib/libcholmod.a,/sw/SS/BTF/Lib/libbtf.a,"
       ++ "/sw/SS/CCOLAMD/Lib/libccolamd.a,/sw/SS/COLAMD/Lib/libcolamd.a,"
       ++ "/sw/SS/CAMD/Lib/libcamd.a,/sw/SS/AMD/Lib/libamd.a,"
       ++ "/sw/SS/SuiteSparse_config/libsuitesparseconfig.a]" ]
  /\ PETSc.buildopts (PETSc.cfg (fst r)) = " PETSC_DIR=/build/petsc  PETSC_ARCH=arch-x "
  /\ PETSc.petsc_arch (fst r) = "arch-x"
  /\ PETSc.petsc_subdir (fst r) = "petsc-3.5"
  /\ PETSc.env (fst r) !! "PETSC_DIR" = Some "/build/petsc"
  /\ records (PETSc.log (fst r)) =
     [(INFO, "Missing inc/lib info, so not enabling ScaLAPACK support.")].
Proof. vm_compute. repeat split. Qed.

(** An old PETSc with SCOTCH installed. *)
Example petsc_2_configure :
  let r := PETSc.configure_step
             (petsc_world "2.3.3-p15" scotch_roots "Configure stage complete." 0)
             (petsc_state (petsc_cfg false false ["SCOTCH"]) blas_fftw_env true) in
  snd r = Ok tt
  /\ PETSc.configopts (PETSc.cfg (fst r)) =
     " --prefix=/sw/PETSc  --with-shared=1  --with-scotch=1 --with-scotch-dir=/sw/SCOTCH "
  /\ PETSc.parallel (PETSc.cfg (fst r)) = Some 4%N.
Proof. vm_compute. repeat split. Qed.

(** ** The step monad *)

Lemma bind_assoc {S A B C} (m : M S A) (f : A -> M S B) (g : B -> M S C) (s : S) :
  bind (bind m f) g s = bind m (fun a => bind (f a) g) s.
Proof.
  unfold bind. destruct (m s) as [s1 [a|e]]; reflexivity.
Qed.

Lemma bind_ok {S A B} (m : M S A) (k : A -> M S B) (s s1 : S) (a : A) :
  m s = (s1, Ok a) -> bind m k s = k a s1.
Proof.
  intros H. unfold bind. rewrite H. reflexivity.
Qed.

Lemma bind_raise {S A B} (m : M S A) (k : A -> M S B) (s s1 : S) (e : exn) :
  m s = (s1, Raise e) -> bind m k s = (s1, Raise e).
Proof.
  intros H. unfold bind. rewrite H. reflexivity.
Qed.

Lemma bind_ok_inv {S A B} (m : M S A) (k : A -> M S B) (s s' : S) (b : B) :
  bind m k s = (s', Ok b) ->
  exists a s1, m s = (s1, Ok a) /\ k a s1 = (s', Ok b).
Proof.
  unfold bind. destruct (m s) as [s1 [a|e]]; intros H.
  - exists a, s1. split; [reflexivity | exact H].
  - discriminate H.
Qed.

(** A step [m] leaves the observation [f] of the state as it was, however
    it ends. *)
Definition preserves {S A B} (f : S -> A) (m : M S B) : Prop :=
  forall s, f (fst (m s)) = f s.

Section Preserves.
Context {S A : Type} (f : S -> A).

Lemma preserves_ret {B} (b : B) : preserves f (ret b).
Proof. intros s. reflexivity. Qed.

Lemma preserves_raise {B} (e : exn) : preserves f (@raise S B e).
Proof. intros s. reflexivity. Qed.

Lemma preserves_gets {B} (g : S -> B) : preserves f (gets g).
Proof. intros s. reflexivity. Qed.

Lemma preserves_modify (g : S -> S) :
  (forall s, f (g s) = f s) -> preserves f (modify g).
Proof. intros H s. apply H. Qed.

Lemma preserves_bind {B C} (m : M S B) (k : B -> M S C) :
  preserves f m -> (forall b, preserves f (k b)) -> preserves f (bind m k).
Proof.
  intros Hm Hk s. unfold bind.
  specialize (Hm s). destruct (m s) as [s1 [b|e]]; simpl in *.
  - rewrite Hk. exact Hm.
  - exact Hm.
Qed.

Lemma preserves_when (c : bool) (body : M S unit) :
  preserves f body -> preserves f (when c body).
Proof.
  intros H. destruct c; simpl; [exact H | apply preserves_ret].
Qed.

Lemma preserves_for_each {B} (l : list B) (body : B -> M S unit) :
  (forall b, preserves f (body b)) -> preserves f (for_each l body).
Proof.
  intros H. induction l as [|x l IH]; simpl.
  - apply preserves_ret.
  - apply preserves_bind; [apply H | intros _; exact IH].
Qed.

Lemma preserves_run_cmd (run : string -> string * Z) (cmd : string) :
  preserves f (run_cmd run cmd).
Proof.
  unfold run_cmd. destruct (run cmd) as [out ec].
  destruct (ec =? 0)%Z; [apply preserves_ret | apply preserves_raise].
Qed.

Lemma preserves_verify_installed (isfile isdir : string -> bool) (cp : custom_paths) :
  preserves f (verify_installed isfile isdir cp).
Proof.
  unfold verify_installed.
  destruct (missing_paths isfile isdir cp); [apply preserves_ret | apply preserves_raise].
Qed.

End Preserves.

(** The frame of a step, piece by piece. *)
Ltac frame_step :=
  first
    [ apply preserves_ret
    | apply preserves_raise
    | apply preserves_gets
    | apply preserves_run_cmd
    | apply preserves_verify_installed
    | apply preserves_modify; intros; reflexivity
    | apply preserves_bind; [ | intros ]
    | apply preserves_when
    | apply preserves_for_each; intros
    | match goal with
      | |- preserves _ (if ?c then _ else _) => destruct c
      | |- preserves _ (match ?x with _ => _ end) => destruct x
      end
    | progress cbv zeta ].

Ltac frame := repeat frame_step.

Lemma log_error_preserves {A} (f : PETSc.St -> A) (msg : string) :
  (forall g s, f (PETSc.with_log g s) = f s) -> preserves f (PETSc.log_error msg).
Proof.
  intros H. unfold PETSc.log_error.
  apply preserves_bind; [apply preserves_modify; apply H | intros _].
  frame.
Qed.


(** ** Strings *)

Lemma startswith_app (p s : string) : Py.startswith p (p ++ s) = true.
Proof.
  induction p as [|a p IH]; simpl.
  - reflexivity.
  - rewrite Ascii.eqb_refl. exact IH.
Qed.

Lemma startswith_app_l (p a b : string) :
  Py.startswith p a = true -> Py.startswith p (a ++ b) = true.
Proof.
  revert a. induction p as [|x p IH]; intros a H; simpl in *.
  - reflexivity.
  - destruct a as [|y a]; simpl in *; [discriminate|].
    destruct (Ascii.eqb x y); [apply IH; exact H | discriminate].
Qed.

Lemma contains_startswith (p s : string) :
  Py.startswith p s = true -> Py.contains p s = true.
Proof.
  intros H. destruct s; simpl in *; rewrite H; reflexivity.
Qed.

Lemma contains_app_l (x a b : string) :
  Py.contains x a = true -> Py.contains x (a ++ b) = true.
Proof.
  induction a as [|c a IH]; simpl; intros H.
  - rewrite orb_false_r in H. apply contains_startswith.
    apply (startswith_app_l x EmptyString b H).
  - apply orb_true_iff in H. apply orb_true_iff. destruct H as [H|H].
    + left. apply (startswith_app_l x (String c a) b H).
    + right. apply IH. exact H.
Qed.

Lemma contains_app_r (x a b : string) :
  Py.contains x b = true -> Py.contains x (a ++ b) = true.
Proof.
  intros H. induction a as [|c a IH]; simpl.
  - exact H.
  - rewrite IH. apply orb_true_r.
Qed.

(** An option string keeps what it contains when a flag is appended. *)
Lemma contains_cfg_update_old (x prev value : string) :
  Py.contains x prev = true -> Py.contains x (cfg_update prev value) = true.
Proof.
  intros H. unfold cfg_update. apply contains_app_l. exact H.
Qed.

(** An appended flag is contained from its first character on. *)
Lemma contains_cfg_update_new (x rest prev : string) :
  Py.contains x (cfg_update prev (x ++ rest)) = true.
Proof.
  unfold cfg_update. apply contains_app_r. apply contains_app_r.
  apply contains_app_l. apply contains_startswith. apply startswith_app.
Qed.

(** ** Blender: the loop over the defaults *)

Lemma apply_defaults_run (D : list (string * string)) (c : Blender.Cfg) :
  Blender.apply_defaults D c =
  (Blender.set_configopts
     (fold_left cfg_update (map Blender.default_flag (Blender.applied_defaults D (Blender.configopts c)))
                (Blender.configopts c)) c,
   Ok tt).
Proof.
  revert c. induction D as [|kv D IH]; intros c.
  - destruct c; reflexivity.
  - unfold Blender.apply_defaults in *. simpl.
    unfold Blender.apply_default, bind, gets at 1. simpl.
    fold (Blender.default_opt kv).
    destruct (Py.contains (Blender.default_opt kv) (Blender.configopts c)) eqn:E; simpl.
    + rewrite IH. reflexivity.
    + rewrite IH. simpl. reflexivity.
Qed.

Lemma applied_defaults_absent (D : list (string * string)) (opts : string) (kv : string * string) :
  In kv (Blender.applied_defaults D opts) ->
  In kv D /\ Py.contains (Blender.default_opt kv) opts = false.
Proof.
  revert opts. induction D as [|d D IH]; intros opts H; simpl in *.
  - contradiction.
  - destruct (Py.contains (Blender.default_opt d) opts) eqn:E.
    + destruct (IH _ H) as [H1 H2]. split; [right; exact H1 | exact H2].
    + destruct H as [H|H].
      * subst d. split; [left; reflexivity | exact E].
      * destruct (IH _ H) as [H1 H2]. split; [right; exact H1|].
        destruct (Py.contains (Blender.default_opt kv) opts) eqn:E'; [|reflexivity].
        rewrite (contains_cfg_update_old _ _ _ E') in H2. discriminate.
Qed.

Lemma fold_cfg_update_contains (x : string) (fl : list string) (opts : string) :
  Py.contains x opts = true -> Py.contains x (fold_left cfg_update fl opts) = true.
Proof.
  revert opts. induction fl as [|f fl IH]; intros opts H; simpl.
  - exact H.
  - apply IH. apply contains_cfg_update_old. exact H.
Qed.

Lemma applied_defaults_present (D : list (string * string)) (opts : string) (kv : string * string) :
  In kv D ->
  Py.contains (Blender.default_opt kv)
    (fold_left cfg_update (map Blender.default_flag (Blender.applied_defaults D opts)) opts) = true.
Proof.
  revert opts. induction D as [|d D IH]; intros opts H; simpl in *.
  - contradiction.
  - destruct (Py.contains (Blender.default_opt d) opts) eqn:E.
    + destruct H as [H|H].
      * subst d. apply fold_cfg_update_contains. exact E.
      * apply IH. exact H.
    + simpl. destruct H as [H|H].
      * subst d. apply fold_cfg_update_contains.
        unfold Blender.default_flag. apply contains_cfg_update_new.
      * apply IH. exact H.
Qed.

Lemma applied_defaults_nil (D : list (string * string)) (opts : string) :
  (forall kv, In kv D -> Py.contains (Blender.default_opt kv) opts = true) ->
  Blender.applied_defaults D opts = [].
Proof.
  induction D as [|d D IH]; intros H; simpl.
  - reflexivity.
  - rewrite (H d (or_introl eq_refl)). apply IH. intros kv Hkv. apply H. right. exact Hkv.
Qed.

(** C1 (as stated, refuted): repeating the configure step of MVAPICH2, which
    appends its options without looking at [configopts], duplicates flags:
    [--with-rdma=gen2] occurs once after the first run and twice after the
    second. *)
Lemma mvapich2_configure_duplicates :
  ~ no_duplicates_on_repeat MVAPICH2.configopts
      (MVAPICH2.configure_step (tool "configure: creating ./config.status" 0)).
Proof.
  intros H.
  specialize (H (MVAPICH2.default_cfg EmptyString) "--with-rdma=gen2").
  vm_compute in H. lia.
Qed.

(** C1 (amended): the loop over the defaults of the Blender easyblock, for
    every list of defaults [D] and every configuration: the option string it
    leaves is the old one with the flags of the applied items appended; an
    item is applied only if its [-D<key>=] does not occur in the old option
    string; a second run of the loop changes nothing, so repeating it
    duplicates no flag.  The options of MVAPICH2 are appended without such a
    check: a second run appends the same joined options once more. *)
Theorem blender_defaults_idempotent (D : list (string * string)) (c : Blender.Cfg) :
  let applied := Blender.applied_defaults D (Blender.configopts c) in
  let c1 := fst (Blender.apply_defaults D c) in
  Blender.configopts c1 =
    fold_left cfg_update (map Blender.default_flag applied) (Blender.configopts c)
  /\ (forall kv, In kv applied ->
        In kv D /\ Py.contains (Blender.default_opt kv) (Blender.configopts c) = false)
  /\ Blender.apply_defaults D c1 = (c1, Ok tt)
  /\ no_duplicates_on_repeat Blender.configopts (Blender.apply_defaults D)
  /\ (forall m : MVAPICH2.Cfg,
        let joined := Py.str_join " " (MVAPICH2.add_configopts m) in
        MVAPICH2.configopts (fst (MVAPICH2.configure_opts (fst (MVAPICH2.configure_opts m))))
        = cfg_update (cfg_update (MVAPICH2.configopts m) joined) joined).
Proof.
  assert (Hidem : forall c0, Blender.apply_defaults D (fst (Blender.apply_defaults D c0))
                             = (fst (Blender.apply_defaults D c0), Ok tt)).
  { intros c0. rewrite (apply_defaults_run D c0). simpl.
    rewrite apply_defaults_run. simpl.
    rewrite (applied_defaults_nil D).
    - reflexivity.
    - intros kv Hkv. apply applied_defaults_present. exact Hkv. }
  cbv zeta. repeat split.
  - rewrite apply_defaults_run. reflexivity.
  - apply (applied_defaults_absent D _ kv H).
  - apply (applied_defaults_absent D _ kv H).
  - apply Hidem.
  - intros c0 flag. cbv zeta. rewrite Hidem. simpl. lia.
Qed.

(** C2: [find_glob_pattern] returns the match when the pattern has exactly
    one; with no match or with two or more it raises an error whose
    arguments are the pattern, the number of matches and the list of the
    matches as [glob] gave it. *)
Theorem find_glob_pattern_unique {S} (w : Blender.World) (p : string) (s : S) :
  (forall m, Blender.glob w p = [m] -> Blender.find_glob_pattern w p s = (s, Ok m))
  /\ (length (Blender.glob w p) <> 1 ->
      Blender.find_glob_pattern w p s =
      (s, Raise (EasyBuildError "Was expecting exactly one match for '%s', found %d: %s"
                                [AStr p; AInt (length (Blender.glob w p));
                                 AList (Blender.glob w p)]))).
Proof.
  unfold Blender.find_glob_pattern. split.
  - intros m H. rewrite H. reflexivity.
  - intros H. destruct (Blender.glob w p) as [|m [|m' ms]]; simpl in *.
    + reflexivity.
    + contradiction H. reflexivity.
    + reflexivity.
Qed.

Lemma find_glob_pattern_unique_witness :
  Blender.find_glob_pattern (glob_world ["/sw/lib/libpython2.7.so"]) "/sw/lib/libpython2.7*.so" tt
    = (tt, Ok "/sw/lib/libpython2.7.so")
  /\ Blender.find_glob_pattern (glob_world []) "/sw/include/python2.7*" tt
    = (tt, Raise (EasyBuildError "Was expecting exactly one match for '%s', found %d: %s"
                                 [AStr "/sw/include/python2.7*"; AInt 0; AList []]))
  /\ Blender.find_glob_pattern (glob_world ["b"; "a"]) "*" tt
    = (tt, Raise (EasyBuildError "Was expecting exactly one match for '%s', found %d: %s"
                                 [AStr "*"; AInt 2; AList ["b"; "a"]])).
Proof.
  split; [|split].
  - apply (proj1 (find_glob_pattern_unique
                    (glob_world ["/sw/lib/libpython2.7.so"]) "/sw/lib/libpython2.7*.so" tt)).
    reflexivity.
  - apply (proj2 (find_glob_pattern_unique (glob_world []) "/sw/include/python2.7*" tt)).
    simpl. lia.
  - apply (proj2 (find_glob_pattern_unique (glob_world ["b"; "a"]) "*" tt)).
    simpl. lia.
Defined.

(** ** MVAPICH2 *)

(** C9: for MVAPICH2 2.0 (which keeps the old library names) with the
    default options, [add_configopts] is exactly the baseline, in order; the
    step appends it, space-joined, to [configopts] with nothing else; and
    the configure step ends well when the tool exits normally and prints no
    error marker. *)
Theorem mvapich2_baseline_configure (opts : string) (run : string -> string * Z) :
  let c := MVAPICH2.default_cfg opts in
  let joined := "--with-rdma=gen2 --with-thread-package=pthreads --enable-fast "
                ++ "--enable-shared --enable-sharedlibs=gcc "
                ++ "--enable-f77 --enable-fc --enable-cxx" in
  let c' := MVAPICH2.set_configopts (cfg_update opts joined) c in
  MVAPICH2.use_new_libnames "2.0" = false
  /\ MVAPICH2.add_configopts c = mvapich2_baseline
  /\ Py.str_join " " mvapich2_baseline = joined
  /\ MVAPICH2.configure_opts c = (c', Ok tt)
  /\ (forall out,
        run ("./configure " ++ MVAPICH2.configopts c') = (out, 0%Z) ->
        Py.contains "ERROR" out = false ->
        MVAPICH2.configure_step run c = (c', Ok tt)).
Proof.
  cbv zeta. repeat split.
  intros out Hrun Hout.
  unfold MVAPICH2.configure_step, MVAPICH2.super_configure_step.
  unfold bind at 1. change (MVAPICH2.configure_opts (MVAPICH2.default_cfg opts))
    with (MVAPICH2.set_configopts
            (cfg_update opts
               ("--with-rdma=gen2 --with-thread-package=pthreads --enable-fast "
                ++ "--enable-shared --enable-sharedlibs=gcc "
                ++ "--enable-f77 --enable-fc --enable-cxx")) (MVAPICH2.default_cfg opts), Ok tt).
  cbv iota beta. unfold bind at 1, gets at 1. cbv iota beta.
  unfold bind, run_cmd. rewrite Hrun. simpl. unfold ret. rewrite Hout. reflexivity.
Qed.

Lemma mvapich2_baseline_configure_witness :
  MVAPICH2.configure_step (tool "configure: creating ./config.status" 0)
                          (MVAPICH2.default_cfg EmptyString)
  = (MVAPICH2.default_cfg
       (cfg_update EmptyString
          ("--with-rdma=gen2 --with-thread-package=pthreads --enable-fast "
           ++ "--enable-shared --enable-sharedlibs=gcc "
           ++ "--enable-f77 --enable-fc --enable-cxx")), Ok tt).
Proof.
  apply (proj2 (proj2 (proj2 (proj2
          (mvapich2_baseline_configure EmptyString
             (tool "configure: creating ./config.status" 0)))))
          "configure: creating ./config.status").
  - reflexivity.
  - vm_compute. reflexivity.
Defined.

(** ** PETSc: what the blocks of the configure step append *)

Lemma update_configopts_run (v : string) (s : PETSc.St) :
  PETSc.update_configopts v s = (PETSc.append_flags [v] s, Ok tt).
Proof. reflexivity. Qed.

Lemma append_flags_app (l1 l2 : list string) (s : PETSc.St) :
  PETSc.append_flags l2 (PETSc.append_flags l1 s) = PETSc.append_flags (l1 ++ l2)%list s.
Proof.
  unfold PETSc.append_flags, PETSc.with_cfg, PETSc.set_configopts. simpl.
  rewrite fold_left_app. reflexivity.
Qed.

Lemma append_flags_nil (s : PETSc.St) : PETSc.append_flags [] s = s.
Proof. destruct s as [c e l a d b]. destruct c. reflexivity. Qed.

Lemma compiler_flags_run (w : PETSc.World) (s : PETSc.St) :
  PETSc.compiler_flags w s =
  (PETSc.append_flags
     (if PETSc.ge_3_5 w
      then [ PETSc.quoted_flag "--CFLAGS" (PETSc.env s !! "CFLAGS");
             PETSc.quoted_flag "--CXXFLAGS" (PETSc.env s !! "CXXFLAGS");
             PETSc.quoted_flag "--FFLAGS" (PETSc.env s !! "F90FLAGS") ]
      else [ PETSc.quoted_flag "--with-cflags" (PETSc.env s !! "CFLAGS");
             PETSc.quoted_flag "--with-cxxflags" (PETSc.env s !! "CXXFLAGS");
             PETSc.quoted_flag "--with-fcflags" (PETSc.env s !! "F90FLAGS") ]) s,
   Ok tt).
Proof.
  unfold PETSc.compiler_flags. destruct (PETSc.ge_3_5 w); reflexivity.
Qed.

Lemma truthy_some (x : option string) (v : string) :
  x = Some v -> v <> EmptyString -> Py.truthy x = true.
Proof.
  intros -> H. simpl. destruct v; [contradiction H; reflexivity | reflexivity].
Qed.

Lemma additional_dependency_run (w : PETSc.World) (dep : string) (s : PETSc.St) :
  PETSc.additional_dependency w dep s =
  (if Py.truthy (PETSc.get_software_root w dep)
   then PETSc.append_flags
          [ PETSc.withdep_of (PETSc.ge_3_5 w) dep ++ "=1 "
            ++ PETSc.withdep_of (PETSc.ge_3_5 w) dep ++ "-dir="
            ++ Py.fmt_s (PETSc.get_software_root w dep) ] s
   else s, Ok tt).
Proof.
  unfold PETSc.additional_dependency. simpl.
  destruct (Py.truthy (PETSc.get_software_root w dep)); reflexivity.
Qed.

Lemma env_dependency_run (var with_arg dep : string) (s : PETSc.St) :
  PETSc.env_dependency var with_arg dep s =
  (if Py.truthy (PETSc.env s !! (var ++ "_INC_DIR"))
      && Py.truthy (PETSc.env s !! (var ++ "_LIB_DIR"))
      && Py.truthy (PETSc.env s !! (var ++ "_STATIC_LIBS"))
   then PETSc.append_flags
          (PETSc.triple_flags with_arg
             (Py.fmt_s (PETSc.env s !! (var ++ "_INC_DIR")))
             (Py.fmt_s (PETSc.env s !! (var ++ "_LIB_DIR")))
             (Py.fmt_s (PETSc.env s !! (var ++ "_STATIC_LIBS")))) s
   else PETSc.with_log
          (record_msg INFO ("Missing inc/lib info, so not enabling " ++ dep ++ " support.")) s,
   Ok tt).
Proof.
  unfold PETSc.env_dependency, bind, PETSc.getenv, gets.
  destruct (Py.truthy (PETSc.env s !! (var ++ "_INC_DIR"))
            && Py.truthy (PETSc.env s !! (var ++ "_LIB_DIR"))
            && Py.truthy (PETSc.env s !! (var ++ "_STATIC_LIBS"))); reflexivity.
Qed.

(** C3: the names of the flags follow the comparison of the version with
    3.5, the boundary included: for version 3.4 the compiler flags go under
    [--with-cflags], [--with-cxxflags], [--with-fcflags] and SCOTCH under
    [--with-scotch]; for 3.5 and 3.5.1 they go under [--CFLAGS],
    [--CXXFLAGS], [--FFLAGS] and SCOTCH under [--with-ptscotch]. *)
Theorem petsc_threshold_flags (w : PETSc.World) (s : PETSc.St) :
  (PETSc.version w = "3.4" ->
     PETSc.compiler_flags w s =
       (PETSc.append_flags
          [ PETSc.quoted_flag "--with-cflags" (PETSc.env s !! "CFLAGS");
            PETSc.quoted_flag "--with-cxxflags" (PETSc.env s !! "CXXFLAGS");
            PETSc.quoted_flag "--with-fcflags" (PETSc.env s !! "F90FLAGS") ] s, Ok tt)
     /\ PETSc.withdep_of (PETSc.ge_3_5 w) "SCOTCH" = "--with-scotch"
     /\ forall root,
          PETSc.get_software_root w "SCOTCH" = Some root -> root <> EmptyString ->
          PETSc.additional_dependency w "SCOTCH" s =
            (PETSc.append_flags ["--with-scotch=1 --with-scotch-dir=" ++ root] s, Ok tt))
  /\ (PETSc.version w = "3.5" \/ PETSc.version w = "3.5.1" ->
     PETSc.compiler_flags w s =
       (PETSc.append_flags
          [ PETSc.quoted_flag "--CFLAGS" (PETSc.env s !! "CFLAGS");
            PETSc.quoted_flag "--CXXFLAGS" (PETSc.env s !! "CXXFLAGS");
            PETSc.quoted_flag "--FFLAGS" (PETSc.env s !! "F90FLAGS") ] s, Ok tt)
     /\ PETSc.withdep_of (PETSc.ge_3_5 w) "SCOTCH" = "--with-ptscotch"
     /\ forall root,
          PETSc.get_software_root w "SCOTCH" = Some root -> root <> EmptyString ->
          PETSc.additional_dependency w "SCOTCH" s =
            (PETSc.append_flags ["--with-ptscotch=1 --with-ptscotch-dir=" ++ root] s, Ok tt)).
Proof.
  split.
  - intros Hv.
    assert (Hge : PETSc.ge_3_5 w = false) by (unfold PETSc.ge_3_5; rewrite Hv; reflexivity).
    rewrite compiler_flags_run, Hge. split; [reflexivity | split; [reflexivity|]].
    intros root Hroot Hne.
    rewrite additional_dependency_run, Hge, (truthy_some _ root Hroot Hne), Hroot.
    reflexivity.
  - intros Hv.
    assert (Hge : PETSc.ge_3_5 w = true)
      by (unfold PETSc.ge_3_5; destruct Hv as [Hv|Hv]; rewrite Hv; reflexivity).
    rewrite compiler_flags_run, Hge. split; [reflexivity | split; [reflexivity|]].
    intros root Hroot Hne.
    rewrite additional_dependency_run, Hge, (truthy_some _ root Hroot Hne), Hroot.
    reflexivity.
Qed.

Lemma petsc_threshold_flags_witness :
  emitted_by (PETSc.additional_dependency (petsc_world "3.4" scotch_roots EmptyString 0) "SCOTCH")
             (petsc_state (petsc_cfg false false ["SCOTCH"]) ∅ true)
    = ["--with-scotch=1"; "--with-scotch-dir=/sw/SCOTCH"]
  /\ emitted_by (PETSc.additional_dependency (petsc_world "3.5" scotch_roots EmptyString 0) "SCOTCH")
                (petsc_state (petsc_cfg false false ["SCOTCH"]) ∅ true)
    = ["--with-ptscotch=1"; "--with-ptscotch-dir=/sw/SCOTCH"]
  /\ emitted_by (PETSc.compiler_flags (petsc_world "3.5.1" scotch_roots EmptyString 0))
                (petsc_state (petsc_cfg false false ["SCOTCH"]) (<["CFLAGS" := "-O2"]> ∅) true)
    = ["--CFLAGS=" ++ dq ++ "-O2" ++ dq; "--CXXFLAGS=" ++ dq ++ "None" ++ dq;
       "--FFLAGS=" ++ dq ++ "None" ++ dq].
Proof.
  unfold emitted_by. split; [|split].
  - rewrite (proj2 (proj2 (proj1 (petsc_threshold_flags
                                    (petsc_world "3.4" scotch_roots EmptyString 0) _) eq_refl))
               "/sw/SCOTCH" ltac:(vm_compute; reflexivity) ltac:(discriminate)).
    vm_compute. reflexivity.
  - rewrite (proj2 (proj2 (proj2 (petsc_threshold_flags
                                    (petsc_world "3.5" scotch_roots EmptyString 0) _)
                                 (or_introl eq_refl)))
               "/sw/SCOTCH" ltac:(vm_compute; reflexivity) ltac:(discriminate)).
    vm_compute. reflexivity.
  - rewrite (proj1 (proj2 (petsc_threshold_flags
                             (petsc_world "3.5.1" scotch_roots EmptyString 0) _)
                          (or_intror eq_refl))).
    vm_compute. reflexivity.
Defined.

Lemma run_cmd_run {S} (run : string -> string * Z) (cmd : string) (s : S) :
  run_cmd run cmd s =
  (s, if (snd (run cmd) =? 0)%Z then Ok (fst (run cmd))
      else Raise (EasyBuildError "cmd %s exited with exitcode %s and output: %s"
                    [AStr cmd; AInt (Z.to_nat (snd (run cmd))); AStr (fst (run cmd))])).
Proof.
  unfold run_cmd. destruct (run cmd) as [out ec]. simpl.
  destruct (ec =? 0)%Z; reflexivity.
Qed.

Lemma run_cmd_unit {S} (run : string -> string * Z) (cmd : string) (s : S) :
  (run_cmd run cmd ;; ret tt) s =
  (s, if (snd (run cmd) =? 0)%Z then Ok tt
      else Raise (EasyBuildError "cmd %s exited with exitcode %s and output: %s"
                    [AStr cmd; AInt (Z.to_nat (snd (run cmd))); AStr (fst (run cmd))])).
Proof.
  unfold bind. rewrite run_cmd_run. destruct (snd (run cmd) =? 0)%Z; reflexivity.
Qed.

Lemma configure_old_run (w : PETSc.World) (s : PETSc.St) :
  PETSc.configure_old w s =
  (let s1 :=
     PETSc.append_flags
       (List.app
          ["--prefix=" ++ PETSc.installdir w; "--with-shared=1"]
          (if Py.truthy (PETSc.get_software_root w "SCOTCH")
           then ["--with-scotch=1 --with-scotch-dir="
                 ++ Py.fmt_s (PETSc.get_software_root w "SCOTCH")]
           else [])) s in
   let cmd := "./config/configure.py " ++ PETSc.configopts (PETSc.cfg s1) in
   (s1, if (snd (PETSc.run w cmd) =? 0)%Z then Ok tt
        else Raise (EasyBuildError "cmd %s exited with exitcode %s and output: %s"
                      [AStr cmd; AInt (Z.to_nat (snd (PETSc.run w cmd)));
                       AStr (fst (PETSc.run w cmd))]))).
Proof.
  unfold PETSc.configure_old.
  rewrite (bind_ok _ _ _ _ _ (update_configopts_run _ _)).
  rewrite (bind_ok _ _ _ _ _ (update_configopts_run _ _)).
  cbn [for_each]. rewrite bind_assoc.
  destruct (Py.truthy (PETSc.get_software_root w "SCOTCH")); unfold when.
  - rewrite (bind_ok _ _ _ _ _ (update_configopts_run _ _)).
    unfold bind at 1, ret at 1. unfold bind at 1, gets at 1.
    rewrite run_cmd_unit. reflexivity.
  - unfold bind at 1, ret at 1. unfold bind at 1, ret at 1. unfold bind at 1, gets at 1.
    rewrite run_cmd_unit. reflexivity.
Qed.

(** C4 (as stated, refuted): a dependency found through its software root
    does not get an include/lib/root triple of flags.  With SCOTCH installed
    under [/sw/SCOTCH], PETSc 3.4 appends two flags for it, the switch and
    the [-dir] flag, and neither an include nor a lib flag. *)
Lemma software_root_dependency_no_triple :
  let emitted :=
    emitted_by (PETSc.additional_dependency (petsc_world "3.4" scotch_roots EmptyString 0) "SCOTCH")
               (petsc_state (petsc_cfg false false ["SCOTCH"]) ∅ true) in
  emitted = ["--with-scotch=1"; "--with-scotch-dir=/sw/SCOTCH"]
  /\ length emitted <> 3
  /\ forallb (fun f => negb (Py.contains "-include=" f || Py.contains "-lib=" f)) emitted = true.
Proof.
  vm_compute. repeat split. discriminate.
Qed.

(** C4 (amended): in the configure step of PETSc, a lookup of an optional
    dependency that returns absent appends no flag and raises no error, and
    one that returns present appends flags that depend on the lookup, with
    the resolved values in them.  For a dependency looked up through its
    environment triple, absent means that one of the three variables is
    unset or empty: a message is logged at level info and the configuration
    is left as it was; present, exactly the three flags [=1], [-include=<inc>]
    and [-lib=[<libdir>/<libs>]] are appended.  For a dependency of the loop
    over the additional dependencies, looked up through its software root,
    absent leaves the state as it was; present, exactly one text with the two
    flags [=1] and [-dir=<root>] is appended, under the name
    [PETSc.withdep_of] gives, [--with-ptscotch] for SCOTCH from 3.5 on and
    [--with-<name>] in small letters otherwise.  For Python, looked up
    through its software root, absent leaves the state as it was; present,
    [--with-numpy=1] is appended, followed by [--with-mpi4py=1] under
    [shared_libs], and no flag holds a path.  For SuiteSparse, looked up
    through its software root, absent leaves the state as it was; present,
    exactly one text with three flags [=1], [-include=] and [-lib=] is
    appended, of [--with-suitesparse] from 3.5 on and of [--with-umfpack]
    before, with the paths of the components joined to the root.  For
    SCOTCH in the branch of the versions below 3, looked up through its
    software root, absent leaves [--prefix] and [--with-shared=1] as the
    only flags appended; present, the one text with [--with-scotch=1] and
    [--with-scotch-dir=<root>] follows them. *)
Theorem optional_dependency_flags (w : PETSc.World) (s : PETSc.St) :
  (forall var with_arg dep,
     Py.truthy (PETSc.env s !! (var ++ "_INC_DIR"))
     && Py.truthy (PETSc.env s !! (var ++ "_LIB_DIR"))
     && Py.truthy (PETSc.env s !! (var ++ "_STATIC_LIBS")) = false ->
     PETSc.env_dependency var with_arg dep s =
       (PETSc.with_log
          (record_msg INFO ("Missing inc/lib info, so not enabling " ++ dep ++ " support.")) s,
        Ok tt))
  /\ (forall var with_arg dep inc libdir libs,
        PETSc.env s !! (var ++ "_INC_DIR") = Some inc -> inc <> EmptyString ->
        PETSc.env s !! (var ++ "_LIB_DIR") = Some libdir -> libdir <> EmptyString ->
        PETSc.env s !! (var ++ "_STATIC_LIBS") = Some libs -> libs <> EmptyString ->
        PETSc.env_dependency var with_arg dep s =
          (PETSc.append_flags
             [ with_arg ++ "=1";
               with_arg ++ "-include=" ++ inc;
               with_arg ++ "-lib=[" ++ libdir ++ "/" ++ libs ++ "]" ] s,
           Ok tt))
  /\ (forall dep,
        Py.truthy (PETSc.get_software_root w dep) = false ->
        PETSc.additional_dependency w dep s = (s, Ok tt))
  /\ (forall dep root,
        PETSc.get_software_root w dep = Some root -> root <> EmptyString ->
        PETSc.additional_dependency w dep s =
          (PETSc.append_flags
             [ PETSc.withdep_of (PETSc.ge_3_5 w) dep ++ "=1 "
               ++ PETSc.withdep_of (PETSc.ge_3_5 w) dep ++ "-dir=" ++ root ] s,
           Ok tt))
  /\ (forall dep,
        PETSc.withdep_of (PETSc.ge_3_5 w) dep =
          if PETSc.ge_3_5 w && String.eqb dep "SCOTCH" then "--with-ptscotch"
          else "--with-" ++ Py.lower dep)
  /\ (Py.truthy (PETSc.get_software_root w "Python") = false ->
      PETSc.python_extensions w s = (s, Ok tt))
  /\ (Py.truthy (PETSc.get_software_root w "Python") = true ->
      PETSc.python_extensions w s =
        (PETSc.append_flags
           (if PETSc.shared_libs (PETSc.cfg s)
            then ["--with-numpy=1"; "--with-mpi4py=1"]
            else ["--with-numpy=1"]) s,
         Ok tt))
  /\ (Py.truthy (PETSc.get_software_root w "SuiteSparse") = false ->
      PETSc.suitesparse_options w s = (s, Ok tt))
  /\ (forall root,
        PETSc.get_software_root w "SuiteSparse" = Some root -> root <> EmptyString ->
        PETSc.ge_3_5 w = true ->
        PETSc.suitesparse_options w s =
          (PETSc.append_flags
             [ Py.str_join " "
                 [ "--with-suitesparse=1";
                   "--with-suitesparse-include=["
                   ++ Py.str_join ","
                        (map (Py.join root)
                             [ ["UMFPACK"; "Include"]; ["KLU"; "Include"];
                               ["CHOLMOD"; "Include"]; ["BTF"; "Include"];
                               ["CCOLAMD"; "Include"]; ["COLAMD"; "Include"];
                               ["CAMD"; "Include"]; ["AMD"; "Include"];
                               ["SuiteSparse_config"] ])
                   ++ "]";
                   "--with-suitesparse-lib=["
                   ++ Py.str_join ","
                        (map (Py.join root)
                             [ ["UMFPACK"; "Lib"; "libumfpack.a"]; ["KLU"; "Lib"; "libklu.a"];
                               ["CHOLMOD"; "Lib"; "libcholmod.a"]; ["BTF"; "Lib"; "libbtf.a"];
                               ["CCOLAMD"; "Lib"; "libccolamd.a"];
                               ["COLAMD"; "Lib"; "libcolamd.a"];
                               ["CAMD"; "Lib"; "libcamd.a"]; ["AMD"; "Lib"; "libamd.a"];
                               ["SuiteSparse_config"; "libsuitesparseconfig.a"] ])
                   ++ "]" ] ] s,
           Ok tt))
  /\ (forall root,
        PETSc.get_software_root w "SuiteSparse" = Some root -> root <> EmptyString ->
        PETSc.ge_3_5 w = false ->
        PETSc.suitesparse_options w s =
          (PETSc.append_flags
             [ Py.str_join " "
                 [ "--with-umfpack=1";
                   "--with-umfpack-include=" ++ Py.join root ["UMFPACK"; "Include"];
                   "--with-umfpack-lib=["
                   ++ Py.str_join ","
                        (map (Py.join root)
                             [ ["UMFPACK"; "Lib"; "libumfpack.a"];
                               ["CHOLMOD"; "Lib"; "libcholmod.a"];
                               ["COLAMD"; "Lib"; "libcolamd.a"];
                               ["AMD"; "Lib"; "libamd.a"] ])
                   ++ "]" ] ] s,
           Ok tt))
  /\ (Py.truthy (PETSc.get_software_root w "SCOTCH") = false ->
      fst (PETSc.configure_old w s) =
        PETSc.append_flags ["--prefix=" ++ PETSc.installdir w; "--with-shared=1"] s)
  /\ (forall root,
        PETSc.get_software_root w "SCOTCH" = Some root -> root <> EmptyString ->
        fst (PETSc.configure_old w s) =
          PETSc.append_flags
            [ "--prefix=" ++ PETSc.installdir w; "--with-shared=1";
              "--with-scotch=1 --with-scotch-dir=" ++ root ] s).
Proof.
  split; [|split; [|split; [|split; [|split; [|split; [|split; [|split; [|split;
    [|split; [|split]]]]]]]]]].
  - intros var with_arg dep H. rewrite env_dependency_run, H. reflexivity.
  - intros var with_arg dep inc libdir libs Hi Hi' Hd Hd' Hl Hl'.
    rewrite env_dependency_run.
    rewrite (truthy_some _ inc Hi Hi'), (truthy_some _ libdir Hd Hd'),
      (truthy_some _ libs Hl Hl').
    rewrite Hi, Hd, Hl. reflexivity.
  - intros dep H. rewrite additional_dependency_run, H. reflexivity.
  - intros dep root Hr Hr'.
    rewrite additional_dependency_run, (truthy_some _ root Hr Hr'), Hr. reflexivity.
  - intros dep. unfold PETSc.withdep_of.
    destruct (PETSc.ge_3_5 w); [|reflexivity]. cbn [andb].
    destruct (String.eqb dep "SCOTCH") eqn:E; [|reflexivity].
    apply String.eqb_eq in E. subst dep. reflexivity.
  - intros H. unfold PETSc.python_extensions. rewrite H. reflexivity.
  - intros H. unfold PETSc.python_extensions. rewrite H.
    unfold when, bind, gets. rewrite update_configopts_run.
    destruct s as [c e l a d b]. destruct c as [co bo po pa si sh wp pi pl sd bd dd].
    destruct sh; reflexivity.
  - intros H. unfold PETSc.suitesparse_options. cbv zeta. rewrite H. reflexivity.
  - intros root Hr Hr' Hge. unfold PETSc.suitesparse_options. cbv zeta.
    rewrite (truthy_some _ root Hr Hr'), Hr, Hge. reflexivity.
  - intros root Hr Hr' Hge. unfold PETSc.suitesparse_options. cbv zeta.
    rewrite (truthy_some _ root Hr Hr'), Hr, Hge. reflexivity.
  - intros H. rewrite configure_old_run, H. reflexivity.
  - intros root Hr Hr'.
    rewrite configure_old_run, (truthy_some _ root Hr Hr'), Hr. reflexivity.
Qed.

Lemma optional_dependency_flags_witness :
  let w := petsc_world "3.5" scotch_roots EmptyString 0 in
  let s := petsc_state (petsc_cfg false false ["SCOTCH"]) blas_fftw_env true in
  PETSc.env_dependency "SCALAPACK" "--with-scalapack" "ScaLAPACK" s =
    (PETSc.with_log
       (record_msg INFO "Missing inc/lib info, so not enabling ScaLAPACK support.") s, Ok tt)
  /\ PETSc.env_dependency "FFTW" "--with-fftw" "FFTW" s =
    (PETSc.append_flags
       [ "--with-fftw=1"; "--with-fftw-include=/sw/FFTW/include";
         "--with-fftw-lib=[/sw/FFTW/lib/libfftw3.a]" ] s, Ok tt)
  /\ PETSc.additional_dependency w "ParMETIS" s = (s, Ok tt)
  /\ PETSc.additional_dependency w "SCOTCH" s =
    (PETSc.append_flags ["--with-ptscotch=1 --with-ptscotch-dir=/sw/SCOTCH"] s, Ok tt)
  /\ PETSc.python_extensions w s = (s, Ok tt)
  /\ PETSc.python_extensions (petsc_world "3.5" python_roots EmptyString 0) s =
    (PETSc.append_flags ["--with-numpy=1"] s, Ok tt)
  /\ PETSc.suitesparse_options w s = (s, Ok tt)
  /\ emitted_by (PETSc.suitesparse_options (petsc_world "3.4" suitesparse_roots EmptyString 0)) s =
    [ "--with-umfpack=1";
      "--with-umfpack-include=/sw/SuiteSparse/UMFPACK/Include";
      "--with-umfpack-lib=[/sw/SuiteSparse/UMFPACK/Lib/libumfpack.a,/sw/SuiteSparse/CHOLMOD/Lib/libcholmod.a,/sw/SuiteSparse/COLAMD/Lib/libcolamd.a,/sw/SuiteSparse/AMD/Lib/libamd.a]" ]
  /\ fst (PETSc.configure_old (petsc_world "2.3.3" scotch_roots EmptyString 0) s) =
    PETSc.append_flags
      ["--prefix=/sw/PETSc"; "--with-shared=1"; "--with-scotch=1 --with-scotch-dir=/sw/SCOTCH"] s.
Proof.
  cbv zeta.
  pose proof (optional_dependency_flags
                (petsc_world "3.5" scotch_roots EmptyString 0)
                (petsc_state (petsc_cfg false false ["SCOTCH"]) blas_fftw_env true))
    as [H1 [H2 [H3 [H4 [_ [H5 [_ [H7 _]]]]]]]].
  pose proof (optional_dependency_flags
                (petsc_world "3.5" python_roots EmptyString 0)
                (petsc_state (petsc_cfg false false ["SCOTCH"]) blas_fftw_env true))
    as [_ [_ [_ [_ [_ [_ [H6 _]]]]]]].
  pose proof (optional_dependency_flags
                (petsc_world "3.4" suitesparse_roots EmptyString 0)
                (PETSc.with_cfg (PETSc.set_configopts EmptyString)
                   (petsc_state (petsc_cfg false false ["SCOTCH"]) blas_fftw_env true)))
    as [_ [_ [_ [_ [_ [_ [_ [_ [_ [H9 _]]]]]]]]]].
  pose proof (optional_dependency_flags
                (petsc_world "2.3.3" scotch_roots EmptyString 0)
                (petsc_state (petsc_cfg false false ["SCOTCH"]) blas_fftw_env true))
    as [_ [_ [_ [_ [_ [_ [_ [_ [_ [_ [_ H11]]]]]]]]]]].
  split; [|split; [|split; [|split; [|split; [|split; [|split; [|split]]]]]]].
  - apply (H1 "SCALAPACK" "--with-scalapack" "ScaLAPACK"). vm_compute. reflexivity.
  - apply (H2 "FFTW" "--with-fftw" "FFTW" "/sw/FFTW/include" "/sw/FFTW/lib" "libfftw3.a");
      first [discriminate | vm_compute; reflexivity].
  - apply (H3 "ParMETIS"). vm_compute. reflexivity.
  - apply (H4 "SCOTCH" "/sw/SCOTCH"); first [discriminate | vm_compute; reflexivity].
  - apply H5. vm_compute. reflexivity.
  - apply H6. vm_compute. reflexivity.
  - apply H7. vm_compute. reflexivity.
  - unfold emitted_by.
    rewrite (H9 "/sw/SuiteSparse" ltac:(vm_compute; reflexivity) ltac:(discriminate)
                ltac:(vm_compute; reflexivity)).
    vm_compute. reflexivity.
  - apply (H11 "/sw/SCOTCH"); first [discriminate | vm_compute; reflexivity].
Defined.

(** ** PETSc: the course of the configure step *)

Ltac unfold_blocks :=
  unfold PETSc.prepare_configure, PETSc.before_blas_lapack, PETSc.after_blas_lapack,
    PETSc.before_papi, PETSc.after_papi,
    PETSc.compilers, PETSc.compiler_flags,
    PETSc.gnu_compilers, PETSc.mpi, PETSc.build_options, PETSc.papi_support,
    PETSc.python_extensions, PETSc.blacs_fftw_scalapack, PETSc.env_dependency,
    PETSc.blas_lapack, PETSc.additional_dependencies, PETSc.additional_dependency,
    PETSc.suitesparse_options, PETSc.set_petsc_dir, PETSc.log_error, PETSc.log_info,
    PETSc.update_configopts, PETSc.update_buildopts, PETSc.getenv, PETSc.setvar.

Lemma prepare_configure_policy (w : PETSc.World) :
  preserves (fun s => raiseError (PETSc.log s)) (PETSc.prepare_configure w).
Proof. unfold_blocks. frame. Qed.

Lemma before_papi_inputs (w : PETSc.World) :
  preserves PETSc.inputs (PETSc.before_papi w).
Proof. unfold_blocks. frame. Qed.

Lemma before_blas_lapack_inputs (w : PETSc.World) :
  preserves PETSc.inputs (PETSc.before_blas_lapack w).
Proof. unfold_blocks. frame. Qed.

Lemma inputs_eq (s1 s : PETSc.St) :
  PETSc.inputs s1 = PETSc.inputs s ->
  PETSc.env s1 = PETSc.env s
  /\ raiseError (PETSc.log s1) = raiseError (PETSc.log s)
  /\ PETSc.with_papi (PETSc.cfg s1) = PETSc.with_papi (PETSc.cfg s)
  /\ PETSc.papi_inc (PETSc.cfg s1) = PETSc.papi_inc (PETSc.cfg s)
  /\ PETSc.papi_lib (PETSc.cfg s1) = PETSc.papi_lib (PETSc.cfg s).
Proof.
  unfold PETSc.inputs. intros H. inversion H as [[He Hr Hc]].
  repeat split; assumption.
Qed.

(** [prepare_configure] is its blocks before the PAPI check, the check, and
    the blocks after it. *)
Lemma prepare_configure_at_papi (w : PETSc.World) (s : PETSc.St) :
  PETSc.prepare_configure w s =
  (PETSc.before_papi w ;; PETSc.papi_support w ;; PETSc.after_papi w) s.
Proof.
  unfold PETSc.prepare_configure, PETSc.before_papi, PETSc.after_papi.
  repeat rewrite bind_assoc. unfold bind.
  destruct (PETSc.compilers s) as [s1 [[]|e]]; [|reflexivity].
  destruct (PETSc.compiler_flags w s1) as [s2 [[]|e]]; [|reflexivity].
  destruct (PETSc.gnu_compilers w s2) as [s3 [[]|e]]; [|reflexivity].
  destruct (PETSc.mpi w s3) as [s4 [[]|e]]; [|reflexivity].
  reflexivity.
Qed.

(** [prepare_configure] is its blocks before the BLAS/LAPACK block, that
    block, and the blocks after it. *)
Lemma prepare_configure_at_blas_lapack (w : PETSc.World) (s : PETSc.St) :
  PETSc.prepare_configure w s =
  (PETSc.before_blas_lapack w ;; PETSc.blas_lapack ;; PETSc.after_blas_lapack w) s.
Proof.
  unfold PETSc.prepare_configure, PETSc.before_blas_lapack, PETSc.before_papi,
    PETSc.after_blas_lapack.
  repeat rewrite bind_assoc. unfold bind.
  destruct (PETSc.compilers s) as [s1 [[]|e]]; [|reflexivity].
  destruct (PETSc.compiler_flags w s1) as [s2 [[]|e]]; [|reflexivity].
  destruct (PETSc.gnu_compilers w s2) as [s3 [[]|e]]; [|reflexivity].
  destruct (PETSc.mpi w s3) as [s4 [[]|e]]; [|reflexivity].
  destruct (PETSc.build_options w s4) as [s5 [[]|e]]; [|reflexivity].
  destruct (PETSc.papi_support w s5) as [s6 [[]|e]]; [|reflexivity].
  destruct (PETSc.python_extensions w s6) as [s7 [[]|e]]; [|reflexivity].
  reflexivity.
Qed.

(** A raise in the preparation is the outcome of the whole step. *)
Lemma configure_step_prepare_raise (w : PETSc.World) (s s' : PETSc.St) (e : exn) :
  PETSc.ge_3 w = true ->
  PETSc.prepare_configure w s = (s', Raise e) ->
  PETSc.configure_step w s = (s', Raise e).
Proof.
  intros Hge H. unfold PETSc.configure_step, PETSc.configure_new. rewrite Hge.
  apply bind_raise. apply bind_raise. exact H.
Qed.

Lemma log_error_run (msg : string) (s : PETSc.St) :
  PETSc.log_error msg s =
  (PETSc.with_log (record_msg ERROR msg) s,
   if raiseError (PETSc.log s) then Raise (EasyBuildError msg []) else Ok tt).
Proof.
  unfold PETSc.log_error, bind, modify, gets. simpl.
  destruct (raiseError (PETSc.log s)); reflexivity.
Qed.

(** C5: for a version from 3 on, once the preparation has passed and the
    external configure has exited with code 0, an [ERROR] in its output makes
    the step fail: the error is logged and, the logger being in its raising
    mode, raised. *)
Theorem configure_output_error_is_fatal
    (w : PETSc.World) (s s1 : PETSc.St) (out : string) :
  PETSc.ge_3 w = true ->
  raiseError (PETSc.log s) = true ->
  PETSc.prepare_configure w s = (s1, Ok tt) ->
  PETSc.run w (PETSc.configure_cmd w (PETSc.cfg s1)) = (out, 0%Z) ->
  Py.contains "ERROR" out = true ->
  PETSc.configure_step w s =
    (PETSc.with_log (record_msg ERROR PETSc.configure_error_msg) s1,
     Raise (EasyBuildError PETSc.configure_error_msg [])).
Proof.
  intros Hge Hpol Hprep Hrun Hout.
  assert (Hpol1 : raiseError (PETSc.log s1) = true).
  { pose proof (prepare_configure_policy w s) as H. rewrite Hprep in H. simpl in H.
    rewrite H. exact Hpol. }
  unfold PETSc.configure_step, PETSc.configure_new. rewrite Hge.
  apply bind_raise. rewrite (bind_ok _ _ _ _ _ Hprep).
  assert (Hr : PETSc.run_configure w s1 = (s1, Ok out)).
  { unfold PETSc.run_configure, PETSc.configure_cmd, bind, gets, run_cmd in *.
    destruct (PETSc.sourceinstall (PETSc.cfg s1)); rewrite Hrun; reflexivity. }
  rewrite (bind_ok _ _ _ _ _ Hr).
  apply bind_raise. unfold PETSc.check_configure_errors. rewrite Hout. simpl.
  rewrite log_error_run, Hpol1. reflexivity.
Qed.

Lemma configure_output_error_is_fatal_witness :
  snd (PETSc.configure_step
         (petsc_world "3.5" ∅ "checking for BLAS... ERROR: no BLAS found" 0)
         (petsc_state (petsc_cfg false false []) blas_fftw_env true))
  = Raise (EasyBuildError "Error(s) detected in configure output!" []).
Proof.
  rewrite (configure_output_error_is_fatal
             (petsc_world "3.5" ∅ "checking for BLAS... ERROR: no BLAS found" 0)
             (petsc_state (petsc_cfg false false []) blas_fftw_env true)
             (fst (PETSc.prepare_configure
                     (petsc_world "3.5" ∅ "checking for BLAS... ERROR: no BLAS found" 0)
                     (petsc_state (petsc_cfg false false []) blas_fftw_env true)))
             "checking for BLAS... ERROR: no BLAS found");
    try (vm_compute; reflexivity).
Defined.

(** The block of the environment triples never raises. *)
Lemma blacs_fftw_scalapack_ok (w : PETSc.World) (s : PETSc.St) :
  snd (PETSc.blacs_fftw_scalapack w s) = Ok tt.
Proof.
  unfold PETSc.blacs_fftw_scalapack. destruct (PETSc.ge_3_5 w); simpl; unfold bind;
    repeat (rewrite env_dependency_run; cbv iota beta); reflexivity.
Qed.

(** C6: for a version from 3 on and the logger in its raising mode, if
    [BLAS_LAPACK_LIB_DIR] or [BLAS_LAPACK_STATIC_LIBS] is unset or empty the
    configure step fails; when the blocks before the BLAS/LAPACK block have
    passed, it fails there with the message of that block and leaves the
    configuration as those blocks left it, so no [--with-blas-lapack-lib] is
    appended.  An incomplete environment triple of an optional dependency
    only logs a message at level info: the block of the triples never
    raises. *)
Theorem missing_blas_lapack_is_fatal (w : PETSc.World) (s : PETSc.St) :
  PETSc.ge_3 w = true ->
  raiseError (PETSc.log s) = true ->
  Py.truthy (PETSc.env s !! "BLAS_LAPACK_LIB_DIR")
  && Py.truthy (PETSc.env s !! "BLAS_LAPACK_STATIC_LIBS") = false ->
  (exists s' e, PETSc.configure_step w s = (s', Raise e))
  /\ (forall s1,
        PETSc.before_blas_lapack w s = (s1, Ok tt) ->
        PETSc.configure_step w s =
          (PETSc.with_log (record_msg ERROR PETSc.blas_lapack_error_msg) s1,
           Raise (EasyBuildError PETSc.blas_lapack_error_msg []))
        /\ PETSc.cfg (fst (PETSc.configure_step w s)) = PETSc.cfg s1)
  /\ (forall s0, snd (PETSc.blacs_fftw_scalapack w s0) = Ok tt)
  /\ (forall var with_arg dep s0,
        Py.truthy (PETSc.env s0 !! (var ++ "_INC_DIR"))
        && Py.truthy (PETSc.env s0 !! (var ++ "_LIB_DIR"))
        && Py.truthy (PETSc.env s0 !! (var ++ "_STATIC_LIBS")) = false ->
        PETSc.env_dependency var with_arg dep s0 =
          (PETSc.with_log
             (record_msg INFO ("Missing inc/lib info, so not enabling " ++ dep ++ " support."))
             s0, Ok tt)).
Proof.
  intros Hge Hpol Hblas.
  assert (Hat : forall s1,
             PETSc.before_blas_lapack w s = (s1, Ok tt) ->
             PETSc.configure_step w s =
               (PETSc.with_log (record_msg ERROR PETSc.blas_lapack_error_msg) s1,
                Raise (EasyBuildError PETSc.blas_lapack_error_msg []))).
  { intros s1 Hpre.
    pose proof (before_blas_lapack_inputs w s) as Hin. rewrite Hpre in Hin. simpl in Hin.
    apply inputs_eq in Hin. destruct Hin as [He [Hr _]].
    apply (configure_step_prepare_raise w s _ _ Hge).
    rewrite prepare_configure_at_blas_lapack.
    rewrite (bind_ok _ _ _ _ _ Hpre). apply bind_raise.
    unfold PETSc.blas_lapack, bind at 1 2, PETSc.getenv, gets. rewrite He, Hblas.
    rewrite log_error_run, Hr, Hpol. reflexivity. }
  split; [|split; [|split]].
  - destruct (PETSc.before_blas_lapack w s) as [s1 [[]|e]] eqn:Hpre.
    + eexists. eexists. apply Hat. reflexivity.
    + exists s1, e. apply (configure_step_prepare_raise w s _ _ Hge).
      rewrite prepare_configure_at_blas_lapack. apply bind_raise. exact Hpre.
  - intros s1 Hpre. split; [apply Hat; exact Hpre|].
    rewrite (Hat s1 Hpre). reflexivity.
  - apply blacs_fftw_scalapack_ok.
  - intros var with_arg dep s0 H. rewrite env_dependency_run, H. reflexivity.
Qed.

Lemma missing_blas_lapack_is_fatal_witness :
  PETSc.configure_step
    (petsc_world "3.5" ∅ "Configure stage complete." 0)
    (petsc_state (petsc_cfg false false []) (<["BLAS_LAPACK_LIB_DIR" := "/sw/OpenBLAS/lib"]> ∅) true)
  = (PETSc.with_log (record_msg ERROR PETSc.blas_lapack_error_msg)
       (fst (PETSc.before_blas_lapack
               (petsc_world "3.5" ∅ "Configure stage complete." 0)
               (petsc_state (petsc_cfg false false [])
                            (<["BLAS_LAPACK_LIB_DIR" := "/sw/OpenBLAS/lib"]> ∅) true))),
     Raise (EasyBuildError "One or more environment variables for BLAS/LAPACK not defined?" [])).
Proof.
  apply (proj1 (proj2 (missing_blas_lapack_is_fatal
                         (petsc_world "3.5" ∅ "Configure stage complete." 0)
                         (petsc_state (petsc_cfg false false [])
                                      (<["BLAS_LAPACK_LIB_DIR" := "/sw/OpenBLAS/lib"]> ∅) true)
                         ltac:(vm_compute; reflexivity) ltac:(reflexivity)
                         ltac:(vm_compute; reflexivity)))).
  vm_compute. reflexivity.
Defined.

(** The blocks before the PAPI check only append flags: they never raise. *)
Lemma before_papi_ok (w : PETSc.World) (s : PETSc.St) :
  PETSc.before_papi w s = (fst (PETSc.before_papi w s), Ok tt).
Proof.
  unfold_blocks. unfold bind, gets, modify, when, ret.
  destruct (PETSc.ge_3_5 w);
    destruct (negb (String.eqb (PETSc.comp_family w) PETSc.toolchain_GCC));
    destruct (PETSc.usempi w) as [[]|]; reflexivity.
Qed.

(** C7 (as stated, refuted): with [with_papi] set, no PAPI header on disk,
    Python installed and the BLAS/LAPACK values in the environment, the
    configure step of PETSc 3.4 ends at the PAPI check with the error raised:
    the Python and BLAS/LAPACK blocks are not run, and their flags, which the
    same step appends when the logger does not raise, are not in
    [configopts]. *)
Lemma papi_failure_stops_configure :
  let w := petsc_world "3.4" python_roots "Configure stage complete." 0 in
  let failfast := PETSc.configure_step w (petsc_state (petsc_cfg true false []) blas_fftw_env true) in
  let lenient := PETSc.configure_step w (petsc_state (petsc_cfg true false []) blas_fftw_env false) in
  snd failfast =
    Raise (EasyBuildError
             ("PAPI header (/usr/include/papi.h) and/or lib (/usr/lib64/libpapi.so) not found, "
              ++ "can not enable PAPI support?") [])
  /\ Py.contains "--with-numpy=1" (PETSc.configopts (PETSc.cfg (fst failfast))) = false
  /\ Py.contains "--with-blas-lapack-lib=" (PETSc.configopts (PETSc.cfg (fst failfast))) = false
  /\ snd lenient = Ok tt
  /\ Py.contains "--with-numpy=1" (PETSc.configopts (PETSc.cfg (fst lenient))) = true
  /\ Py.contains "--with-blas-lapack-lib=" (PETSc.configopts (PETSc.cfg (fst lenient))) = true.
Proof.
  vm_compute. repeat split.
Qed.

(** C7 (amended): with [with_papi] set and the PAPI header or library not on
    disk, the PAPI block logs an error and appends no flag.  What follows is
    the logger's policy: in its raising mode the error is raised there and
    ends the configure step, with the configuration as the blocks before the
    check left it, and the Python, BLAS/LAPACK and additional-dependency
    blocks are not run; with raising switched off the step goes on with those
    blocks. *)
Theorem papi_check_failure (w : PETSc.World) (s : PETSc.St) :
  PETSc.ge_3 w = true ->
  PETSc.with_papi (PETSc.cfg s) = true ->
  PETSc.isfile w (Py.join (PETSc.papi_inc (PETSc.cfg s)) ["papi.h"])
  && PETSc.isfile w (PETSc.papi_lib (PETSc.cfg s)) = false ->
  let msg := PETSc.papi_error_msg (Py.join (PETSc.papi_inc (PETSc.cfg s)) ["papi.h"])
                                  (PETSc.papi_lib (PETSc.cfg s)) in
  let s1 := fst (PETSc.before_papi w s) in
  let s2 := PETSc.with_log (record_msg ERROR msg) s1 in
  PETSc.before_papi w s = (s1, Ok tt)
  /\ PETSc.papi_support w s1 =
       (s2, if raiseError (PETSc.log s) then Raise (EasyBuildError msg []) else Ok tt)
  /\ PETSc.cfg s2 = PETSc.cfg s1
  /\ (raiseError (PETSc.log s) = true ->
      PETSc.configure_step w s = (s2, Raise (EasyBuildError msg [])))
  /\ (raiseError (PETSc.log s) = false ->
      PETSc.prepare_configure w s = PETSc.after_papi w s2).
Proof.
  intros Hge Hpapi Hfile. cbv zeta.
  pose proof (before_papi_ok w s) as Hpre.
  set (s1 := fst (PETSc.before_papi w s)) in *.
  pose proof (before_papi_inputs w s) as Hin. fold s1 in Hin.
  apply inputs_eq in Hin. destruct Hin as [_ [Hr [Hp [Hi Hl]]]].
  assert (Hrun : PETSc.papi_support w s1 =
                 (PETSc.with_log
                    (record_msg ERROR
                       (PETSc.papi_error_msg (Py.join (PETSc.papi_inc (PETSc.cfg s)) ["papi.h"])
                                             (PETSc.papi_lib (PETSc.cfg s)))) s1,
                  if raiseError (PETSc.log s)
                  then Raise (EasyBuildError
                                (PETSc.papi_error_msg
                                   (Py.join (PETSc.papi_inc (PETSc.cfg s)) ["papi.h"])
                                   (PETSc.papi_lib (PETSc.cfg s))) [])
                  else Ok tt)).
  { unfold PETSc.papi_support, bind at 1, gets at 1. rewrite Hp, Hpapi. cbv zeta. unfold when.
    rewrite Hi, Hl, Hfile. rewrite log_error_run, Hr. reflexivity. }
  split; [exact Hpre | split; [exact Hrun | split; [reflexivity | split]]].
  - intros Hpol. apply (configure_step_prepare_raise w s _ _ Hge).
    rewrite prepare_configure_at_papi. rewrite (bind_ok _ _ _ _ _ Hpre).
    apply bind_raise. rewrite Hrun, Hpol. reflexivity.
  - intros Hpol. rewrite prepare_configure_at_papi. rewrite (bind_ok _ _ _ _ _ Hpre).
    rewrite Hpol in Hrun. rewrite (bind_ok _ _ _ _ _ Hrun). reflexivity.
Qed.

Lemma papi_check_failure_witness :
  let w := petsc_world "3.4" python_roots "Configure stage complete." 0 in
  let s := petsc_state (petsc_cfg true false []) blas_fftw_env true in
  PETSc.configure_step w s =
    (PETSc.with_log
       (record_msg ERROR
          ("PAPI header (/usr/include/papi.h) and/or lib (/usr/lib64/libpapi.so) not found, "
           ++ "can not enable PAPI support?"))
       (fst (PETSc.before_papi w s)),
     Raise (EasyBuildError
              ("PAPI header (/usr/include/papi.h) and/or lib (/usr/lib64/libpapi.so) not found, "
               ++ "can not enable PAPI support?") [])).
Proof.
  cbv zeta.
  apply (proj1 (proj2 (proj2 (proj2 (papi_check_failure
                  (petsc_world "3.4" python_roots "Configure stage complete." 0)
                  (petsc_state (petsc_cfg true false []) blas_fftw_env true)
                  ltac:(vm_compute; reflexivity) ltac:(reflexivity)
                  ltac:(reflexivity)))))).
  reflexivity.
Defined.

(** ** The sanity check *)

Lemma missing_paths_spec (isfile isdir : string -> bool) (cp : custom_paths) (p : string) :
  In p (missing_paths isfile isdir cp) <->
  (In p (files cp) /\ isfile p = false) \/ (In p (dirs cp) /\ isdir p = false).
Proof.
  unfold missing_paths. rewrite in_app_iff, !filter_In, !negb_true_iff. reflexivity.
Qed.

Lemma startswith_refl (p : string) : Py.startswith p p = true.
Proof.
  induction p as [|a p IH]; simpl; [reflexivity | rewrite Ascii.eqb_refl; exact IH].
Qed.

(** Joining a relative component keeps every prefix of the path. *)
Lemma startswith_join2 (p a b : string) :
  Py.startswith p a = true ->
  Py.startswith "/" b = false ->
  Py.startswith p (Py.join2 a b) = true.
Proof.
  intros Hp Hb. unfold Py.join2. rewrite Hb.
  destruct (String.eqb a EmptyString || Py.ends_with_slash a);
    apply startswith_app_l; exact Hp.
Qed.

Lemma configure_step_subdir (w : PETSc.World) (s s' : PETSc.St) :
  PETSc.ge_3 w = true ->
  PETSc.configure_step w s = (s', Ok tt) ->
  PETSc.petsc_subdir s' = Py.lower (PETSc.name w) ++ "-" ++ PETSc.version w.
Proof.
  intros Hge H. unfold PETSc.configure_step in H. rewrite Hge in H.
  apply bind_ok_inv in H. destruct H as [[] [sa [Hnew Hpar]]].
  assert (Hsub : PETSc.petsc_subdir s' = PETSc.petsc_subdir sa).
  { destruct (PETSc.ge_3_5 w); simpl in Hpar; inversion Hpar; reflexivity. }
  rewrite Hsub. unfold PETSc.configure_new in Hnew.
  apply bind_ok_inv in Hnew. destruct Hnew as [[] [s1 [_ Hnew]]].
  apply bind_ok_inv in Hnew. destruct Hnew as [out [s2 [_ Hnew]]].
  apply bind_ok_inv in Hnew. destruct Hnew as [[] [s3 [_ Hnew]]].
  apply bind_ok_inv in Hnew. destruct Hnew as [[] [s4 [_ Hnew]]].
  inversion Hnew. reflexivity.
Qed.

(** C8: the sanity check raises an error that lists exactly the expected
    files and directories that are absent, and returns without one when all
    are there (for Blender the one file [bin/blender]).  The sanity check of
    PETSc is that verification for the paths of [PETSc.sanity_check_paths],
    on the disk of the world: it leaves the easyblock as it was, returns when
    none of the paths is absent and otherwise raises the error that lists the
    absent ones, the library first and then the directories.  The paths PETSc
    expects follow the strategy of the configure step, which sets
    [petsc_subdir] to [<name>-<version>] from version 3 on: under
    [sourceinstall] they lie under [petsc_subdir] and, for the library and
    the second include directory, under [petsc_subdir/petsc_arch]; otherwise
    they are relative to the install directory itself; the library is
    [libpetsc.<shared-library extension>] under [shared_libs] and
    [libpetsc.a] otherwise. *)
Theorem sanity_check_paths_and_verdict (w : PETSc.World) (s : PETSc.St) :
  (forall (S : Type) (isfile isdir : string -> bool) (cp : custom_paths) (st : S),
     (forall p, In p (missing_paths isfile isdir cp) <->
                (In p (files cp) /\ isfile p = false) \/ (In p (dirs cp) /\ isdir p = false))
     /\ (missing_paths isfile isdir cp = [] ->
         verify_installed isfile isdir cp st = (st, Ok tt))
     /\ (missing_paths isfile isdir cp <> [] ->
         verify_installed isfile isdir cp st =
           (st, Raise (EasyBuildError "Sanity check failed: no file or directory at %s"
                                      [AList (missing_paths isfile isdir cp)]))))
  /\ (forall (S : Type) (isfile isdir : string -> bool) (st : S),
        Blender.sanity_check_step isfile isdir st =
          (st, if isfile "bin/blender" then Ok tt
               else Raise (EasyBuildError "Sanity check failed: no file or directory at %s"
                                          [AList ["bin/blender"]])))
  /\ (forall s0, PETSc.ge_3 w = true -> PETSc.configure_step w s0 = (s, Ok tt) ->
        PETSc.petsc_subdir s = Py.lower (PETSc.name w) ++ "-" ++ PETSc.version w)
  /\ (let expected := PETSc.sanity_check_paths w s in
      let absent :=
        List.app (List.filter (fun f => negb (PETSc.isfile w f)) (files expected))
                 (List.filter (fun d => negb (PETSc.isdir w d)) (dirs expected)) in
      PETSc.sanity_check_step w s =
        (s, match absent with
            | [] => Ok tt
            | _ => Raise (EasyBuildError "Sanity check failed: no file or directory at %s"
                                         [AList absent])
            end)
      /\ (forall p, In p absent <->
                    (In p (files expected) /\ PETSc.isfile w p = false)
                    \/ (In p (dirs expected) /\ PETSc.isdir w p = false)))
  /\ (let libext := if PETSc.shared_libs (PETSc.cfg s) then PETSc.shared_lib_ext w else "a" in
      (PETSc.sourceinstall (PETSc.cfg s) = true ->
         let prefix1 := PETSc.petsc_subdir s in
         let prefix2 := Py.join (PETSc.petsc_subdir s) [PETSc.petsc_arch s] in
         PETSc.sanity_check_paths w s =
           {| files := [Py.join prefix2 ["lib"; "libpetsc." ++ libext]];
              dirs := [Py.join prefix1 ["bin"]; Py.join prefix2 ["conf"];
                       Py.join prefix1 ["include"]; Py.join prefix2 ["include"]] |}
         /\ (Py.startswith "/" (PETSc.petsc_arch s) = false ->
             forall p, In p (files (PETSc.sanity_check_paths w s))
                       \/ In p (dirs (PETSc.sanity_check_paths w s)) ->
                       Py.startswith (PETSc.petsc_subdir s) p = true))
      /\ (PETSc.sourceinstall (PETSc.cfg s) = false ->
          PETSc.sanity_check_paths w s =
            {| files := ["lib/libpetsc." ++ libext];
               dirs := ["bin"; "conf"; "include"; "include"] |})).
Proof.
  split; [|split; [|split; [|split; [|cbv zeta; split]]]].
  - intros S isfile isdir cp st. split; [|split].
    + intros p. apply missing_paths_spec.
    + intros H. unfold verify_installed. rewrite H. reflexivity.
    + intros H. unfold verify_installed.
      destruct (missing_paths isfile isdir cp); [contradiction H|]; reflexivity.
  - intros S isfile isdir st.
    unfold Blender.sanity_check_step, verify_installed, missing_paths. simpl.
    destruct (isfile "bin/blender"); reflexivity.
  - intros s0 Hge H. apply (configure_step_subdir w s0 s Hge H).
  - cbv zeta. split.
    + unfold PETSc.sanity_check_step, bind, gets, verify_installed, missing_paths.
      destruct (List.app _ _); reflexivity.
    + intros p. apply missing_paths_spec.
  - intros Hsrc. unfold PETSc.sanity_check_paths. rewrite Hsrc. split; [reflexivity|].
    intros Harch p Hp. simpl in Hp.
    assert (H1 : Py.startswith (PETSc.petsc_subdir s)
                   (Py.join2 (PETSc.petsc_subdir s) (PETSc.petsc_arch s)) = true)
      by (apply startswith_join2; [apply startswith_refl | exact Harch]).
    destruct Hp as [[Hp|[]]|[Hp|[Hp|[Hp|[Hp|[]]]]]]; subst p;
      repeat (apply startswith_join2; [|reflexivity]);
      first [exact H1 | apply startswith_refl].
  - intros Hsrc. unfold PETSc.sanity_check_paths. rewrite Hsrc. reflexivity.
Qed.

Lemma sanity_check_paths_and_verdict_witness :
  let w := petsc_world "3.5" ∅ EmptyString 0 in
  let s := PETSc.set_petsc_arch "arch-linux2-c-opt"
             (PETSc.set_petsc_subdir "petsc-3.5"
                (petsc_state (petsc_cfg false true []) ∅ true)) in
  PETSc.sanity_check_paths w s =
    {| files := ["petsc-3.5/arch-linux2-c-opt/lib/libpetsc.a"];
       dirs := ["petsc-3.5/bin"; "petsc-3.5/arch-linux2-c-opt/conf";
                "petsc-3.5/include"; "petsc-3.5/arch-linux2-c-opt/include"] |}
  /\ verify_installed (on_disk []) (on_disk []) {| files := ["bin/x"]; dirs := [] |} tt
     = (tt, Raise (EasyBuildError "Sanity check failed: no file or directory at %s"
                                  [AList ["bin/x"]]))
  /\ verify_installed (on_disk ["bin/x"]) (on_disk []) {| files := ["bin/x"]; dirs := [] |} tt
     = (tt, Ok tt)
  /\ PETSc.sanity_check_step
       (installed_petsc_world ["petsc-3.5/bin"; "petsc-3.5/include"]) s
     = (s, Raise (EasyBuildError "Sanity check failed: no file or directory at %s"
                    [AList ["petsc-3.5/arch-linux2-c-opt/lib/libpetsc.a";
                            "petsc-3.5/arch-linux2-c-opt/conf";
                            "petsc-3.5/arch-linux2-c-opt/include"]]))
  /\ PETSc.sanity_check_step
       (installed_petsc_world
          ["petsc-3.5/bin"; "petsc-3.5/include"; "petsc-3.5/arch-linux2-c-opt/lib/libpetsc.a";
           "petsc-3.5/arch-linux2-c-opt/conf"; "petsc-3.5/arch-linux2-c-opt/include"]) s
     = (s, Ok tt).
Proof.
  cbv zeta.
  pose proof (sanity_check_paths_and_verdict
                (petsc_world "3.5" ∅ EmptyString 0)
                (PETSc.set_petsc_arch "arch-linux2-c-opt"
                   (PETSc.set_petsc_subdir "petsc-3.5"
                      (petsc_state (petsc_cfg false true []) ∅ true))))
    as [Hv [_ [_ [_ [Hsrc _]]]]].
  pose proof (sanity_check_paths_and_verdict
                (installed_petsc_world ["petsc-3.5/bin"; "petsc-3.5/include"])
                (PETSc.set_petsc_arch "arch-linux2-c-opt"
                   (PETSc.set_petsc_subdir "petsc-3.5"
                      (petsc_state (petsc_cfg false true []) ∅ true))))
    as [_ [_ [_ [[Hpartial _] _]]]].
  pose proof (sanity_check_paths_and_verdict
                (installed_petsc_world
                   ["petsc-3.5/bin"; "petsc-3.5/include";
                    "petsc-3.5/arch-linux2-c-opt/lib/libpetsc.a";
                    "petsc-3.5/arch-linux2-c-opt/conf"; "petsc-3.5/arch-linux2-c-opt/include"])
                (PETSc.set_petsc_arch "arch-linux2-c-opt"
                   (PETSc.set_petsc_subdir "petsc-3.5"
                      (petsc_state (petsc_cfg false true []) ∅ true))))
    as [_ [_ [_ [[Hall _] _]]]].
  split; [|split; [|split; [|split]]];
    [ | | | rewrite Hpartial; vm_compute; reflexivity | rewrite Hall; vm_compute; reflexivity ].
  - rewrite (proj1 (Hsrc eq_refl)). reflexivity.
  - apply (proj2 (proj2 (Hv unit (on_disk []) (on_disk [])
                            {| files := ["bin/x"]; dirs := [] |} tt))).
    vm_compute. discriminate.
  - apply (proj1 (proj2 (Hv unit (on_disk ["bin/x"]) (on_disk [])
                            {| files := ["bin/x"]; dirs := [] |} tt))).
    vm_compute. reflexivity.
Defined.

(** ** PETSc: the [parallel] option *)

Ltac unfold_configure :=
  unfold PETSc.configure_new, PETSc.configure_old, PETSc.run_configure,
    PETSc.check_configure_errors, PETSc.figure_out_petsc_arch;
  unfold_blocks.

Lemma configure_new_parallel (w : PETSc.World) :
  preserves (fun s => PETSc.parallel (PETSc.cfg s)) (PETSc.configure_new w).
Proof. unfold_configure. frame. Qed.

Lemma configure_old_parallel (w : PETSc.World) :
  preserves (fun s => PETSc.parallel (PETSc.cfg s)) (PETSc.configure_old w).
Proof. unfold_configure. frame. Qed.

Lemma symlink_headers_preserves {A} (f : PETSc.St -> A)
    (symlink : string -> string -> M PETSc.St unit) (w : PETSc.World) (fs : list string) :
  (forall g s, f (PETSc.with_log g s) = f s) ->
  (forall a b, preserves f (symlink a b)) ->
  preserves f (PETSc.symlink_headers symlink w fs).
Proof.
  intros Hlog Hsym. induction fs as [|x fs IH]; intros s; simpl.
  - reflexivity.
  - specialize (Hsym (Py.join2 (Py.join2 (Py.join2 (PETSc.installdir w) "bmake")
                                         "linux-gnu-c-opt") x)
                     (Py.join2 (Py.join2 (PETSc.installdir w) "include") x) s).
    unfold Py.join. simpl fold_left.
    destruct (symlink _ _ s) as [s1 [u|e]]; simpl in Hsym.
    + rewrite IH. exact Hsym.
    + rewrite (log_error_preserves f _ Hlog). exact Hsym.
Qed.

(** C10: when the configure step of a version from 3.5 on returns, the
    option [parallel] is [None]; for an older version the step leaves
    [parallel] as it was, as does a step of any version that ends in an
    error.  The other phases written in the easyblock, [make_builddir],
    [install_step] and [sanity_check_step], leave [parallel] as it was,
    provided the steps of the parent classes and [os.symlink] do. *)
Theorem parallel_after_configure (w : PETSc.World) (s : PETSc.St)
    (super_make_builddir super_install_step : M PETSc.St unit)
    (symlink : string -> string -> M PETSc.St unit) :
  let par := fun s => PETSc.parallel (PETSc.cfg s) in
  preserves par super_make_builddir ->
  preserves par super_install_step ->
  (forall a b, preserves par (symlink a b)) ->
  (PETSc.ge_3_5 w = true -> snd (PETSc.configure_step w s) = Ok tt ->
     par (fst (PETSc.configure_step w s)) = None)
  /\ (PETSc.ge_3_5 w = true -> snd (PETSc.configure_step w s) <> Ok tt ->
      par (fst (PETSc.configure_step w s)) = par s)
  /\ (PETSc.ge_3_5 w = false -> par (fst (PETSc.configure_step w s)) = par s)
  /\ par (fst (PETSc.make_builddir super_make_builddir s)) = par s
  /\ par (fst (PETSc.install_step super_install_step symlink w s)) = par s
  /\ par (fst (PETSc.sanity_check_step w s)) = par s.
Proof.
  cbv zeta. intros Hmk Hinst Hsym.
  assert (Hphases :
            PETSc.parallel (PETSc.cfg (fst (PETSc.make_builddir super_make_builddir s)))
              = PETSc.parallel (PETSc.cfg s)
            /\ PETSc.parallel
                 (PETSc.cfg (fst (PETSc.install_step super_install_step symlink w s)))
              = PETSc.parallel (PETSc.cfg s)
            /\ PETSc.parallel (PETSc.cfg (fst (PETSc.sanity_check_step w s)))
              = PETSc.parallel (PETSc.cfg s)).
  { split; [|split].
    - apply (preserves_bind (fun s => PETSc.parallel (PETSc.cfg s))); [frame|].
      intros c. apply preserves_bind; [frame | intros _; exact Hmk].
    - unfold PETSc.install_step. destruct (PETSc.ge_3 w).
      + apply (preserves_bind (fun s => PETSc.parallel (PETSc.cfg s))); [frame|].
        intros c. apply preserves_when. exact Hinst.
      + apply (symlink_headers_preserves (fun s => PETSc.parallel (PETSc.cfg s)));
          [reflexivity | exact Hsym].
    - unfold PETSc.sanity_check_step.
      apply (preserves_bind (fun s => PETSc.parallel (PETSc.cfg s))); [frame | intros; frame]. }
  assert (Hbranch : preserves (fun s => PETSc.parallel (PETSc.cfg s))
                      (if PETSc.ge_3 w then PETSc.configure_new w else PETSc.configure_old w))
    by (destruct (PETSc.ge_3 w); [apply configure_new_parallel | apply configure_old_parallel]).
  unfold PETSc.configure_step, bind. specialize (Hbranch s).
  destruct ((if PETSc.ge_3 w then PETSc.configure_new w else PETSc.configure_old w) s)
    as [sa [[]|e]]; simpl in Hbranch.
  - split; [|split; [|split; [|exact Hphases]]].
    + intros Hge _. rewrite Hge. reflexivity.
    + intros Hge H. rewrite Hge in H. contradiction H. reflexivity.
    + intros Hge. rewrite Hge. exact Hbranch.
  - split; [|split; [|split; [|exact Hphases]]].
    + intros _ H. discriminate H.
    + intros _ _. exact Hbranch.
    + intros _. exact Hbranch.
Qed.


Lemma parallel_after_configure_witness :
  let s := petsc_state (petsc_cfg false false []) blas_fftw_env true in
  let new := petsc_world "3.5" ∅ "Configure stage complete." 0 in
  let old := petsc_world "3.4" ∅ "Configure stage complete." 0 in
  PETSc.parallel (PETSc.cfg s) = Some 4%N
  /\ PETSc.parallel (PETSc.cfg (fst (PETSc.configure_step new s))) = None
  /\ PETSc.parallel (PETSc.cfg (fst (PETSc.configure_step old s))) = Some 4%N
  /\ PETSc.parallel
       (PETSc.cfg (fst (PETSc.install_step (PETSc.log_info "make install")
                          (fun _ _ => raise (EasyBuildError "File exists" [])) old s)))
     = Some 4%N.
Proof.
  cbv zeta.
  assert (Hinfo : forall msg, preserves (fun s => PETSc.parallel (PETSc.cfg s))
                                        (PETSc.log_info msg))
    by (intros msg s0; reflexivity).
  assert (Hsym : forall a b : string,
             preserves (fun s => PETSc.parallel (PETSc.cfg s))
                       (@raise PETSc.St unit (EasyBuildError "File exists" [])))
    by (intros a b s0; reflexivity).
  split; [reflexivity | split; [|split]].
  - apply (proj1 (parallel_after_configure
                    (petsc_world "3.5" ∅ "Configure stage complete." 0)
                    (petsc_state (petsc_cfg false false []) blas_fftw_env true)
                    (PETSc.log_info "mkdir") (PETSc.log_info "make install")
                    (fun _ _ => raise (EasyBuildError "File exists" []))
                    (Hinfo _) (Hinfo _) Hsym));
      vm_compute; reflexivity.
  - rewrite (proj1 (proj2 (proj2 (parallel_after_configure
                    (petsc_world "3.4" ∅ "Configure stage complete." 0)
                    (petsc_state (petsc_cfg false false []) blas_fftw_env true)
                    (PETSc.log_info "mkdir") (PETSc.log_info "make install")
                    (fun _ _ => raise (EasyBuildError "File exists" []))
                    (Hinfo _) (Hinfo _) Hsym))));
      vm_compute; reflexivity.
  - rewrite (proj1 (proj2 (proj2 (proj2 (proj2 (parallel_after_configure
                    (petsc_world "3.4" ∅ "Configure stage complete." 0)
                    (petsc_state (petsc_cfg false false []) blas_fftw_env true)
                    (PETSc.log_info "mkdir") (PETSc.log_info "make install")
                    (fun _ _ => raise (EasyBuildError "File exists" []))
                    (Hinfo _) (Hinfo _) Hsym)))))).
    reflexivity.
Defined.


(** * Further properties of the easyblocks *)

(** ** Steps that only append *)

Lemma startswith_trans (a b c : string) :
  Py.startswith a b = true -> Py.startswith b c = true -> Py.startswith a c = true.
Proof.
  revert b c. induction a as [|x a IH]; intros b c Hab Hbc; simpl in *.
  - reflexivity.
  - destruct b as [|y b]; [discriminate|].
    destruct (Ascii.eqb x y) eqn:Exy; [|discriminate].
    apply Ascii.eqb_eq in Exy. subst y.
    destruct c as [|z c]; simpl in Hbc; [discriminate|].
    destruct (Ascii.eqb x z); [|discriminate].
    apply (IH b c Hab Hbc).
Qed.

Lemma startswith_cfg_update (prev value : string) :
  Py.startswith prev (cfg_update prev value) = true.
Proof. unfold cfg_update. apply startswith_app. Qed.

Lemma startswith_fold_cfg_update (fl : list string) (prev : string) :
  Py.startswith prev (fold_left cfg_update fl prev) = true.
Proof.
  revert prev. induction fl as [|f fl IH]; intros prev; simpl.
  - apply startswith_refl.
  - apply (startswith_trans _ (cfg_update prev f)); [apply startswith_cfg_update | apply IH].
Qed.

Section Grows.
Context {S : Type} (f : S -> string).

Lemma grows_ret {B} (b : B) : grows f (ret b).
Proof. intros s. apply startswith_refl. Qed.

Lemma grows_raise {B} (e : exn) : grows f (@raise S B e).
Proof. intros s. apply startswith_refl. Qed.

Lemma grows_gets {B} (g : S -> B) : grows f (gets g).
Proof. intros s. apply startswith_refl. Qed.

Lemma grows_modify (g : S -> S) :
  (forall s, Py.startswith (f s) (f (g s)) = true) -> grows f (modify g).
Proof. intros H s. apply H. Qed.

Lemma grows_bind {B C} (m : M S B) (k : B -> M S C) :
  grows f m -> (forall b, grows f (k b)) -> grows f (bind m k).
Proof.
  intros Hm Hk s. unfold bind.
  specialize (Hm s). destruct (m s) as [s1 [b|e]]; simpl in *.
  - apply (startswith_trans _ (f s1)); [exact Hm | apply Hk].
  - exact Hm.
Qed.

Lemma grows_when (c : bool) (body : M S unit) :
  grows f body -> grows f (when c body).
Proof.
  intros H. destruct c; simpl; [exact H | apply grows_ret].
Qed.

Lemma grows_for_each {B} (l : list B) (body : B -> M S unit) :
  (forall b, grows f (body b)) -> grows f (for_each l body).
Proof.
  intros H. induction l as [|x l IH]; simpl.
  - apply grows_ret.
  - apply grows_bind; [apply H | intros _; exact IH].
Qed.

Lemma grows_run_cmd (run : string -> string * Z) (cmd : string) :
  grows f (run_cmd run cmd).
Proof.
  unfold run_cmd. destruct (run cmd) as [out ec].
  destruct (ec =? 0)%Z; [apply grows_ret | apply grows_raise].
Qed.

End Grows.

Ltac grow_step :=
  first
    [ apply grows_ret
    | apply grows_raise
    | apply grows_gets
    | apply grows_run_cmd
    | apply grows_modify; intros;
      first [ apply startswith_refl | apply startswith_cfg_update ]
    | apply grows_bind; [ | intros ]
    | apply grows_when
    | apply grows_for_each; intros
    | match goal with
      | |- grows _ (if ?c then _ else _) => destruct c
      | |- grows _ (match ?x with _ => _ end) => destruct x
      end
    | progress cbv zeta ].

Ltac grow := repeat grow_step.

(** ** Blender *)

(** X1: after the loop over the defaults, the [-D<key>=] of every default
    occurs in [configopts], whether the loop appended it or found it, and
    what [configopts] held before is still its beginning. *)
Theorem blender_defaults_cover (D : list (string * string)) (c : Blender.Cfg)
    (kv : string * string) :
  In kv D ->
  Py.contains (Blender.default_opt kv)
              (Blender.configopts (fst (Blender.apply_defaults D c))) = true
  /\ Py.startswith (Blender.configopts c)
                   (Blender.configopts (fst (Blender.apply_defaults D c))) = true.
Proof.
  intros H. rewrite apply_defaults_run. simpl. split.
  - apply applied_defaults_present. exact H.
  - apply startswith_fold_cfg_update.
Qed.

Lemma blender_defaults_cover_witness :
  let c := {| Blender.configopts := "-DWITH_CPU_SSE=ON"; Blender.separate_build_dir := false |} in
  Py.contains "-DWITH_GAMEENGINE="
    (Blender.configopts (fst (Blender.apply_defaults cpython27_order c))) = true
  /\ Py.startswith "-DWITH_CPU_SSE=ON"
       (Blender.configopts (fst (Blender.apply_defaults cpython27_order c))) = true.
Proof.
  cbv zeta.
  apply (blender_defaults_cover cpython27_order
           {| Blender.configopts := "-DWITH_CPU_SSE=ON"; Blender.separate_build_dir := false |}
           ("WITH_GAMEENGINE", "OFF")).
  simpl. tauto.
Defined.

(** X2: the Python block of Blender appends all of its five flags or none.
    It returns without a flag when Python is not installed.  When Python is
    installed it raises without a flag in two cases: its version is not
    known, and the error is the [AttributeError] of [None.split]; or a
    pattern does not have exactly one match while every pattern before it
    has one, and the error names that pattern, the number of its matches and
    the matches.  When each pattern has exactly one match it appends the five
    flags, in their order, with the matches as values. *)
Theorem blender_python_all_or_nothing (w : Blender.World) (c : Blender.Cfg) :
  (forall e, snd (Blender.python_paths w c) = Raise e -> fst (Blender.python_paths w c) = c)
  /\ (Py.truthy (Blender.software_root w !! "Python") = false ->
      Blender.python_paths w c = (c, Ok tt))
  /\ (forall ver matched,
        Py.truthy (Blender.software_root w !! "Python") = true ->
        Blender.software_version w !! "Python" = Some ver ->
        map (Blender.glob w)
            (python_patterns (Py.fmt_s (Blender.software_root w !! "Python"))
                             (Blender.short_version ver) (Blender.shared_lib_ext w))
        = map (fun m => [m]) matched ->
        Blender.python_paths w c =
          (Blender.set_configopts
             (fold_left cfg_update (python_flags (Blender.short_version ver) matched)
                        (Blender.configopts c)) c, Ok tt))
  /\ (snd (Blender.python_paths w c) = Ok tt ->
      fst (Blender.python_paths w c) = c
      \/ exists ver matched,
           Blender.software_version w !! "Python" = Some ver
           /\ length matched = 4
           /\ Blender.configopts (fst (Blender.python_paths w c)) =
              fold_left cfg_update (python_flags (Blender.short_version ver) matched)
                        (Blender.configopts c))
  /\ (Py.truthy (Blender.software_root w !! "Python") = true ->
      Blender.software_version w !! "Python" = None ->
      Blender.python_paths w c =
        (c, Raise (AttributeError "'NoneType' object has no attribute 'split'")))
  /\ (forall ver before p after,
        Py.truthy (Blender.software_root w !! "Python") = true ->
        Blender.software_version w !! "Python" = Some ver ->
        python_patterns (Py.fmt_s (Blender.software_root w !! "Python"))
                        (Blender.short_version ver) (Blender.shared_lib_ext w)
        = List.app before (p :: after) ->
        (forall q, In q before -> length (Blender.glob w q) = 1) ->
        length (Blender.glob w p) <> 1 ->
        Blender.python_paths w c =
          (c, Raise (EasyBuildError "Was expecting exactly one match for '%s', found %d: %s"
                       [AStr p; AInt (length (Blender.glob w p)); AList (Blender.glob w p)]))).
Proof.
  unfold Blender.python_paths.
  destruct (Py.truthy (Blender.software_root w !! "Python")) eqn:Hroot.
  2:{ repeat split; try reflexivity; try discriminate. left. reflexivity. }
  destruct (Blender.software_version w !! "Python") as [ver|] eqn:Hver.
  2:{ repeat split; try reflexivity; try discriminate. }
  unfold python_patterns, bind, Blender.find_glob_pattern. cbv zeta.
  set (p1 := Py.join _ ["numpy-*-py" ++ _ ++ "-linux-x86_64.egg"]).
  set (p2 := Py.join _ ["requests-*-py" ++ _ ++ ".egg"]).
  set (p3 := Py.join _ ["lib"; "libpython" ++ _ ++ "*." ++ _]).
  set (p4 := Py.join _ ["include"; "python" ++ _ ++ "*"]).
  split; [|split; [discriminate|split; [|split; [|split; [discriminate|]]]]].
  - intros e.
    destruct (Blender.glob w p1) as [|m1 [|? ?]]; simpl; try reflexivity.
    destruct (Blender.glob w p2) as [|m2 [|? ?]]; simpl; try reflexivity.
    destruct (Blender.glob w p3) as [|m3 [|? ?]]; simpl; try reflexivity.
    destruct (Blender.glob w p4) as [|m4 [|? ?]]; simpl; try reflexivity.
    discriminate.
  - intros ver' matched _ Hv Hglob. inversion Hv; subst ver'. clear Hv.
    destruct matched as [|m1 [|m2 [|m3 [|m4 [|? ?]]]]]; cbn [map] in Hglob; try discriminate.
    pose proof (f_equal (fun l => nth 0 l []) Hglob) as H1.
    pose proof (f_equal (fun l => nth 1 l []) Hglob) as H2.
    pose proof (f_equal (fun l => nth 2 l []) Hglob) as H3.
    pose proof (f_equal (fun l => nth 3 l []) Hglob) as H4.
    cbn [nth] in H1, H2, H3, H4. subst p1 p2 p3 p4.
    rewrite H1, H2, H3, H4. destruct c; reflexivity.
  - destruct (Blender.glob w p1) as [|m1 [|? ?]]; simpl; try discriminate.
    destruct (Blender.glob w p2) as [|m2 [|? ?]]; simpl; try discriminate.
    destruct (Blender.glob w p3) as [|m3 [|? ?]]; simpl; try discriminate.
    destruct (Blender.glob w p4) as [|m4 [|? ?]]; simpl; try discriminate.
    intros _. right. exists ver, [m1; m2; m3; m4]. repeat split.
  - intros ver' before p after _ Hv Hpat Hone Hp. inversion Hv; subst ver'. clear Hv.
    assert (Hsingle : forall q, length (Blender.glob w q) = 1 ->
                      exists m, Blender.glob w q = [m]).
    { intros q Hq. destruct (Blender.glob w q) as [|m [|? ?]]; try discriminate.
      exists m. reflexivity. }
    pose proof (f_equal (fun l => nth 0 l EmptyString) Hpat) as E1.
    pose proof (f_equal (fun l => nth 1 l EmptyString) Hpat) as E2.
    pose proof (f_equal (fun l => nth 2 l EmptyString) Hpat) as E3.
    pose proof (f_equal (fun l => nth 3 l EmptyString) Hpat) as E4.
    destruct before as [|b1 [|b2 [|b3 [|b4 before]]]]; cbn [List.app nth] in E1, E2, E3, E4.
    + change (p1 = p) in E1. subst p.
      destruct (Blender.glob w p1) as [|m [|? ?]];
        [reflexivity | exfalso; apply Hp; reflexivity | reflexivity].
    + change (p1 = b1) in E1. change (p2 = p) in E2. subst b1 p.
      destruct (Hsingle p1 (Hone p1 (or_introl eq_refl))) as [m1 ->]. cbn [ret].
      destruct (Blender.glob w p2) as [|m [|? ?]];
        [reflexivity | exfalso; apply Hp; reflexivity | reflexivity].
    + change (p1 = b1) in E1. change (p2 = b2) in E2. change (p3 = p) in E3. subst b1 b2 p.
      destruct (Hsingle p1 (Hone p1 (or_introl eq_refl))) as [m1 ->].
      destruct (Hsingle p2 (Hone p2 (or_intror (or_introl eq_refl)))) as [m2 ->]. cbn [ret].
      destruct (Blender.glob w p3) as [|m [|? ?]];
        [reflexivity | exfalso; apply Hp; reflexivity | reflexivity].
    + change (p1 = b1) in E1. change (p2 = b2) in E2. change (p3 = b3) in E3.
      change (p4 = p) in E4. subst b1 b2 b3 p.
      destruct (Hsingle p1 (Hone p1 (or_introl eq_refl))) as [m1 ->].
      destruct (Hsingle p2 (Hone p2 (or_intror (or_introl eq_refl)))) as [m2 ->].
      destruct (Hsingle p3 (Hone p3 (or_intror (or_intror (or_introl eq_refl))))) as [m3 ->].
      cbn [ret].
      destruct (Blender.glob w p4) as [|m [|? ?]];
        [reflexivity | exfalso; apply Hp; reflexivity | reflexivity].
    + exfalso. apply (f_equal (@length string)) in Hpat.
      cbn [length] in Hpat. rewrite length_app in Hpat. cbn [length] in Hpat. lia.
Qed.

Lemma blender_python_all_or_nothing_witness :
  let c := {| Blender.configopts := EmptyString; Blender.separate_build_dir := true |} in
  Blender.python_paths (glob_world []) c = (c, Ok tt)
  /\ fst (Blender.python_paths (python_world []) c) = c
  /\ Blender.python_paths unversioned_python_world c =
       (c, Raise (AttributeError "'NoneType' object has no attribute 'split'"))
  /\ Blender.python_paths
       (numpy_world "/sw/Python/lib/python2.7/site-packages/numpy-1.8-py2.7-linux-x86_64.egg"
                    ["a.egg"; "b.egg"]) c =
       (c, Raise (EasyBuildError "Was expecting exactly one match for '%s', found %d: %s"
                    [AStr "/sw/Python/lib/python2.7/site-packages/requests-*-py2.7.egg";
                     AInt 2; AList ["a.egg"; "b.egg"]])).
Proof.
  cbv zeta.
  pose proof (blender_python_all_or_nothing (glob_world [])
                {| Blender.configopts := EmptyString; Blender.separate_build_dir := true |})
    as [_ [Habsent _]].
  pose proof (blender_python_all_or_nothing (python_world [])
                {| Blender.configopts := EmptyString; Blender.separate_build_dir := true |})
    as [Hraise _].
  pose proof (blender_python_all_or_nothing unversioned_python_world
                {| Blender.configopts := EmptyString; Blender.separate_build_dir := true |})
    as [_ [_ [_ [_ [Hversion _]]]]].
  pose proof (blender_python_all_or_nothing
                (numpy_world "/sw/Python/lib/python2.7/site-packages/numpy-1.8-py2.7-linux-x86_64.egg"
                             ["a.egg"; "b.egg"])
                {| Blender.configopts := EmptyString; Blender.separate_build_dir := true |})
    as [_ [_ [_ [_ [_ Hpattern]]]]].
  split; [|split; [|split]].
  - apply Habsent. vm_compute. reflexivity.
  - apply (Hraise (EasyBuildError "Was expecting exactly one match for '%s', found %d: %s"
                     [AStr "/sw/Python/lib/python2.7/site-packages/numpy-*-py2.7-linux-x86_64.egg";
                      AInt 0; AList []])).
    vm_compute. reflexivity.
  - apply Hversion; vm_compute; reflexivity.
  - apply (Hpattern "2.7.11"
             ["/sw/Python/lib/python2.7/site-packages/numpy-*-py2.7-linux-x86_64.egg"]
             "/sw/Python/lib/python2.7/site-packages/requests-*-py2.7.egg"
             ["/sw/Python/lib/libpython2.7*.so"; "/sw/Python/include/python2.7*"]).
    + vm_compute. reflexivity.
    + vm_compute. reflexivity.
    + vm_compute. reflexivity.
    + intros q [<-|[]]. vm_compute. reflexivity.
    + vm_compute. lia.
Defined.

Lemma bind_ext {S A B} (m : M S A) (k k' : A -> M S B) (s : S) :
  (forall a s', k a s' = k' a s') -> bind m k s = bind m k' s.
Proof.
  intros H. unfold bind. destruct (m s) as [s1 [a|e]]; [apply H | reflexivity].
Qed.

(** The Python block keeps [separate_build_dir] and only appends to
    [configopts]. *)
Lemma python_paths_separate (w : Blender.World) :
  preserves Blender.separate_build_dir (Blender.python_paths w).
Proof.
  unfold Blender.python_paths, Blender.find_glob_pattern, Blender.update_configopts. frame.
Qed.

Lemma python_paths_grows (w : Blender.World) :
  grows Blender.configopts (Blender.python_paths w).
Proof.
  unfold Blender.python_paths, Blender.find_glob_pattern, Blender.update_configopts. grow.
Qed.

(** The three blocks after the Python block append the flags of
    [Blender.optional_flags] and hand over to what follows. *)
Lemma blender_optional_blocks {B} (w : Blender.World) (k : M Blender.Cfg B) (c : Blender.Cfg) :
  ((let openexr_root := Blender.software_root w !! "OpenEXR" in
    when (Py.truthy openexr_root)
         (Blender.update_configopts
            ("-DOPENEXR_INCLUDE_DIR=" ++ Py.join (Py.fmt_s openexr_root) ["include"]))) ;;
   when (Py.truthy (Blender.software_root w !! "OpenColorIO"))
        (Blender.update_configopts "-DWITH_OPENCOLORIO=ON") ;;
   when (Py.truthy (Blender.software_root w !! "CUDA"))
        (Blender.update_configopts "-DWITH_CYCLES_CUDA_BINARIES=ON") ;;
   k) c
  = k (Blender.set_configopts
         (fold_left cfg_update (Blender.optional_flags w) (Blender.configopts c)) c).
Proof.
  unfold Blender.optional_flags, bind, ret, when, Blender.update_configopts, modify.
  cbv zeta.
  destruct (Py.truthy (Blender.software_root w !! "OpenEXR"));
    destruct (Py.truthy (Blender.software_root w !! "OpenColorIO"));
    destruct (Py.truthy (Blender.software_root w !! "CUDA"));
    destruct c; reflexivity.
Qed.

(** X3: whatever the parent's configure step is and in whatever order the
    defaults are met, Blender's step runs the parent's step exactly when the
    Python block [Blender.python_paths], run after the loop over the
    defaults, has not raised.  The parent's step is then run on the
    configuration the Python block left, with the flags of OpenEXR,
    OpenColorIO and CUDA appended; in it [separate_build_dir] is set and
    [configopts] begins with what it held before the step.  When the Python
    block raises, its error is the outcome of the step, the parent's step is
    not run, and the configuration is the one the Python block left. *)
Theorem blender_configure_reaches_parent (super : M Blender.Cfg unit)
    (iterate : gmap string string -> list (string * string))
    (w : Blender.World) (c : Blender.Cfg) :
  let c1 := fst (Blender.apply_defaults (iterate Blender.default_config_opts)
                                        (Blender.set_separate_build_dir true c)) in
  let c2 := fst (Blender.python_paths w c1) in
  let c3 := Blender.set_configopts
              (fold_left cfg_update (Blender.optional_flags w) (Blender.configopts c2)) c2 in
  Blender.configure_step super iterate w c =
    match snd (Blender.python_paths w c1) with
    | Ok _ => super c3
    | Raise e => (c2, Raise e)
    end
  /\ Blender.separate_build_dir c2 = true
  /\ Blender.separate_build_dir c3 = true
  /\ Py.startswith (Blender.configopts c) (Blender.configopts c2) = true
  /\ Py.startswith (Blender.configopts c) (Blender.configopts c3) = true.
Proof.
  cbv zeta.
  set (c0 := Blender.set_separate_build_dir true c).
  assert (H1 : Blender.apply_defaults (iterate Blender.default_config_opts) c0
               = (fst (Blender.apply_defaults (iterate Blender.default_config_opts) c0), Ok tt)).
  { rewrite apply_defaults_run. reflexivity. }
  assert (Hsep1 : Blender.separate_build_dir
                    (fst (Blender.apply_defaults (iterate Blender.default_config_opts) c0)) = true).
  { rewrite apply_defaults_run. reflexivity. }
  assert (Hpre1 : Py.startswith (Blender.configopts c)
                    (Blender.configopts
                       (fst (Blender.apply_defaults (iterate Blender.default_config_opts) c0)))
                  = true).
  { rewrite apply_defaults_run. apply startswith_fold_cfg_update. }
  set (c1 := fst (Blender.apply_defaults (iterate Blender.default_config_opts) c0)) in *.
  assert (Hsep2 : Blender.separate_build_dir (fst (Blender.python_paths w c1)) = true).
  { rewrite python_paths_separate. exact Hsep1. }
  assert (Hpre2 : Py.startswith (Blender.configopts c)
                    (Blender.configopts (fst (Blender.python_paths w c1))) = true).
  { apply (startswith_trans _ (Blender.configopts c1)); [exact Hpre1 | apply python_paths_grows]. }
  split; [|split; [exact Hsep2 | split; [exact Hsep2 | split; [exact Hpre2 |]]]].
  - unfold Blender.configure_step.
    unfold bind at 1, modify at 1. fold c0.
    rewrite (bind_ok _ _ _ _ _ H1).
    unfold bind at 1.
    destruct (Blender.python_paths w c1) as [c2 [[]|e]]; cbn [fst snd].
    + apply blender_optional_blocks.
    + reflexivity.
  - apply (startswith_trans _ _ _ Hpre2). apply startswith_fold_cfg_update.
Qed.

(** X4: when Python is not installed, Blender's step does not raise by
    itself: it runs the parent's step on a configuration that holds the old
    [configopts] followed by the flags of the defaults whose key did not
    occur in it, in the order in which the loop over the dictionary meets
    them, and then by the flags of OpenEXR, OpenColorIO and CUDA, each only if
    that software is installed.  Whatever that order is, as long as the loop
    meets each item of the dictionary once, the key of every default occurs
    in the configuration handed to the parent, and every flag the loop adds
    is the flag of an item of the dictionary whose key the old [configopts]
    did not hold. *)
Theorem blender_flags_without_python (super : M Blender.Cfg unit)
    (iterate : gmap string string -> list (string * string))
    (w : Blender.World) (c : Blender.Cfg) :
  iterates iterate Blender.default_config_opts ->
  Py.truthy (Blender.software_root w !! "Python") = false ->
  let added := Blender.applied_defaults (iterate Blender.default_config_opts)
                                        (Blender.configopts c) in
  let c' := Blender.set_separate_build_dir true
              (Blender.set_configopts
                 (fold_left cfg_update
                    (List.app (map Blender.default_flag added) (Blender.optional_flags w))
                    (Blender.configopts c)) c) in
  Blender.configure_step super iterate w c = super c'
  /\ (forall k v, Blender.default_config_opts !! k = Some v ->
        Py.contains ("-D" ++ k ++ "=") (Blender.configopts c') = true)
  /\ (forall kv, In kv added ->
        Blender.default_config_opts !! fst kv = Some (snd kv)
        /\ Py.contains (Blender.default_opt kv) (Blender.configopts c) = false).
Proof.
  intros Hit Hpy. cbv zeta. split; [|split].
  - unfold Blender.configure_step.
    unfold bind at 1, modify at 1.
    rewrite (bind_ok _ _ _ _ _ (apply_defaults_run _ _)).
    unfold Blender.python_paths at 1. rewrite Hpy.
    unfold bind at 1, ret at 1.
    rewrite blender_optional_blocks. f_equal.
    rewrite fold_left_app. destruct c; reflexivity.
  - intros k v Hkv. cbn [Blender.configopts Blender.set_separate_build_dir Blender.set_configopts].
    rewrite fold_left_app. apply fold_cfg_update_contains.
    apply (applied_defaults_present _ _ (k, v)).
    apply list_elem_of_In. unfold iterates in Hit. rewrite Hit.
    apply elem_of_map_to_list. exact Hkv.
  - intros kv Hin. destruct (applied_defaults_absent _ _ _ Hin) as [HD Hc].
    split; [|exact Hc].
    apply list_elem_of_In in HD. unfold iterates in Hit. rewrite Hit in HD.
    destruct kv as [k v]. apply elem_of_map_to_list in HD. exact HD.
Qed.

Lemma blender_flags_without_python_witness :
  iterates cpython27_iterate Blender.default_config_opts
  /\ flags_of (Blender.configopts
                 (fst (Blender.configure_step (ret tt) cpython27_iterate exr_cuda_world user_cfg))) =
    [ "-DWITH_CPU_SSE=ON"; "-DWITH_BUILDINFO=ON";
      "-DWITH_SYSTEM_GLEW=OFF"; "-DWITH_INSTALL_PORTABLE=OFF";
      "-DCMAKE_CXX_FLAGS_RELEASE=-DNDEBUG"; "-DCMAKE_C_FLAGS_RELEASE=-DNDEBUG";
      "-DWITH_GAMEENGINE=OFF";
      "-DOPENEXR_INCLUDE_DIR=/sw/OpenEXR/include"; "-DWITH_CYCLES_CUDA_BINARIES=ON" ].
Proof.
  assert (Hit : iterates cpython27_iterate Blender.default_config_opts).
  { unfold iterates. apply (bool_decide_unpack _). vm_compute. reflexivity. }
  split; [exact Hit|].
  destruct (blender_flags_without_python (ret tt) cpython27_iterate exr_cuda_world user_cfg
              Hit ltac:(vm_compute; reflexivity)) as [H _].
  rewrite H. vm_compute. reflexivity.
Defined.

(** ** MVAPICH2 *)

Lemma In_existsb (x : string) (l : list string) :
  In x l <-> existsb (String.eqb x) l = true.
Proof.
  rewrite existsb_exists. split.
  - intros H. exists x. split; [exact H | apply String.eqb_refl].
  - intros [y [H E]]. apply String.eqb_eq in E. subst y. exact H.
Qed.

Lemma existsb_if {A} (f : A -> bool) (b : bool) (l l' : list A) :
  existsb f (if b then l else l') = if b then existsb f l else existsb f l'.
Proof. destruct b; reflexivity. Qed.

(** X5: in the options of MVAPICH2 every optional flag stands for its
    option: [--enable-mpe], [--enable-limic2], [--with-hwloc] and the two
    checkpointing flags are in the list exactly when [withmpe], [withlimic2],
    [withhwloc] and [withchkpt] are set, whatever [rdma_type] and the BLCR
    paths are; [--enable-fast=none] is there exactly for a debug build and
    [--enable-fast] exactly otherwise. *)
Theorem mvapich2_optional_flags (c : MVAPICH2.Cfg) :
  (In "--enable-mpe" (MVAPICH2.add_configopts c) <-> MVAPICH2.withmpe c = true)
  /\ (In "--enable-limic2" (MVAPICH2.add_configopts c) <-> MVAPICH2.withlimic2 c = true)
  /\ (In "--with-hwloc" (MVAPICH2.add_configopts c) <-> MVAPICH2.withhwloc c = true)
  /\ (In "--enable-checkpointing" (MVAPICH2.add_configopts c)
      <-> MVAPICH2.withchkpt c = true)
  /\ (In "--with-hydra-ckpointlib=blcr" (MVAPICH2.add_configopts c)
      <-> MVAPICH2.withchkpt c = true)
  /\ (In "--enable-fast=none" (MVAPICH2.add_configopts c) <-> MVAPICH2.debug c = true)
  /\ (In "--enable-fast" (MVAPICH2.add_configopts c) <-> MVAPICH2.debug c = false).
Proof.
  rewrite !In_existsb. unfold MVAPICH2.add_configopts. cbn [List.concat].
  rewrite !existsb_app, !existsb_if. simpl.
  destruct (MVAPICH2.withmpe c), (MVAPICH2.withlimic2 c), (MVAPICH2.withhwloc c),
    (MVAPICH2.withchkpt c), (MVAPICH2.debug c),
    (Py.truthy (MVAPICH2.blcr_path c)), (Py.truthy (MVAPICH2.blcr_inc_path c)),
    (Py.truthy (MVAPICH2.blcr_lib_path c));
    repeat split; intros H; first [reflexivity | discriminate H].
Qed.

(** ** PETSc: the strategies of the configure step *)

Lemma ge_3_5_ge_3 (v : string) :
  LooseVersion.ge v "3.5" = true -> LooseVersion.ge v "3" = true.
Proof.
  unfold LooseVersion.ge, LooseVersion.cmp.
  change (LooseVersion.parse "3.5") with [LooseVersion.CInt 3; LooseVersion.CInt 5].
  change (LooseVersion.parse "3") with [LooseVersion.CInt 3].
  destruct (LooseVersion.parse v) as [|[n|x] l]; simpl.
  - discriminate.
  - destruct (N.compare n 3); try discriminate; try reflexivity.
    destruct l; reflexivity.
  - reflexivity.
Qed.

(** X6: a version below 3 is below 3.5; for it the configure step appends
    [--prefix], [--with-shared=1] and, if SCOTCH is installed, its two flags,
    changes nothing else of the easyblock, and its outcome is the exit code
    of [./config/configure.py] alone: the output is not searched for errors
    and neither the environment nor the logger is consulted. *)
Theorem petsc_old_configure (w : PETSc.World) (s : PETSc.St) :
  PETSc.ge_3 w = false ->
  let s1 :=
    PETSc.append_flags
      (List.app
         ["--prefix=" ++ PETSc.installdir w; "--with-shared=1"]
         (if Py.truthy (PETSc.get_software_root w "SCOTCH")
          then ["--with-scotch=1 --with-scotch-dir="
                ++ Py.fmt_s (PETSc.get_software_root w "SCOTCH")]
          else [])) s in
  let cmd := "./config/configure.py " ++ PETSc.configopts (PETSc.cfg s1) in
  PETSc.ge_3_5 w = false
  /\ PETSc.configure_step w s =
     (s1, if (snd (PETSc.run w cmd) =? 0)%Z then Ok tt
          else Raise (EasyBuildError "cmd %s exited with exitcode %s and output: %s"
                        [AStr cmd; AInt (Z.to_nat (snd (PETSc.run w cmd)));
                         AStr (fst (PETSc.run w cmd))])).
Proof.
  intros Hge. cbv zeta.
  assert (H35 : PETSc.ge_3_5 w = false).
  { destruct (PETSc.ge_3_5 w) eqn:E; [|reflexivity].
    unfold PETSc.ge_3_5 in E. apply ge_3_5_ge_3 in E.
    unfold PETSc.ge_3 in Hge. rewrite E in Hge. discriminate. }
  split; [exact H35|].
  unfold PETSc.configure_step. rewrite Hge, H35.
  unfold bind. rewrite configure_old_run. cbv zeta.
  match goal with
  | |- context [(snd ?r =? 0)%Z] => destruct (snd r =? 0)%Z
  end; reflexivity.
Qed.

Lemma petsc_old_configure_witness :
  PETSc.configure_step
    (petsc_world "2.3.3-p15" scotch_roots "configure: ERROR reported, exit 0" 0)
    (petsc_state (petsc_cfg true false []) ∅ true)
  = (PETSc.append_flags
       ["--prefix=/sw/PETSc"; "--with-shared=1"; "--with-scotch=1 --with-scotch-dir=/sw/SCOTCH"]
       (petsc_state (petsc_cfg true false []) ∅ true),
     Ok tt).
Proof.
  apply (proj2 (petsc_old_configure
                  (petsc_world "2.3.3-p15" scotch_roots "configure: ERROR reported, exit 0" 0)
                  (petsc_state (petsc_cfg true false []) ∅ true)
                  ltac:(vm_compute; reflexivity))).
Defined.

(** ** PETSc: the blocks of the dependencies *)

Lemma in_depfilter_handled (nm : string) (c : PETSc.Cfg) :
  PETSc.in_depfilter nm (PETSc.depfilter c) = existsb (String.eqb nm) handled_separately.
Proof.
  unfold PETSc.in_depfilter, PETSc.depfilter. rewrite existsb_app.
  assert (H : existsb (fun x : PETSc.dependency + string =>
                         match x with inl _ => false | inr s0 => String.eqb nm s0 end)
                      (map inl (PETSc.builddependencies c)) = false).
  { induction (PETSc.builddependencies c) as [|d l IH]; simpl; [reflexivity | exact IH]. }
  rewrite H. reflexivity.
Qed.

Lemma for_each_additional (w : PETSc.World) (names : list string) (s : PETSc.St) :
  for_each names (PETSc.additional_dependency w) s =
  (PETSc.append_flags
     (map (PETSc.additional_flag w)
          (List.filter (fun n => Py.truthy (PETSc.get_software_root w n)) names)) s,
   Ok tt).
Proof.
  revert s. induction names as [|n names IH]; intros s.
  - simpl. rewrite append_flags_nil. reflexivity.
  - simpl for_each. unfold bind. rewrite additional_dependency_run.
    destruct (Py.truthy (PETSc.get_software_root w n)) eqn:E; simpl; rewrite E.
    + rewrite IH. rewrite append_flags_app. reflexivity.
    + apply IH.
Qed.

(** X7: the block of the additional dependencies never raises.  It appends
    one text [--with-<name>=1 --with-<name>-dir=<root>] for each dependency,
    in the order of the list, whose name is not among the ten handled
    separately and whose software root is set and not empty.  The build
    dependencies, which [depfilter] holds as dictionaries and not as names,
    filter nothing. *)
Theorem petsc_additional_dependencies (w : PETSc.World) (s : PETSc.St) :
  PETSc.additional_names (PETSc.cfg s) =
    map PETSc.dep_name
        (List.filter (fun d => negb (existsb (String.eqb (PETSc.dep_name d)) handled_separately))
                     (PETSc.dependencies (PETSc.cfg s)))
  /\ PETSc.additional_dependencies w s =
     (PETSc.append_flags
        (map (PETSc.additional_flag w)
             (List.filter (fun n => Py.truthy (PETSc.get_software_root w n))
                          (PETSc.additional_names (PETSc.cfg s)))) s,
      Ok tt).
Proof.
  split.
  - unfold PETSc.additional_names. f_equal. apply filter_ext.
    intros d. rewrite in_depfilter_handled. reflexivity.
  - unfold PETSc.additional_dependencies, bind at 1, gets at 1. cbv zeta.
    apply for_each_additional.
Qed.

Lemma append_records_flags (r1 r2 : list (level * string)) (l1 l2 : list string)
    (s : PETSc.St) :
  PETSc.append_records r2 (PETSc.append_flags l2
    (PETSc.append_records r1 (PETSc.append_flags l1 s)))
  = PETSc.append_records (r1 ++ r2)%list (PETSc.append_flags (l1 ++ l2)%list s).
Proof.
  unfold PETSc.append_records, PETSc.append_flags, PETSc.with_log, PETSc.with_cfg,
    PETSc.set_configopts. simpl. rewrite !fold_left_app. reflexivity.
Qed.

Lemma env_dependency_appends (var with_arg dep : string) (s : PETSc.St) :
  PETSc.env_dependency var with_arg dep s =
  (PETSc.append_records (PETSc.triple_logs (PETSc.env s) var dep)
     (PETSc.append_flags (PETSc.triple_appends (PETSc.env s) var with_arg) s),
   Ok tt).
Proof.
  rewrite env_dependency_run.
  unfold PETSc.triple_logs, PETSc.triple_appends, PETSc.triple_complete.
  destruct (Py.truthy (PETSc.env s !! (var ++ "_INC_DIR"))
            && Py.truthy (PETSc.env s !! (var ++ "_LIB_DIR"))
            && Py.truthy (PETSc.env s !! (var ++ "_STATIC_LIBS"))).
  - destruct s as [c e l a d b]. destruct l. reflexivity.
  - destruct s as [c e l a d b]. destruct c. reflexivity.
Qed.

(** X8: the block of BLACS, FFTW and ScaLAPACK never raises and looks at the
    environment only.  From version 3.5 on it handles FFTW and then
    ScaLAPACK, and the BLACS variables play no role; before 3.5 it handles
    BLACS, FFTW and ScaLAPACK in that order.  For each of them it appends the
    three flags if the triple of variables is complete, and logs one message
    at level info if it is not. *)
Theorem petsc_env_triples (w : PETSc.World) (s : PETSc.St) :
  let e := PETSc.env s in
  PETSc.blacs_fftw_scalapack w s =
  (if PETSc.ge_3_5 w then
     PETSc.append_records
       (PETSc.triple_logs e "FFTW" "FFTW" ++ PETSc.triple_logs e "SCALAPACK" "ScaLAPACK")%list
       (PETSc.append_flags
          (PETSc.triple_appends e "FFTW" "--with-fftw"
           ++ PETSc.triple_appends e "SCALAPACK" "--with-scalapack")%list s)
   else
     PETSc.append_records
       (PETSc.triple_logs e "BLACS" "BLACS" ++ PETSc.triple_logs e "FFTW" "FFTW"
        ++ PETSc.triple_logs e "SCALAPACK" "ScaLAPACK")%list
       (PETSc.append_flags
          (PETSc.triple_appends e "BLACS" "--with-blacs"
           ++ PETSc.triple_appends e "FFTW" "--with-fftw"
           ++ PETSc.triple_appends e "SCALAPACK" "--with-scalapack")%list s),
   Ok tt).
Proof.
  cbv zeta.
  unfold PETSc.blacs_fftw_scalapack. destruct (PETSc.ge_3_5 w).
  - rewrite (bind_ok _ _ _ _ _ (env_dependency_appends _ _ _ _)).
    rewrite env_dependency_appends.
    change (PETSc.env (PETSc.append_records _ (PETSc.append_flags _ s))) with (PETSc.env s).
    rewrite append_records_flags. reflexivity.
  - cbn [for_each].
    change (Py.upper "BLACS") with "BLACS". change (Py.upper "FFTW") with "FFTW".
    change (Py.upper "ScaLAPACK") with "SCALAPACK".
    change ("--with-" ++ Py.lower "BLACS") with "--with-blacs".
    change ("--with-" ++ Py.lower "FFTW") with "--with-fftw".
    change ("--with-" ++ Py.lower "ScaLAPACK") with "--with-scalapack".
    rewrite (bind_ok _ _ _ _ _ (env_dependency_appends _ _ _ _)).
    rewrite (bind_ok _ _ _ _ _ (env_dependency_appends _ _ _ _)).
    rewrite (bind_ok _ _ _ _ _ (env_dependency_appends _ _ _ _)).
    unfold ret.
    change (PETSc.env (PETSc.append_records _ (PETSc.append_flags _
             (PETSc.append_records _ (PETSc.append_flags _ s))))) with (PETSc.env s).
    change (PETSc.env (PETSc.append_records _ (PETSc.append_flags _ s))) with (PETSc.env s).
    rewrite !append_records_flags. reflexivity.
Qed.

(** X9: with [with_papi] off the PAPI block does nothing, whatever is on
    disk; with it on and both [<papi_inc>/papi.h] and [papi_lib] on disk it
    appends exactly [--with-papi=1], [--with-papi-include=<papi_inc>] and
    [--with-papi-lib=<papi_lib>]: the include flag carries the directory, not
    the header that was looked for. *)
Theorem petsc_papi_support (w : PETSc.World) (s : PETSc.St) :
  (PETSc.with_papi (PETSc.cfg s) = false -> PETSc.papi_support w s = (s, Ok tt))
  /\ (PETSc.with_papi (PETSc.cfg s) = true ->
      PETSc.isfile w (Py.join (PETSc.papi_inc (PETSc.cfg s)) ["papi.h"]) = true ->
      PETSc.isfile w (PETSc.papi_lib (PETSc.cfg s)) = true ->
      PETSc.papi_support w s =
        (PETSc.append_flags
           [ "--with-papi=1";
             "--with-papi-include=" ++ PETSc.papi_inc (PETSc.cfg s);
             "--with-papi-lib=" ++ PETSc.papi_lib (PETSc.cfg s) ] s,
         Ok tt)).
Proof.
  split.
  - intros H. unfold PETSc.papi_support, bind at 1, gets at 1. rewrite H. reflexivity.
  - intros H Hinc Hlib. unfold PETSc.papi_support, bind at 1, gets at 1.
    rewrite H. cbv zeta. unfold when. rewrite Hinc, Hlib. reflexivity.
Qed.

Lemma petsc_papi_support_witness :
  let w := {| PETSc.name := "PETSc"; PETSc.version := "3.5"; PETSc.installdir := "/sw/PETSc";
              PETSc.comp_family := "GCC"; PETSc.usempi := None;
              PETSc.tc_debug := false; PETSc.tc_pic := true;
              PETSc.software_root := scotch_roots;
              PETSc.isfile := on_disk ["/usr/include/papi.h"; "/usr/lib64/libpapi.so"];
              PETSc.isdir := on_disk [];
              PETSc.run := tool EmptyString 0;
              PETSc.shared_lib_ext := "so" |} in
  emitted_by (PETSc.papi_support w) (petsc_state (petsc_cfg true false []) scotch_roots true)
    = ["--with-papi=1"; "--with-papi-include=/usr/include";
       "--with-papi-lib=/usr/lib64/libpapi.so"]
  /\ emitted_by (PETSc.papi_support w) (petsc_state (petsc_cfg false false []) scotch_roots true)
    = [].
Proof.
  cbv zeta. unfold emitted_by. split.
  - rewrite (proj2 (petsc_papi_support _ _)); vm_compute; reflexivity.
  - rewrite (proj1 (petsc_papi_support _ _)); vm_compute; reflexivity.
Defined.

Lemma compilers_run (s : PETSc.St) :
  PETSc.compilers s =
  (PETSc.append_flags
     [ PETSc.quoted_flag "--with-cc" (PETSc.env s !! "CC");
       "--with-cxx=" ++ dq ++ Py.fmt_s (PETSc.env s !! "CXX") ++ dq ++ " --with-c++-support";
       PETSc.quoted_flag "--with-fc" (PETSc.env s !! "F90") ] s, Ok tt).
Proof. reflexivity. Qed.

Lemma build_options_run (w : PETSc.World) (s : PETSc.St) :
  PETSc.build_options w s =
  (PETSc.append_flags
     [ "--with-build-step-np=" ++ Py.fmt_s_int (PETSc.parallel (PETSc.cfg s));
       "--with-shared-libraries=" ++ Py.fmt_d_bool (PETSc.shared_libs (PETSc.cfg s));
       "--with-debugging=" ++ Py.fmt_d_bool (PETSc.tc_debug w);
       "--with-pic=" ++ Py.fmt_d_bool (PETSc.tc_pic w);
       "--with-x=0 --with-windows-graphics=0" ] s, Ok tt).
Proof. reflexivity. Qed.

Lemma configure_step_ok_parallel (w : PETSc.World) (s s' : PETSc.St) :
  PETSc.ge_3_5 w = true ->
  PETSc.configure_step w s = (s', Ok tt) ->
  PETSc.parallel (PETSc.cfg s') = None.
Proof.
  intros Hge H. unfold PETSc.configure_step in H. rewrite Hge in H.
  apply bind_ok_inv in H. destruct H as [[] [sa [_ H]]].
  simpl in H. inversion H. reflexivity.
Qed.

(** X10: values that are not set are passed on as the text [None] and stop
    nothing.  With [CC], [CXX] and [F90] missing from the environment the
    compiler block appends [--with-cc="None"], [--with-cxx="None"
    --with-c++-support] and [--with-fc="None"]; with [parallel] at [None] the
    build options begin with [--with-build-step-np=None], which is what a
    second configure step of a version from 3.5 on passes after a first one
    has returned. *)
Theorem petsc_unset_values (w : PETSc.World) (s : PETSc.St) :
  (PETSc.env s !! "CC" = None -> PETSc.env s !! "CXX" = None ->
   PETSc.env s !! "F90" = None ->
   PETSc.compilers s =
     (PETSc.append_flags
        [ "--with-cc=" ++ dq ++ "None" ++ dq;
          "--with-cxx=" ++ dq ++ "None" ++ dq ++ " --with-c++-support";
          "--with-fc=" ++ dq ++ "None" ++ dq ] s, Ok tt))
  /\ (PETSc.parallel (PETSc.cfg s) = None ->
      PETSc.build_options w s =
        (PETSc.append_flags
           [ "--with-build-step-np=None";
             "--with-shared-libraries=" ++ Py.fmt_d_bool (PETSc.shared_libs (PETSc.cfg s));
             "--with-debugging=" ++ Py.fmt_d_bool (PETSc.tc_debug w);
             "--with-pic=" ++ Py.fmt_d_bool (PETSc.tc_pic w);
             "--with-x=0 --with-windows-graphics=0" ] s, Ok tt))
  /\ (forall s0, PETSc.ge_3_5 w = true -> PETSc.configure_step w s0 = (s, Ok tt) ->
      exists rest,
        PETSc.build_options w s =
          (PETSc.append_flags ("--with-build-step-np=None" :: rest) s, Ok tt)).
Proof.
  split; [|split].
  - intros Hcc Hcxx Hf90. rewrite compilers_run, Hcc, Hcxx, Hf90. reflexivity.
  - intros Hpar. rewrite build_options_run, Hpar. reflexivity.
  - intros s0 Hge H. rewrite build_options_run.
    rewrite (configure_step_ok_parallel w s0 s Hge H). eexists. reflexivity.
Qed.

Lemma petsc_unset_values_witness :
  let w := petsc_world "3.5" ∅ "Configure stage complete." 0 in
  let s := fst (PETSc.configure_step w (petsc_state (petsc_cfg false false []) blas_fftw_env true)) in
  emitted_by (PETSc.compilers ;; PETSc.build_options w) s =
    [ "--with-cc=" ++ dq ++ "None" ++ dq; "--with-cxx=" ++ dq ++ "None" ++ dq;
      "--with-c++-support"; "--with-fc=" ++ dq ++ "None" ++ dq;
      "--with-build-step-np=None"; "--with-shared-libraries=0"; "--with-debugging=0";
      "--with-pic=1"; "--with-x=0"; "--with-windows-graphics=0" ].
Proof.
  cbv zeta. unfold emitted_by.
  pose proof (petsc_unset_values
                (petsc_world "3.5" ∅ "Configure stage complete." 0)
                (PETSc.with_cfg (PETSc.set_configopts EmptyString)
                   (fst (PETSc.configure_step
                           (petsc_world "3.5" ∅ "Configure stage complete." 0)
                           (petsc_state (petsc_cfg false false []) blas_fftw_env true)))))
    as [Hc [Hb _]].
  rewrite (bind_ok _ _ _ _ _ (Hc ltac:(vm_compute; reflexivity) ltac:(vm_compute; reflexivity)
                                 ltac:(vm_compute; reflexivity))).
  vm_compute. reflexivity.
Defined.

(** ** PETSc: the external configure run *)

Ltac unfold_segments :=
  unfold PETSc.before_petsc_dir; unfold_blocks.

Lemma prepare_configure_at_petsc_dir (w : PETSc.World) (s : PETSc.St) :
  PETSc.prepare_configure w s = (PETSc.before_petsc_dir w ;; PETSc.set_petsc_dir) s.
Proof.
  unfold PETSc.prepare_configure, PETSc.before_petsc_dir, PETSc.before_blas_lapack,
    PETSc.before_papi.
  repeat (repeat rewrite bind_assoc; apply bind_ext; intros ? ?).
  reflexivity.
Qed.

Lemma before_petsc_dir_frame (w : PETSc.World) :
  preserves (fun s => (PETSc.env s, PETSc.buildopts (PETSc.cfg s),
                       PETSc.start_dir (PETSc.cfg s)))
            (PETSc.before_petsc_dir w).
Proof. unfold_segments. frame. Qed.

(** X11: when the preparation of the configure step has passed, and so
    before the external configure tool is run, [PETSC_DIR] is set in the
    environment to [start_dir], nothing else in the environment has changed,
    and [buildopts] has gained exactly [PETSC_DIR=<start_dir>]. *)
Theorem petsc_dir_exported (w : PETSc.World) (s s1 : PETSc.St) :
  PETSc.prepare_configure w s = (s1, Ok tt) ->
  PETSc.env s1 = <["PETSC_DIR" := PETSc.start_dir (PETSc.cfg s)]> (PETSc.env s)
  /\ PETSc.env s1 !! "PETSC_DIR" = Some (PETSc.start_dir (PETSc.cfg s))
  /\ PETSc.buildopts (PETSc.cfg s1) =
     cfg_update (PETSc.buildopts (PETSc.cfg s)) ("PETSC_DIR=" ++ PETSc.start_dir (PETSc.cfg s)).
Proof.
  intros H. rewrite prepare_configure_at_petsc_dir in H.
  apply bind_ok_inv in H. destruct H as [[] [s0 [Hpre Hset]]].
  pose proof (before_petsc_dir_frame w s) as Hf. rewrite Hpre in Hf. simpl in Hf.
  inversion Hf as [[He Hb Hd]].
  unfold PETSc.set_petsc_dir, bind, gets, PETSc.setvar, PETSc.update_buildopts, modify in Hset.
  inversion Hset. simpl. rewrite He, Hb, Hd.
  split; [reflexivity | split; [apply lookup_insert_eq | reflexivity]].
Qed.

Lemma petsc_dir_exported_witness :
  let w := petsc_world "3.5" ∅ "Configure stage complete." 0 in
  let s := petsc_state (petsc_cfg false false []) blas_fftw_env true in
  PETSc.env (fst (PETSc.prepare_configure w s)) !! "PETSC_DIR" = Some "/build/petsc".
Proof.
  cbv zeta.
  apply (petsc_dir_exported (petsc_world "3.5" ∅ "Configure stage complete." 0)
           (petsc_state (petsc_cfg false false []) blas_fftw_env true)).
  vm_compute. reflexivity.
Defined.

Lemma prepare_configure_subdir (w : PETSc.World) :
  preserves (fun s => (PETSc.petsc_subdir s, PETSc.petsc_arch s,
                       PETSc.parallel (PETSc.cfg s), PETSc.sourceinstall (PETSc.cfg s)))
            (PETSc.prepare_configure w).
Proof. unfold_blocks. frame. Qed.

Lemma run_configure_run (w : PETSc.World) (s : PETSc.St) :
  PETSc.run_configure w s = run_cmd (PETSc.run w) (PETSc.configure_cmd w (PETSc.cfg s)) s.
Proof.
  unfold PETSc.run_configure, PETSc.configure_cmd, bind, gets.
  destruct (PETSc.sourceinstall (PETSc.cfg s)); reflexivity.
Qed.

Lemma blas_lapack_ok_inv (s s' : PETSc.St) :
  raiseError (PETSc.log s) = true ->
  PETSc.blas_lapack s = (s', Ok tt) ->
  Py.truthy (PETSc.env s !! "BLAS_LAPACK_LIB_DIR") = true
  /\ Py.truthy (PETSc.env s !! "BLAS_LAPACK_STATIC_LIBS") = true.
Proof.
  intros Hpol H. unfold PETSc.blas_lapack, bind at 1 2, PETSc.getenv, gets in H.
  destruct (Py.truthy (PETSc.env s !! "BLAS_LAPACK_LIB_DIR")),
    (Py.truthy (PETSc.env s !! "BLAS_LAPACK_STATIC_LIBS")); simpl in H;
    try (split; reflexivity);
    rewrite log_error_run, Hpol in H; discriminate H.
Qed.

Lemma papi_support_ok_inv (w : PETSc.World) (s s' : PETSc.St) :
  raiseError (PETSc.log s) = true ->
  PETSc.papi_support w s = (s', Ok tt) ->
  PETSc.with_papi (PETSc.cfg s) = true ->
  PETSc.isfile w (Py.join (PETSc.papi_inc (PETSc.cfg s)) ["papi.h"]) = true
  /\ PETSc.isfile w (PETSc.papi_lib (PETSc.cfg s)) = true.
Proof.
  intros Hpol H Hpapi. unfold PETSc.papi_support, bind at 1, gets at 1 in H.
  rewrite Hpapi in H. cbv zeta in H. unfold when in H.
  destruct (PETSc.isfile w (Py.join (PETSc.papi_inc (PETSc.cfg s)) ["papi.h"])),
    (PETSc.isfile w (PETSc.papi_lib (PETSc.cfg s))); simpl in H;
    try (split; reflexivity);
    rewrite log_error_run, Hpol in H; discriminate H.
Qed.

Lemma configure_step_ok_inv (w : PETSc.World) (s s' : PETSc.St) :
  PETSc.ge_3 w = true ->
  raiseError (PETSc.log s) = true ->
  PETSc.configure_step w s = (s', Ok tt) ->
  Py.truthy (PETSc.env s !! "BLAS_LAPACK_LIB_DIR") = true
  /\ Py.truthy (PETSc.env s !! "BLAS_LAPACK_STATIC_LIBS") = true
  /\ (PETSc.with_papi (PETSc.cfg s) = true ->
      PETSc.isfile w (Py.join (PETSc.papi_inc (PETSc.cfg s)) ["papi.h"]) = true
      /\ PETSc.isfile w (PETSc.papi_lib (PETSc.cfg s)) = true)
  /\ PETSc.petsc_subdir s' = Py.lower (PETSc.name w) ++ "-" ++ PETSc.version w
  /\ exists s1 out,
       PETSc.prepare_configure w s = (s1, Ok tt)
       /\ PETSc.run w (PETSc.configure_cmd w (PETSc.cfg s1)) = (out, 0%Z)
       /\ Py.contains "ERROR" out = false
       /\ (PETSc.sourceinstall (PETSc.cfg s) = true ->
           PETSc.search_petsc_arch out = Some (PETSc.petsc_arch s')).
Proof.
  intros Hge Hpol H.
  pose proof (configure_step_subdir w s s' Hge H) as Hsub.
  unfold PETSc.configure_step in H. rewrite Hge in H.
  apply bind_ok_inv in H. destruct H as [[] [sa [Hnew Hpar]]].
  assert (Harch' : PETSc.petsc_arch s' = PETSc.petsc_arch sa).
  { destruct (PETSc.ge_3_5 w); simpl in Hpar; inversion Hpar; reflexivity. }
  unfold PETSc.configure_new in Hnew.
  apply bind_ok_inv in Hnew. destruct Hnew as [[] [s1 [Hprep Hnew]]].
  apply bind_ok_inv in Hnew. destruct Hnew as [out [s2 [Hrun Hnew]]].
  apply bind_ok_inv in Hnew. destruct Hnew as [[] [s3 [Hchk Hnew]]].
  apply bind_ok_inv in Hnew. destruct Hnew as [[] [s4 [Harch Hnew]]].
  assert (Hsa : PETSc.petsc_arch sa = PETSc.petsc_arch s4) by (inversion Hnew; reflexivity).
  (* the preparation *)
  pose proof (prepare_configure_policy w s) as Hpol1. rewrite Hprep in Hpol1. simpl in Hpol1.
  pose proof (prepare_configure_subdir w s) as Hfr. rewrite Hprep in Hfr. simpl in Hfr.
  inversion Hfr as [[Hf1 Hf2 Hf3 Hsrc]].
  (* the BLAS/LAPACK block *)
  pose proof Hprep as Hblas. rewrite prepare_configure_at_blas_lapack in Hblas.
  apply bind_ok_inv in Hblas. destruct Hblas as [[] [sb [Hpre Hblas]]].
  apply bind_ok_inv in Hblas. destruct Hblas as [[] [sc [Hblas _]]].
  pose proof (before_blas_lapack_inputs w s) as Hin. rewrite Hpre in Hin. simpl in Hin.
  apply inputs_eq in Hin. destruct Hin as [He [Hr _]].
  assert (Hpolb : raiseError (PETSc.log sb) = true) by (rewrite Hr; exact Hpol).
  destruct (blas_lapack_ok_inv sb sc Hpolb Hblas) as [Hb1 Hb2]. rewrite He in Hb1, Hb2.
  (* the PAPI block *)
  pose proof Hprep as Hpapi. rewrite prepare_configure_at_papi in Hpapi.
  apply bind_ok_inv in Hpapi. destruct Hpapi as [[] [sp [Hprep' Hpapi]]].
  apply bind_ok_inv in Hpapi. destruct Hpapi as [[] [sq [Hpapi _]]].
  pose proof (before_papi_inputs w s) as Hin. rewrite Hprep' in Hin. simpl in Hin.
  apply inputs_eq in Hin. destruct Hin as [_ [Hr' [Hp [Hi Hl]]]].
  assert (Hpolp : raiseError (PETSc.log sp) = true) by (rewrite Hr'; exact Hpol).
  (* the run *)
  rewrite run_configure_run, run_cmd_run in Hrun.
  destruct (PETSc.run w (PETSc.configure_cmd w (PETSc.cfg s1))) as [out' ec] eqn:Erun.
  simpl in Hrun. destruct (ec =? 0)%Z eqn:Eec; [|discriminate Hrun].
  apply Z.eqb_eq in Eec. subst ec. inversion Hrun. subst s2 out'. clear Hrun.
  (* the search for errors *)
  unfold PETSc.check_configure_errors in Hchk.
  destruct (Py.contains "ERROR" out) eqn:Eerr.
  { simpl in Hchk. rewrite log_error_run, Hpol1, Hpol in Hchk. discriminate Hchk. }
  simpl in Hchk. inversion Hchk. subst s3. clear Hchk.
  split; [exact Hb1 | split; [exact Hb2 | split; [|split; [exact Hsub|]]]].
  - intros Hw. rewrite <- Hp in Hw. rewrite <- Hi, <- Hl.
    apply (papi_support_ok_inv w sp sq Hpolp Hpapi Hw).
  - exists s1, out. split; [exact Hprep | split; [exact Erun | split; [exact Eerr|]]].
    intros Hs. try rewrite <- Hsrc in Hs.
    unfold PETSc.figure_out_petsc_arch, bind at 1, gets at 1 in Harch.
    rewrite Hs in Harch. unfold when in Harch.
    destruct (PETSc.search_petsc_arch out) as [arch|].
    + unfold bind, modify, PETSc.update_buildopts in Harch. inversion Harch.
      rewrite Harch', Hsa. subst s4. reflexivity.
    + rewrite log_error_run, Hpol1, Hpol in Harch. discriminate Harch.
Qed.

(** X13: with the logger in its raising mode, a configure step of a version
    from 3 on that returns has met every requirement: both BLAS/LAPACK values
    are set and not empty; if [with_papi] is on, the PAPI header and library
    are on disk; the external configure tool has exited with code 0 and its
    output holds no [ERROR]; and for a source installation [PETSC_ARCH] was
    found in that output and is what [petsc_arch] now holds.  The step leaves
    [petsc_subdir] at [<name>-<version>], the name in lower case. *)
Theorem petsc_configure_success (w : PETSc.World) (s s' : PETSc.St) :
  PETSc.ge_3 w = true ->
  raiseError (PETSc.log s) = true ->
  PETSc.configure_step w s = (s', Ok tt) ->
  Py.truthy (PETSc.env s !! "BLAS_LAPACK_LIB_DIR") = true
  /\ Py.truthy (PETSc.env s !! "BLAS_LAPACK_STATIC_LIBS") = true
  /\ (PETSc.with_papi (PETSc.cfg s) = true ->
      PETSc.isfile w (Py.join (PETSc.papi_inc (PETSc.cfg s)) ["papi.h"]) = true
      /\ PETSc.isfile w (PETSc.papi_lib (PETSc.cfg s)) = true)
  /\ PETSc.petsc_subdir s' = Py.lower (PETSc.name w) ++ "-" ++ PETSc.version w
  /\ exists s1 out,
       PETSc.prepare_configure w s = (s1, Ok tt)
       /\ PETSc.run w (PETSc.configure_cmd w (PETSc.cfg s1)) = (out, 0%Z)
       /\ Py.contains "ERROR" out = false
       /\ (PETSc.sourceinstall (PETSc.cfg s) = true ->
           PETSc.search_petsc_arch out = Some (PETSc.petsc_arch s')).
Proof. apply configure_step_ok_inv. Qed.

Lemma petsc_configure_success_witness :
  let w := petsc_world "3.5" ∅ ("Configure stage complete." ++ nl ++ "PETSC_ARCH: arch-x") 0 in
  let s := petsc_state (petsc_cfg false true []) blas_fftw_env true in
  PETSc.petsc_subdir (fst (PETSc.configure_step w s)) = "petsc-3.5".
Proof.
  cbv zeta.
  apply (proj1 (proj2 (proj2 (proj2 (petsc_configure_success
           (petsc_world "3.5" ∅ ("Configure stage complete." ++ nl ++ "PETSC_ARCH: arch-x") 0)
           (petsc_state (petsc_cfg false true []) blas_fftw_env true)
           (fst (PETSc.configure_step
                   (petsc_world "3.5" ∅
                      ("Configure stage complete." ++ nl ++ "PETSC_ARCH: arch-x") 0)
                   (petsc_state (petsc_cfg false true []) blas_fftw_env true)))
           ltac:(vm_compute; reflexivity) ltac:(reflexivity)
           ltac:(vm_compute; reflexivity)))))).
Defined.

(** ** PETSc: the search for [PETSC_ARCH] *)

Lemma take_nonspace_no_space (s : string) :
  no_space (fst (PETSc.take_nonspace s)) = true.
Proof.
  induction s as [|c s IH]; simpl.
  - reflexivity.
  - destruct (Py.is_space c) eqn:E; simpl.
    + reflexivity.
    + destruct (PETSc.take_nonspace s) as [run rest]. simpl in *. rewrite E, IH. reflexivity.
Qed.

Lemma match_arch_at_group (s g : string) :
  PETSc.match_arch_at s = Some g -> g <> EmptyString /\ no_space g = true.
Proof.
  unfold PETSc.match_arch_at.
  destruct (PETSc.strip_prefix "PETSC_ARCH:" (PETSc.skip_space s)) as [rest|]; [|discriminate].
  pose proof (take_nonspace_no_space (PETSc.skip_space rest)) as Hns.
  destruct (PETSc.take_nonspace (PETSc.skip_space rest)) as [group rest']. simpl in Hns.
  destruct (String.eqb group EmptyString) eqn:E; [discriminate|].
  apply String.eqb_neq in E.
  destruct rest' as [|c r].
  - intros H. inversion H. subst g. split; assumption.
  - destruct (Ascii.eqb c "010"); [|discriminate].
    intros H. inversion H. subst g. split; assumption.
Qed.

Lemma search_arch_from_group (b : bool) (s g : string) :
  PETSc.search_arch_from b s = Some g -> g <> EmptyString /\ no_space g = true.
Proof.
  revert b. induction s as [|c s IH]; intros b; simpl.
  - destruct b; [|discriminate].
    destruct (PETSc.match_arch_at EmptyString) eqn:E; [|discriminate].
    intros H. inversion H. subst. apply (match_arch_at_group _ _ E).
  - destruct b.
    + destruct (PETSc.match_arch_at (String c s)) eqn:E.
      * intros H. inversion H. subst. apply (match_arch_at_group _ _ E).
      * apply IH.
    + apply IH.
Qed.

(** X14: whatever the output of the configure tool, an architecture found
    in it is not empty and holds no white space, so the [PETSC_ARCH=<arch>]
    appended to [buildopts] is one word. *)
Theorem petsc_arch_is_a_word (out arch : string) :
  PETSc.search_petsc_arch out = Some arch ->
  arch <> EmptyString /\ no_space arch = true.
Proof.
  unfold PETSc.search_petsc_arch. apply search_arch_from_group.
Qed.

Lemma petsc_arch_is_a_word_witness :
  no_space "arch-linux2-c-opt" = true.
Proof.
  apply (petsc_arch_is_a_word
           ("Compilers:" ++ nl ++ "  PETSC_ARCH: arch-linux2-c-opt" ++ nl ++ "done")
           "arch-linux2-c-opt").
  reflexivity.
Defined.

Lemma skip_space_all_space (ws x : string) :
  all_space ws = true -> PETSc.skip_space (ws ++ x) = PETSc.skip_space x.
Proof.
  induction ws as [|c ws IH]; simpl; intros H.
  - reflexivity.
  - apply andb_true_iff in H. destruct H as [Hc Hws]. rewrite Hc. apply IH. exact Hws.
Qed.

Lemma skip_space_word (a x : string) :
  a <> EmptyString -> no_space a = true -> PETSc.skip_space (a ++ x) = a ++ x.
Proof.
  destruct a as [|c a]; [intros H; contradiction H; reflexivity|].
  intros _ H. simpl in *. apply andb_true_iff in H. destruct H as [Hc _].
  apply negb_true_iff in Hc. rewrite Hc. reflexivity.
Qed.

Lemma take_nonspace_word (a rest : string) :
  no_space a = true ->
  rest = EmptyString \/ Py.startswith nl rest = true ->
  PETSc.take_nonspace (a ++ rest) = (a, rest).
Proof.
  intros Ha Hrest. induction a as [|c a IH]; simpl.
  - destruct Hrest as [->|H]; [reflexivity|].
    destruct rest as [|r rest]; [reflexivity|].
    unfold nl in H. cbn [Py.startswith] in H.
    destruct (Ascii.eqb "010" r) eqn:E; [|discriminate].
    apply Ascii.eqb_eq in E. subst r. reflexivity.
  - simpl in Ha. apply andb_true_iff in Ha. destruct Ha as [Hc Ha].
    apply negb_true_iff in Hc. rewrite Hc, (IH Ha). reflexivity.
Qed.

Lemma str_append_assoc (a b c : string) : (a ++ b) ++ c = a ++ (b ++ c).
Proof.
  induction a as [|x a IH]; [reflexivity|].
  change (String x ((a ++ b) ++ c) = String x (a ++ (b ++ c))).
  rewrite IH. reflexivity.
Qed.

Lemma match_arch_at_line (indent sep arch rest : string) :
  all_space indent = true -> all_space sep = true ->
  arch <> EmptyString -> no_space arch = true ->
  rest = EmptyString \/ Py.startswith nl rest = true ->
  PETSc.match_arch_at (arch_line indent sep arch ++ rest) = Some arch.
Proof.
  intros Hi Hs Hne Hns Hrest. unfold PETSc.match_arch_at, arch_line.
  rewrite !str_append_assoc.
  rewrite (skip_space_all_space indent _ Hi).
  assert (Hlit : forall x, PETSc.strip_prefix "PETSC_ARCH:"
                             (PETSc.skip_space ("PETSC_ARCH:" ++ x)) = Some x)
    by (intros x; reflexivity).
  rewrite Hlit.
  rewrite (skip_space_all_space sep _ Hs), (skip_space_word arch rest Hne Hns).
  rewrite (take_nonspace_word arch rest Hns Hrest).
  apply String.eqb_neq in Hne. rewrite Hne.
  destruct Hrest as [->|H]; [reflexivity|].
  destruct rest as [|r rest]; [reflexivity|].
  unfold nl in H. cbn [Py.startswith] in H.
    destruct (Ascii.eqb "010" r) eqn:E; [|discriminate].
  apply Ascii.eqb_eq in E. subst r. reflexivity.
Qed.

Lemma strip_prefix_startswith (p x r : string) :
  PETSc.strip_prefix p x = Some r -> Py.startswith p x = true.
Proof.
  revert x. induction p as [|a p IH]; intros x H; simpl in *.
  - reflexivity.
  - destruct x as [|b x]; [discriminate|].
    destruct (Ascii.eqb a b); [apply (IH x H) | discriminate].
Qed.

(** A word that begins a text with a newline in it begins the part before
    the newline. *)
Lemma startswith_before_newline (p x y : string) :
  no_space p = true ->
  Py.startswith p (x ++ nl ++ y) = true -> Py.startswith p x = true.
Proof.
  revert x. induction p as [|a p IH]; intros x Hp H.
  - reflexivity.
  - simpl in Hp. apply andb_true_iff in Hp. destruct Hp as [Ha Hp].
    destruct x as [|b x].
    + change (EmptyString ++ nl ++ y) with (String "010" y) in H. simpl in H.
      destruct (Ascii.eqb a "010") eqn:E; [|discriminate].
      apply Ascii.eqb_eq in E. subst a. discriminate Ha.
    + change (String b x ++ nl ++ y) with (String b (x ++ nl ++ y)) in H. simpl in *.
      destruct (Ascii.eqb a b); [apply (IH x Hp H) | discriminate].
Qed.

Lemma match_arch_at_skip (s s' : string) :
  PETSc.skip_space s = PETSc.skip_space s' ->
  PETSc.match_arch_at s = PETSc.match_arch_at s'.
Proof. intros H. unfold PETSc.match_arch_at. rewrite H. reflexivity. Qed.

Lemma match_arch_at_before (before L : string) :
  Py.contains "PETSC_ARCH:" before = false ->
  PETSc.match_arch_at (before ++ nl ++ L) = None
  \/ PETSc.match_arch_at (before ++ nl ++ L) = PETSc.match_arch_at L.
Proof.
  induction before as [|c before IH]; intros H.
  - right. apply match_arch_at_skip. reflexivity.
  - change (String c before ++ nl ++ L) with (String c (before ++ nl ++ L)).
    cbn [Py.contains] in H. apply orb_false_iff in H. destruct H as [Hstart Hrest].
    destruct (Py.is_space c) eqn:Ec.
    + destruct (IH Hrest) as [Hn|He].
      * left. rewrite <- Hn. apply match_arch_at_skip. simpl. rewrite Ec. reflexivity.
      * right. rewrite <- He. apply match_arch_at_skip. simpl. rewrite Ec. reflexivity.
    + left. unfold PETSc.match_arch_at.
      replace (PETSc.skip_space (String c (before ++ nl ++ L)))
        with (String c (before ++ nl ++ L)) by (simpl; rewrite Ec; reflexivity).
      destruct (PETSc.strip_prefix "PETSC_ARCH:" (String c (before ++ nl ++ L)))
        as [r|] eqn:E; [|reflexivity].
      apply strip_prefix_startswith in E.
      change (String c (before ++ nl ++ L)) with (String c before ++ nl ++ L) in E.
      apply startswith_before_newline in E; [|reflexivity].
      rewrite E in Hstart. discriminate Hstart.
Qed.

Lemma search_arch_from_here (s g : string) :
  PETSc.match_arch_at s = Some g -> PETSc.search_arch_from true s = Some g.
Proof.
  intros H. destruct s; cbn [PETSc.search_arch_from]; rewrite H; reflexivity.
Qed.

Lemma search_arch_from_before (before L g : string) (b : bool) :
  Py.contains "PETSC_ARCH:" before = false ->
  PETSc.match_arch_at L = Some g ->
  PETSc.search_arch_from b (before ++ nl ++ L) = Some g.
Proof.
  intros H HL. revert b H. induction before as [|c before IH]; intros b H.
  - change (EmptyString ++ nl ++ L) with (String "010" L).
    cbn [PETSc.search_arch_from].
    change (Ascii.eqb "010" "010") with true.
    destruct b; [|apply (search_arch_from_here _ _ HL)].
    destruct (match_arch_at_before EmptyString L eq_refl) as [Hn|He].
    + change (EmptyString ++ nl ++ L) with (String "010" L) in Hn. rewrite Hn.
      apply (search_arch_from_here _ _ HL).
    + change (EmptyString ++ nl ++ L) with (String "010" L) in He. rewrite He, HL.
      reflexivity.
  - pose proof (match_arch_at_before (String c before) L H) as Hm.
    change (String c before ++ nl ++ L) with (String c (before ++ nl ++ L)) in *.
    cbn [Py.contains] in H. apply orb_false_iff in H. destruct H as [_ Hrest].
    cbn [PETSc.search_arch_from].
    destruct b; [|apply (IH _ Hrest)].
    destruct Hm as [Hn|He].
    + rewrite Hn. apply (IH _ Hrest).
    + rewrite He, HL. reflexivity.
Qed.

(** X15: the architecture that the configure tool prints on a line of its
    own is the one the search returns: for a line made of indentation,
    [PETSC_ARCH:], white space and a name without white space, which ends the
    output or is followed by a newline, the search gives back the name,
    whatever the output holds before that line, provided [PETSC_ARCH:] does
    not occur in it. *)
Theorem petsc_arch_round_trip (before indent sep arch rest : string) :
  Py.contains "PETSC_ARCH:" before = false ->
  all_space indent = true -> all_space sep = true ->
  arch <> EmptyString -> no_space arch = true ->
  rest = EmptyString \/ Py.startswith nl rest = true ->
  PETSc.search_petsc_arch (arch_line indent sep arch ++ rest) = Some arch
  /\ PETSc.search_petsc_arch (before ++ nl ++ arch_line indent sep arch ++ rest) = Some arch.
Proof.
  intros Hb Hi Hs Hne Hns Hrest.
  pose proof (match_arch_at_line indent sep arch rest Hi Hs Hne Hns Hrest) as HL.
  unfold PETSc.search_petsc_arch. split.
  - apply search_arch_from_here. exact HL.
  - apply search_arch_from_before; assumption.
Qed.

Lemma petsc_arch_round_trip_witness :
  PETSc.search_petsc_arch
    (("Compilers:" ++ nl ++ "  C Compiler: mpicc")
     ++ nl ++ arch_line "  " " " "arch-linux2-c-opt" ++ (nl ++ "xxx=========xxx"))
  = Some "arch-linux2-c-opt".
Proof.
  apply (proj2 (petsc_arch_round_trip
                  ("Compilers:" ++ nl ++ "  C Compiler: mpicc") "  " " " "arch-linux2-c-opt"
                  (nl ++ "xxx=========xxx")
                  ltac:(vm_compute; reflexivity) ltac:(reflexivity) ltac:(reflexivity)
                  ltac:(discriminate) ltac:(reflexivity)
                  ltac:(right; reflexivity))).
Defined.

(** ** PETSc: the install step *)

(** X16: the install step follows the strategy of the version.  From
    version 3 on it makes no symbolic link, whatever [os.symlink] would do:
    for a source installation it does nothing at all and otherwise it is the
    parent's install step.  Below version 3 it never runs the parent's
    install step. *)
Theorem petsc_install_strategies (w : PETSc.World) (s : PETSc.St)
    (super super' : M PETSc.St unit) (symlink symlink' : string -> string -> M PETSc.St unit) :
  (PETSc.ge_3 w = true ->
     PETSc.install_step super symlink w s = PETSc.install_step super symlink' w s
     /\ (PETSc.sourceinstall (PETSc.cfg s) = true ->
         PETSc.install_step super symlink w s = (s, Ok tt))
     /\ (PETSc.sourceinstall (PETSc.cfg s) = false ->
         PETSc.install_step super symlink w s = super s))
  /\ (PETSc.ge_3 w = false ->
      PETSc.install_step super symlink w s = PETSc.install_step super' symlink w s).
Proof.
  unfold PETSc.install_step. split; intros Hge; rewrite Hge.
  - split; [reflexivity|]. unfold bind, gets. split; intros H; rewrite H; reflexivity.
  - reflexivity.
Qed.

Lemma petsc_install_strategies_witness :
  PETSc.install_step (raise (EasyBuildError "make install failed" []))
    (fun _ _ => raise (EasyBuildError "File exists" []))
    (petsc_world "3.5" ∅ EmptyString 0)
    (petsc_state (petsc_cfg false true []) ∅ true)
  = (petsc_state (petsc_cfg false true []) ∅ true, Ok tt).
Proof.
  apply (proj1 (proj2 (proj1 (petsc_install_strategies
           (petsc_world "3.5" ∅ EmptyString 0)
           (petsc_state (petsc_cfg false true []) ∅ true)
           (raise (EasyBuildError "make install failed" []))
           (raise (EasyBuildError "make install failed" []))
           (fun _ _ => raise (EasyBuildError "File exists" []))
           (fun _ _ => raise (EasyBuildError "File exists" [])))
           ltac:(vm_compute; reflexivity)))).
  reflexivity.
Defined.

Lemma symlink_headers_errors (symlink : string -> string -> M PETSc.St unit)
    (w : PETSc.World) (fs : list string) (s : PETSc.St) (e : exn) :
  (forall a b, preserves (fun s => raiseError (PETSc.log s)) (symlink a b)) ->
  snd (PETSc.symlink_headers symlink w fs s) = Raise e ->
  raiseError (PETSc.log s) = true
  /\ exists f err,
       In f fs
       /\ e = EasyBuildError ("Something went wrong during symlink creation of file "
                              ++ f ++ ": " ++ PETSc.str_exn err) [].
Proof.
  intros Hsym. revert s. induction fs as [|f fs IH]; intros s H.
  - discriminate H.
  - cbn [PETSc.symlink_headers] in H. cbv zeta in H.
    match type of H with
    | context [symlink ?a ?b s] =>
        pose proof (Hsym a b s) as Hp; destruct (symlink a b s) as [s1 [u|err]]
    end; simpl in Hp.
    + destruct (IH s1 H) as [Hpol [f' [err [Hin He]]]].
      split; [rewrite <- Hp; exact Hpol|].
      exists f', err. split; [right; exact Hin | exact He].
    + rewrite log_error_run in H. simpl in H. rewrite Hp in H.
      destruct (raiseError (PETSc.log s)); [|discriminate H].
      split; [reflexivity|]. inversion H.
      exists f, err. split; [left; reflexivity | reflexivity].
Qed.

Lemma symlink_headers_linked (symlink : string -> string -> M PETSc.St unit)
    (w : PETSc.World) (fs : list string) (s s' : PETSc.St) :
  linked symlink w fs s = Some s' ->
  PETSc.symlink_headers symlink w fs s = (s', Ok tt).
Proof.
  revert s. induction fs as [|f fs IH]; intros s H.
  - inversion H. reflexivity.
  - cbn [linked] in H. cbn [PETSc.symlink_headers]. cbv zeta.
    unfold header_source, header_link in H.
    destruct (symlink _ _ s) as [s1 [u|err]]; [apply IH; exact H | discriminate H].
Qed.

Lemma symlink_headers_first_failure (symlink : string -> string -> M PETSc.St unit)
    (w : PETSc.World) (before : list string) (f : string) (after : list string)
    (s s1 s2 : PETSc.St) (err : exn) :
  linked symlink w before s = Some s1 ->
  symlink (header_source w f) (header_link w f) s1 = (s2, Raise err) ->
  PETSc.symlink_headers symlink w (List.app before (f :: after)) s =
    PETSc.log_error ("Something went wrong during symlink creation of file "
                     ++ f ++ ": " ++ PETSc.str_exn err) s2.
Proof.
  revert s. induction before as [|g before IH]; intros s H Hf.
  - inversion H. subst s1. cbn [List.app PETSc.symlink_headers]. cbv zeta.
    unfold header_source, header_link in Hf. rewrite Hf. reflexivity.
  - cbn [linked] in H. cbn [List.app PETSc.symlink_headers]. cbv zeta.
    unfold header_source, header_link in H.
    destruct (symlink _ _ s) as [sa [u|e]]; [apply IH; assumption | discriminate H].
Qed.

Lemma symlink_headers_raise_inv (symlink : string -> string -> M PETSc.St unit)
    (w : PETSc.World) (fs : list string) (s : PETSc.St) (e : exn) :
  snd (PETSc.symlink_headers symlink w fs s) = Raise e ->
  exists before f after s1 s2 err,
    fs = List.app before (f :: after)
    /\ linked symlink w before s = Some s1
    /\ symlink (header_source w f) (header_link w f) s1 = (s2, Raise err)
    /\ raiseError (PETSc.log s2) = true
    /\ e = EasyBuildError ("Something went wrong during symlink creation of file "
                           ++ f ++ ": " ++ PETSc.str_exn err) [].
Proof.
  revert s. induction fs as [|f fs IH]; intros s H.
  - discriminate H.
  - cbn [PETSc.symlink_headers] in H. cbv zeta in H.
    destruct (symlink (Py.join (Py.join (PETSc.installdir w) ["bmake"; "linux-gnu-c-opt"]) [f])
                      (Py.join (Py.join (PETSc.installdir w) ["include"]) [f]) s)
      as [sa [u|err]] eqn:E.
    + destruct (IH sa H) as [before [g [after [s1 [s2 [err [Hfs [Hl [Hg [Hpol He]]]]]]]]]].
      exists (f :: before), g, after, s1, s2, err.
      split; [rewrite Hfs; reflexivity|].
      split; [cbn [linked]; unfold header_source, header_link; rewrite E; exact Hl|].
      split; [exact Hg | split; [exact Hpol | exact He]].
    + rewrite log_error_run in H. cbn [snd] in H.
      destruct (raiseError (PETSc.log sa)) eqn:Hpol; [|discriminate H].
      exists [], f, fs, s, sa, err.
      split; [reflexivity|]. split; [reflexivity|].
      split; [exact E|]. split; [exact Hpol|]. inversion H. reflexivity.
Qed.

(** X17: below version 3 the install step links the four headers in their
    order.  When every link succeeds the step returns, on the state the
    links leave.  The first link that fails ends the loop: the headers
    after it are not linked, and the failure is reported through the
    logger's [error] with a message that names the header of the failed link
    and carries the text of the failure itself; the step then raises that
    message as an [EasyBuildError] only with the logger in its raising mode,
    and returns otherwise.  The step raises in no other way. *)
Theorem petsc_old_install_errors (w : PETSc.World) (s : PETSc.St)
    (super : M PETSc.St unit) (symlink : string -> string -> M PETSc.St unit) :
  PETSc.ge_3 w = false ->
  (forall s', linked symlink w old_headers s = Some s' ->
     PETSc.install_step super symlink w s = (s', Ok tt))
  /\ (forall before f after s1 s2 err,
        old_headers = List.app before (f :: after) ->
        linked symlink w before s = Some s1 ->
        symlink (header_source w f) (header_link w f) s1 = (s2, Raise err) ->
        let msg := "Something went wrong during symlink creation of file "
                   ++ f ++ ": " ++ PETSc.str_exn err in
        PETSc.install_step super symlink w s =
          (PETSc.with_log (record_msg ERROR msg) s2,
           if raiseError (PETSc.log s2) then Raise (EasyBuildError msg []) else Ok tt))
  /\ (forall e,
        snd (PETSc.install_step super symlink w s) = Raise e ->
        exists before f after s1 s2 err,
          old_headers = List.app before (f :: after)
          /\ linked symlink w before s = Some s1
          /\ symlink (header_source w f) (header_link w f) s1 = (s2, Raise err)
          /\ raiseError (PETSc.log s2) = true
          /\ e = EasyBuildError ("Something went wrong during symlink creation of file "
                                 ++ f ++ ": " ++ PETSc.str_exn err) [])
  /\ (forall e,
        (forall a b, preserves (fun s => raiseError (PETSc.log s)) (symlink a b)) ->
        snd (PETSc.install_step super symlink w s) = Raise e ->
        raiseError (PETSc.log s) = true).
Proof.
  intros Hge. unfold PETSc.install_step. rewrite Hge. fold old_headers.
  split; [|split; [|split]].
  - intros s' H. apply symlink_headers_linked. exact H.
  - intros before f after s1 s2 err Hfs Hl Hf. cbv zeta.
    rewrite Hfs. rewrite (symlink_headers_first_failure _ _ _ _ _ _ _ _ _ Hl Hf).
    apply log_error_run.
  - intros e H. apply symlink_headers_raise_inv. exact H.
  - intros e Hsym H.
    apply (symlink_headers_errors symlink w old_headers s e Hsym H).
Qed.

Lemma petsc_old_install_errors_witness :
  let w := petsc_world "2.3.3" ∅ EmptyString 0 in
  let s := petsc_state (petsc_cfg false false []) ∅ true in
  let quiet := petsc_state (petsc_cfg false false []) ∅ false in
  let msg := "Something went wrong during symlink creation of file petscfix.h: File exists" in
  PETSc.install_step (ret tt) (failing_symlink "/sw/PETSc/bmake/linux-gnu-c-opt/petscfix.h") w s
    = (PETSc.with_log (record_msg ERROR msg) s, Raise (EasyBuildError msg []))
  /\ PETSc.install_step (ret tt)
       (failing_symlink "/sw/PETSc/bmake/linux-gnu-c-opt/petscfix.h") w quiet
    = (PETSc.with_log (record_msg ERROR msg) quiet, Ok tt)
  /\ PETSc.install_step (ret tt) (failing_symlink "nowhere") w s = (s, Ok tt).
Proof.
  cbv zeta.
  pose proof (petsc_old_install_errors
                (petsc_world "2.3.3" ∅ EmptyString 0)
                (petsc_state (petsc_cfg false false []) ∅ true)
                (ret tt) (failing_symlink "/sw/PETSc/bmake/linux-gnu-c-opt/petscfix.h")
                ltac:(vm_compute; reflexivity)) as [_ [Hfail _]].
  pose proof (petsc_old_install_errors
                (petsc_world "2.3.3" ∅ EmptyString 0)
                (petsc_state (petsc_cfg false false []) ∅ false)
                (ret tt) (failing_symlink "/sw/PETSc/bmake/linux-gnu-c-opt/petscfix.h")
                ltac:(vm_compute; reflexivity)) as [_ [Hquiet _]].
  pose proof (petsc_old_install_errors
                (petsc_world "2.3.3" ∅ EmptyString 0)
                (petsc_state (petsc_cfg false false []) ∅ true)
                (ret tt) (failing_symlink "nowhere")
                ltac:(vm_compute; reflexivity)) as [Hall _].
  split; [|split].
  - apply (Hfail ["petscconf.h"; "petscconfiginfo.h"] "petscfix.h" ["petscmachineinfo.h"]
                 (petsc_state (petsc_cfg false false []) ∅ true)
                 (petsc_state (petsc_cfg false false []) ∅ true)
                 (EasyBuildError "File exists" []));
      vm_compute; reflexivity.
  - apply (Hquiet ["petscconf.h"; "petscconfiginfo.h"] "petscfix.h" ["petscmachineinfo.h"]
                  (petsc_state (petsc_cfg false false []) ∅ false)
                  (petsc_state (petsc_cfg false false []) ∅ false)
                  (EasyBuildError "File exists" []));
      vm_compute; reflexivity.
  - apply Hall. vm_compute. reflexivity.
Defined.

(** ** PETSc: the module *)

Lemma configure_step_sourceinstall (w : PETSc.World) :
  preserves (fun s => PETSc.sourceinstall (PETSc.cfg s)) (PETSc.configure_step w).
Proof.
  unfold PETSc.configure_step. unfold_configure. frame.
Qed.

(** X18: the guesses of the module take the three PETSc entries [PATH],
    [CPATH] and [LD_LIBRARY_PATH] in place of whatever the parent class
    guessed for them and keep every other entry of the parent.  They agree
    with the sanity check: every directory of [PATH] and [CPATH] is one the
    sanity check expects, and the library the sanity check expects is
    [libpetsc.<ext>] in the directory of [LD_LIBRARY_PATH]. *)
Theorem petsc_module_guesses (guesses : gmap string (list string))
    (w : PETSc.World) (s : PETSc.St) :
  let g := PETSc.make_module_req_guess guesses s in
  let libext := if PETSc.shared_libs (PETSc.cfg s) then PETSc.shared_lib_ext w else "a" in
  (exists bin, g !! "PATH" = Some [bin] /\ In bin (dirs (PETSc.sanity_check_paths w s)))
  /\ (exists inc2 inc1,
        g !! "CPATH" = Some [inc2; inc1]
        /\ In inc2 (dirs (PETSc.sanity_check_paths w s))
        /\ In inc1 (dirs (PETSc.sanity_check_paths w s)))
  /\ (exists lib,
        g !! "LD_LIBRARY_PATH" = Some [lib]
        /\ files (PETSc.sanity_check_paths w s) = [Py.join lib ["libpetsc." ++ libext]])
  /\ (forall k, k <> "PATH" -> k <> "CPATH" -> k <> "LD_LIBRARY_PATH" ->
        g !! k = guesses !! k).
Proof.
  cbv zeta. unfold PETSc.make_module_req_guess, PETSc.sanity_check_paths.
  split; [|split; [|split]].
  - eexists. split.
    + rewrite lookup_insert_ne by discriminate. rewrite lookup_insert_ne by discriminate.
      apply lookup_insert_eq.
    + simpl. left. reflexivity.
  - eexists. eexists. split; [|split].
    + rewrite lookup_insert_ne by discriminate. apply lookup_insert_eq.
    + simpl. right. right. right. left. reflexivity.
    + simpl. right. right. left. reflexivity.
  - eexists. split.
    + apply lookup_insert_eq.
    + reflexivity.
  - intros k H1 H2 H3.
    rewrite lookup_insert_ne by (intros E; apply H3; symmetry; exact E).
    rewrite lookup_insert_ne by (intros E; apply H2; symmetry; exact E).
    rewrite lookup_insert_ne by (intros E; apply H1; symmetry; exact E).
    reflexivity.
Qed.

Lemma petsc_module_guesses_witness :
  PETSc.make_module_req_guess
    (<["PATH" := ["bin"; "sbin"]]> (<["MANPATH" := ["share/man"]]> ∅))
    (petsc_state (petsc_cfg false false []) ∅ true) !! "MANPATH" = Some ["share/man"].
Proof.
  rewrite (proj2 (proj2 (proj2 (petsc_module_guesses
             (<["PATH" := ["bin"; "sbin"]]> (<["MANPATH" := ["share/man"]]> ∅))
             (petsc_world "3.5" ∅ EmptyString 0)
             (petsc_state (petsc_cfg false false []) ∅ true)))) "MANPATH");
    first [discriminate | vm_compute; reflexivity].
Defined.

(** X19: the module text follows the configure step.  After a configure
    step of a version from 3 on that has returned, with the logger in its
    raising mode, the text is the parent's text followed, for a source
    installation, by [PETSC_DIR] set to [$root/<name>-<version>] and
    [PETSC_ARCH] set to the architecture of the configure step: the word
    that the search for the [PETSC_ARCH:] line finds in the output of the
    configure tool, run on the command of the prepared configuration; and
    otherwise by [PETSC_DIR] set to [$root] alone. *)
Theorem petsc_module_extra_after_configure (w : PETSc.World) (s s' : PETSc.St)
    (txt : string) (set_environment : string -> string -> string) :
  PETSc.ge_3 w = true ->
  raiseError (PETSc.log s) = true ->
  PETSc.configure_step w s = (s', Ok tt) ->
  (PETSc.sourceinstall (PETSc.cfg s) = true ->
     exists s1 out arch,
       PETSc.prepare_configure w s = (s1, Ok tt)
       /\ PETSc.run w (PETSc.configure_cmd w (PETSc.cfg s1)) = (out, 0%Z)
       /\ PETSc.search_petsc_arch out = Some arch
       /\ PETSc.petsc_arch s' = arch
       /\ arch <> EmptyString /\ no_space arch = true
       /\ PETSc.make_module_extra txt set_environment s' =
          (txt ++ set_environment "PETSC_DIR"
                    ("$root/" ++ Py.lower (PETSc.name w) ++ "-" ++ PETSc.version w))
          ++ set_environment "PETSC_ARCH" arch)
  /\ (PETSc.sourceinstall (PETSc.cfg s) = false ->
      PETSc.make_module_extra txt set_environment s' =
        txt ++ set_environment "PETSC_DIR" "$root").
Proof.
  intros Hge Hpol H.
  pose proof (configure_step_sourceinstall w s) as Hsrc. rewrite H in Hsrc. simpl in Hsrc.
  destruct (configure_step_ok_inv w s s' Hge Hpol H)
    as [_ [_ [_ [Hsub [s1 [out [Hprep [Hrun [_ Harch]]]]]]]]].
  unfold PETSc.make_module_extra. rewrite Hsrc. split; intros Hs; rewrite Hs.
  - exists s1, out, (PETSc.petsc_arch s').
    destruct (search_arch_from_group true out (PETSc.petsc_arch s') (Harch Hs)) as [Hne Hns].
    split; [exact Hprep | split; [exact Hrun | split; [exact (Harch Hs) | split; [reflexivity|]]]].
    split; [exact Hne | split; [exact Hns|]]. rewrite Hsub. reflexivity.
  - reflexivity.
Qed.

Lemma petsc_module_extra_after_configure_witness :
  let out := "Configure stage complete." ++ nl ++ "  PETSC_ARCH: arch-linux2-c-opt" ++ nl in
  let w := petsc_world "3.5" ∅ out 0 in
  PETSc.make_module_extra "#%Module" (fun k v => nl ++ "setenv " ++ k ++ " " ++ v)
    (fst (PETSc.configure_step w (petsc_state (petsc_cfg false true []) blas_fftw_env true)))
  = "#%Module" ++ nl ++ "setenv PETSC_DIR $root/petsc-3.5"
    ++ nl ++ "setenv PETSC_ARCH arch-linux2-c-opt"
  /\ PETSc.make_module_extra "#%Module" (fun k v => nl ++ "setenv " ++ k ++ " " ++ v)
       (fst (PETSc.configure_step w (petsc_state (petsc_cfg false false []) blas_fftw_env true)))
     = "#%Module" ++ nl ++ "setenv PETSC_DIR $root".
Proof.
  cbv zeta. split.
  - destruct (proj1 (petsc_module_extra_after_configure
               (petsc_world "3.5" ∅
                  ("Configure stage complete." ++ nl ++ "  PETSC_ARCH: arch-linux2-c-opt" ++ nl) 0)
               (petsc_state (petsc_cfg false true []) blas_fftw_env true)
               (fst (PETSc.configure_step
                       (petsc_world "3.5" ∅
                          ("Configure stage complete." ++ nl
                           ++ "  PETSC_ARCH: arch-linux2-c-opt" ++ nl) 0)
                       (petsc_state (petsc_cfg false true []) blas_fftw_env true)))
               "#%Module" (fun k v => nl ++ "setenv " ++ k ++ " " ++ v)
               ltac:(vm_compute; reflexivity) ltac:(reflexivity)
               ltac:(vm_compute; reflexivity)) ltac:(reflexivity))
      as [s1 [out [arch [_ [Hrun [Hfound [_ [_ [_ Htxt]]]]]]]]].
    rewrite Htxt. cbn [PETSc.run petsc_world tool] in Hrun.
    injection Hrun as Hout. subst out.
    vm_compute in Hfound. injection Hfound as Harch. subst arch.
    reflexivity.
  - rewrite (proj2 (petsc_module_extra_after_configure
               (petsc_world "3.5" ∅
                  ("Configure stage complete." ++ nl ++ "  PETSC_ARCH: arch-linux2-c-opt" ++ nl) 0)
               (petsc_state (petsc_cfg false false []) blas_fftw_env true)
               (fst (PETSc.configure_step
                       (petsc_world "3.5" ∅
                          ("Configure stage complete." ++ nl
                           ++ "  PETSC_ARCH: arch-linux2-c-opt" ++ nl) 0)
                       (petsc_state (petsc_cfg false false []) blas_fftw_env true)))
               "#%Module" (fun k v => nl ++ "setenv " ++ k ++ " " ++ v)
               ltac:(vm_compute; reflexivity) ltac:(reflexivity)
               ltac:(vm_compute; reflexivity)) ltac:(reflexivity)).
    reflexivity.
Defined.

(** ** Option strings only grow *)

(** X20: the configure steps never take anything away from an option
    string: whatever the version, the environment and the outcome, after the
    configure step of PETSc [configopts] and [buildopts] begin with what they
    held before, and so does [configopts] after the configure step of
    MVAPICH2. *)
Theorem option_strings_only_grow (w : PETSc.World) (s : PETSc.St)
    (run : string -> string * Z) (c : MVAPICH2.Cfg) :
  Py.startswith (PETSc.configopts (PETSc.cfg s))
                (PETSc.configopts (PETSc.cfg (fst (PETSc.configure_step w s)))) = true
  /\ Py.startswith (PETSc.buildopts (PETSc.cfg s))
                   (PETSc.buildopts (PETSc.cfg (fst (PETSc.configure_step w s)))) = true
  /\ Py.startswith (MVAPICH2.configopts c)
                   (MVAPICH2.configopts (fst (MVAPICH2.configure_step run c))) = true.
Proof.
  split; [|split].
  - assert (H : grows (fun s => PETSc.configopts (PETSc.cfg s)) (PETSc.configure_step w)).
    { unfold PETSc.configure_step. unfold_configure. grow. }
    apply H.
  - assert (H : grows (fun s => PETSc.buildopts (PETSc.cfg s)) (PETSc.configure_step w)).
    { unfold PETSc.configure_step. unfold_configure. grow. }
    apply H.
  - assert (H : grows MVAPICH2.configopts (MVAPICH2.configure_step run)).
    { unfold MVAPICH2.configure_step, MVAPICH2.configure_opts,
        MVAPICH2.super_configure_step, MVAPICH2.update_configopts. grow. }
    apply H.
Qed.
